(** * MoltBot: the signal fusion and decision engine

    A shallow embedding of the arithmetic core of the MoltBot backend
    (src/backend): the strategies, the strategy aggregator, the classifier
    ensemble aggregator, the sentiment aggregator, the probability
    combiner, the target price calculator and the serialization cleaner.

    Conventions of the embedding.
    - The numbers of the program are read twice.  The modules of the first
      part read them as exact rationals ([Q], with [fval] where a value
      that is not a number can occur): the order and range properties
      proved on them do not depend on the last bit of a float.  The modules
      of [Runtime] read them as the binary64 floats of the interpreter
      ([Number.t]): what a function returns, digit for digit, is stated on
      them.
    - The signal strings 'BUY', 'SELL' and 'NEUTRAL' are the three
      constructors of [Signal]; no producer in the repository emits another.
    - A Python dictionary read with [.get(key, default)] is a record of
      optional fields read with [get].
    - An exception is a value of [exn]; code that can raise returns a
      [result].
    - The indicator functions of the third-party [ta] package, which
      src/backend/pandas_ta.py forwards to, are parameters of the functions
      that call them; so are the builtin [sum], the rounding of numpy
      scalars and [numpy.mean], whose results depend on the versions of
      CPython and numpy. *)

From Stdlib Require Import QArith Qround Qabs Qminmax Qpower Qreduction.
From Stdlib Require Import ZArith List String Bool Lia Lqa.
Import ListNotations.
Open Scope Q_scope.

Set Warnings "-register-all".

(** ** Python builtins *)

Module Py.

(** [x < y] on numbers. *)
Definition ltb (x y : Q) : bool := negb (Qle_bool y x).

(** [min(a, b)]: the first argument unless the second is smaller. *)
Definition min (a b : Q) : Q := if ltb b a then b else a.

(** [max(a, b)]: the first argument unless the second is larger. *)
Definition max (a b : Q) : Q := if ltb a b then b else a.

(** [max(a, b, c)]. *)
Definition max3 (a b c : Q) : Q := max (max a b) c.

(** Rounding to the nearest integer, ties to the even one. *)
Definition round_half_even (x : Q) : Z :=
  let f := Qfloor x in
  let r := x - inject_Z f in
  if ltb r (1 # 2) then f
  else if ltb (1 # 2) r then (f + 1)%Z
  else if Z.even f then f else (f + 1)%Z.

(** [round(x, ndigits)]. *)
Definition round (x : Q) (ndigits : nat) : Q :=
  let s := inject_Z (10 ^ Z.of_nat ndigits) in
  inject_Z (round_half_even (x * s)) / s.

(** [x or d] for an optional number: [None] and [0] are falsy. *)
Definition or_default (x : option Q) (d : Q) : Q :=
  match x with
  | Some v => if Qeq_bool v 0 then d else v
  | None => d
  end.

(** [d.get(key, default)]. *)
Definition get {A : Type} (field : option A) (default : A) : A :=
  match field with
  | Some v => v
  | None => default
  end.

(** [sum(...)] of a list of numbers. *)
Definition sum (l : list Q) : Q := fold_left Qplus l 0.

(** [len(l)] as a number. *)
Definition len {A : Type} (l : list A) : Q := inject_Z (Z.of_nat (List.length l)).

(** [sum(1 for x in l if p x)]. *)
Definition count {A : Type} (p : A -> bool) (l : list A) : nat :=
  List.length (filter p l).

Definition of_nat (n : nat) : Q := inject_Z (Z.of_nat n).

End Py.

(** Exceptions the modelled code can raise. *)
Inductive exn : Type :=
| ZeroDivisionError
| IndexError
| ValueError
| OverflowError.

Inductive result (A : Type) : Type :=
| Ok (a : A)
| Raise (e : exn).

Arguments Ok {A} a.
Arguments Raise {A} e.

(** ** Signals *)

Inductive Signal : Type := BUY | SELL | NEUTRAL.

Definition Signal_eqb (a b : Signal) : bool :=
  match a, b with
  | BUY, BUY | SELL, SELL | NEUTRAL, NEUTRAL => true
  | _, _ => false
  end.

(** ** config.py: [Settings] *)

Module settings.

Definition STRATEGY_WEIGHT : Q := 0.40.
Definition ML_WEIGHT : Q := 0.35.
Definition NEWS_WEIGHT : Q := 0.25.
Definition MIN_CONFIDENCE_THRESHOLD : Q := 60.
Definition RSI_PERIOD : Z := 14.
Definition RSI_OVERBOUGHT : Q := 70.
Definition RSI_OVERSOLD : Q := 30.

Definition EMA_FAST : Z := 9.
Definition EMA_SLOW : Z := 21.
Definition MACD_FAST : Z := 12.
Definition MACD_SLOW : Z := 26.
Definition MACD_SIGNAL : Z := 9.
Definition BOLLINGER_PERIOD : Z := 20.
Definition BOLLINGER_STD : Z := 2.
Definition VOLUME_SPIKE_MULTIPLIER : Q := 2.0.

End settings.

(** ** prediction/probability_combiner.py *)

Module ProbabilityCombiner.

(** The combiner object: its three normalized weights. *)
Record t : Type := {
  strategy_weight : Q;
  ml_weight : Q;
  news_weight : Q
}.

(** [ProbabilityCombiner.__init__] (lines 29-37).  Dividing by a total of
    zero raises [ZeroDivisionError]. *)
Definition __init__ (strategy_weight ml_weight news_weight : option Q) : result t :=
  let strategy_weight := Py.or_default strategy_weight settings.STRATEGY_WEIGHT in
  let ml_weight := Py.or_default ml_weight settings.ML_WEIGHT in
  let news_weight := Py.or_default news_weight settings.NEWS_WEIGHT in
  let total_weight := strategy_weight + ml_weight + news_weight in
  if Qeq_bool total_weight 0 then Raise ZeroDivisionError
  else Ok {| strategy_weight := strategy_weight / total_weight;
             ml_weight := ml_weight / total_weight;
             news_weight := news_weight / total_weight |}.

(** A layer result as [combine] reads it: the keys 'signal' and
    'avg_confidence' (strategy, ml) or 'confidence' (news). *)
Record LayerResult : Type := {
  lr_signal : option Signal;
  lr_confidence : option Q
}.

Definition layer (s : Signal) (c : Q) : LayerResult :=
  {| lr_signal := Some s; lr_confidence := Some c |}.

Record BreakdownEntry : Type := {
  b_signal : Signal;
  b_confidence : Q
}.

Record Combined : Type := {
  final_signal : Signal;
  final_confidence : Q;
  final_score : Q;
  breakdown : BreakdownEntry * BreakdownEntry * BreakdownEntry
}.

(** [signal_map] (line 75). *)
Definition signal_map (s : Signal) : Q :=
  match s with
  | BUY => 1
  | SELL => -1
  | NEUTRAL => 0
  end.

(** Lines 81-91: the score before rounding. *)
Definition score (self : t) (strategy_signal : Signal) (strategy_confidence : Q)
  (ml_signal : Signal) (ml_confidence : Q)
  (news_signal : Signal) (news_confidence : Q) : Q :=
  let strategy_score := signal_map strategy_signal in
  let ml_score := signal_map ml_signal in
  let news_score := signal_map news_signal in
  let strategy_weighted := strategy_score * (strategy_confidence / 100) in
  let ml_weighted := ml_score * (ml_confidence / 100) in
  let news_weighted := news_score * (news_confidence / 100) in
  strategy_weighted * strategy_weight self +
  ml_weighted * ml_weight self +
  news_weighted * news_weight self.

(** Lines 94-98: the weighted average of the three confidences. *)
Definition weighted_confidence (self : t)
  (strategy_confidence ml_confidence news_confidence : Q) : Q :=
  strategy_confidence * strategy_weight self +
  ml_confidence * ml_weight self +
  news_confidence * news_weight self.

(** Lines 101-106. *)
Definition signal_of_score (final_score : Q) : Signal :=
  if Py.ltb 0.15 final_score then BUY
  else if Py.ltb final_score (-0.15) then SELL
  else NEUTRAL.

(** Lines 109-110. *)
Definition all_agree (strategy_signal ml_signal news_signal : Signal) : bool :=
  let all_buy := Signal_eqb strategy_signal BUY && Signal_eqb ml_signal BUY
                 && Signal_eqb news_signal BUY in
  let all_sell := Signal_eqb strategy_signal SELL && Signal_eqb ml_signal SELL
                  && Signal_eqb news_signal SELL in
  all_buy || all_sell.

(** Lines 117-118. *)
Definition disagree (strategy_signal ml_signal : Signal) : bool :=
  (Signal_eqb strategy_signal BUY && Signal_eqb ml_signal SELL)
  || (Signal_eqb strategy_signal SELL && Signal_eqb ml_signal BUY).

(** Lines 112-120: the two adjustments, in the order of the code. *)
Definition adjust (strategy_signal ml_signal news_signal : Signal)
  (final_confidence : Q) : Q :=
  let final_confidence :=
    if all_agree strategy_signal ml_signal news_signal
    then Py.min 100 (final_confidence + 15)
    else final_confidence in
  if disagree strategy_signal ml_signal
  then Py.max 0 (final_confidence - 20)
  else final_confidence.

(** [ProbabilityCombiner.combine] (lines 46-152). *)
Definition combine (self : t) (strategy_result ml_result news_result : LayerResult)
  : Combined :=
  let strategy_signal := Py.get (lr_signal strategy_result) NEUTRAL in
  let strategy_confidence := Py.get (lr_confidence strategy_result) 0 in
  let ml_signal := Py.get (lr_signal ml_result) NEUTRAL in
  let ml_confidence := Py.get (lr_confidence ml_result) 0 in
  let news_signal := Py.get (lr_signal news_result) NEUTRAL in
  let news_confidence := Py.get (lr_confidence news_result) 0 in
  let final_score :=
    score self strategy_signal strategy_confidence ml_signal ml_confidence
      news_signal news_confidence in
  let final_confidence :=
    weighted_confidence self strategy_confidence ml_confidence news_confidence in
  let final_signal := signal_of_score final_score in
  let final_confidence :=
    adjust strategy_signal ml_signal news_signal final_confidence in
  {| final_signal := final_signal;
     final_confidence := Py.round final_confidence 2;
     final_score := Py.round final_score 3;
     breakdown :=
       ({| b_signal := strategy_signal; b_confidence := strategy_confidence |},
        {| b_signal := ml_signal; b_confidence := ml_confidence |},
        {| b_signal := news_signal; b_confidence := news_confidence |}) |}.

End ProbabilityCombiner.


(** ** Numbers that may not be numbers

    A value of a float column: a number, NaN or an infinity.  The sign of a
    zero is not tracked. *)

Inductive fval : Type :=
| Num (q : Q)
| NaN
| Inf (positive : bool).

Module F.

(** [a < b]: false as soon as one side is NaN. *)
Definition ltb (a b : fval) : bool :=
  match a, b with
  | Num x, Num y => Py.ltb x y
  | Num _, Inf p => p
  | Inf p, Num _ => negb p
  | Inf p, Inf q => negb p && q
  | _, _ => false
  end.

(** [a <= b]. *)
Definition leb (a b : fval) : bool :=
  match a, b with
  | Num x, Num y => Qle_bool x y
  | Num _, Inf p => p
  | Inf p, Num _ => negb p
  | Inf p, Inf q => negb p || q
  | _, _ => false
  end.

Definition neg (a : fval) : fval :=
  match a with
  | Num x => Num (- x)
  | NaN => NaN
  | Inf p => Inf (negb p)
  end.

Definition add (a b : fval) : fval :=
  match a, b with
  | Num x, Num y => Num (x + y)
  | NaN, _ | _, NaN => NaN
  | Inf p, Num _ | Num _, Inf p => Inf p
  | Inf p, Inf q => if Bool.eqb p q then Inf p else NaN
  end.

Definition sub (a b : fval) : fval := add a (neg b).

Definition mul (a b : fval) : fval :=
  match a, b with
  | Num x, Num y => Num (x * y)
  | NaN, _ | _, NaN => NaN
  | Inf p, Num y | Num y, Inf p =>
      if Qeq_bool y 0 then NaN else Inf (Bool.eqb p (Py.ltb 0 y))
  | Inf p, Inf q => Inf (Bool.eqb p q)
  end.

(** Division of numpy floats: a zero divisor gives an infinity or NaN, not
    an exception. *)
Definition div (a b : fval) : fval :=
  match a, b with
  | Num x, Num y =>
      if Qeq_bool y 0
      then (if Qeq_bool x 0 then NaN else Inf (Py.ltb 0 x))
      else Num (x / y)
  | NaN, _ | _, NaN => NaN
  | Num _, Inf _ => Num 0
  | Inf p, Num y => Inf (Bool.eqb p (Qle_bool 0 y))
  | Inf _, Inf _ => NaN
  end.

Definition abs (a : fval) : fval :=
  match a with
  | Num x => Num (Qabs x)
  | NaN => NaN
  | Inf _ => Inf true
  end.

(** The builtins [min(a, b)] and [max(a, b)]: the first argument is kept
    unless the comparison with the second succeeds. *)
Definition min (a b : fval) : fval := if ltb b a then b else a.
Definition max (a b : fval) : fval := if ltb a b then b else a.

(** [round(x, ndigits)] leaves NaN and the infinities as they are. *)
Definition round (a : fval) (ndigits : nat) : fval :=
  match a with
  | Num x => Num (Py.round x ndigits)
  | _ => a
  end.

(** [math.isnan(x) or math.isinf(x)]. *)
Definition non_finite (a : fval) : bool :=
  match a with
  | Num _ => false
  | _ => true
  end.

(** [a == b]: false as soon as one side is NaN, so that [a != b] is true
    there. *)
Definition eqb (a b : fval) : bool :=
  match a, b with
  | Num x, Num y => Qeq_bool x y
  | Inf p, Inf q => Bool.eqb p q
  | _, _ => false
  end.

End F.

(** ** Binary64 numbers

    The numbers of the interpreter are IEEE 754 binary64 floats.  A finite
    float is read as the rational it denotes; an operation computes the
    exact result and rounds it to the nearest float, ties to the one with
    an even last bit, and to an infinity from 2^1024 on. *)

Module Binary64.

(** The exponent [e] with [2 ^ e <= q < 2 ^ (e + 1)], for a positive [q]. *)
Definition ilog2 (q : Q) : Z :=
  let e := (Z.log2 (Qnum q) - Z.log2 (Zpos (Qden q)))%Z in
  if Qle_bool (2 ^ e) q then e else (e - 1)%Z.

(** The exponent of the last place of the floats around [q]: 53
    significant bits, and no exponent below that of the subnormal
    numbers. *)
Definition ulp_exponent (q : Q) : Z := Z.max (ilog2 (Qabs q) - 52) (-1074).

(** The nearest multiple of the last place, ties to the even one. *)
Definition nearest (q : Q) : Q :=
  if Qeq_bool q 0 then 0
  else
    let k := ulp_exponent q in
    Qred (inject_Z (Py.round_half_even (q / 2 ^ k)) * 2 ^ k).

(** The float an exact result is rounded to. *)
Definition rnd (q : Q) : fval :=
  let r := nearest q in
  if Qle_bool (2 ^ 1024) (Qabs r) then Inf (Qle_bool 0 r) else Num r.

End Binary64.

Module F64.

(** The rounding of an exact result that may already be NaN or an
    infinity. *)
Definition fl (a : fval) : fval :=
  match a with
  | Num q => Binary64.rnd q
  | _ => a
  end.

(** A decimal literal of the source. *)
Definition lit (q : Q) : fval := Binary64.rnd q.

Definition add (a b : fval) : fval := fl (F.add a b).
Definition sub (a b : fval) : fval := fl (F.sub a b).
Definition mul (a b : fval) : fval := fl (F.mul a b).

(** Division as the hardware does it: a zero divisor gives an infinity or
    NaN.  Python raises instead when both operands are its own floats;
    see [Number.truediv]. *)
Definition div (a b : fval) : fval := fl (F.div a b).

(** Rounding to an integer, ties to the even one. *)
Definition rint (a : fval) : fval :=
  match a with
  | Num q => Num (inject_Z (Py.round_half_even q))
  | _ => a
  end.

(** [round(x, ndigits)] on a Python float: the float nearest to the
    decimal rounding (ties to even) of the exact value of [x]. *)
Definition py_round (a : fval) (ndigits : nat) : fval :=
  match a with
  | Num q => Binary64.rnd (Py.round q ndigits)
  | _ => a
  end.

(** [numpy.round(x, decimals)]: multiply by the power of ten, round to an
    integer, divide. *)
Definition np_round (a : fval) (decimals : nat) : fval :=
  match decimals with
  | O => rint a
  | _ =>
      let f := Num (inject_Z (10 ^ Z.of_nat decimals)) in
      div (rint (mul a f)) f
  end.

End F64.

(** The order of the floats that are not NaN. *)
Definition fle (a b : fval) : Prop := F.leb a b = true.

(** ** The numbers of the interpreter

    A number of the running program is a Python number (a [float], or an
    [int], read as the float of the same value: the integers of the
    modelled code are counts and percentages) or a [numpy.float64] taken
    from a data frame.  The two kinds share the binary64 arithmetic and
    differ in what a zero divisor does and in the routine behind
    [round]. *)

Inductive kind : Type := python | numpy.

Module Number.

Record t : Type := { kind_of : kind; value : fval }.

Definition float (v : fval) : t := {| kind_of := python; value := v |}.
Definition float64 (v : fval) : t := {| kind_of := numpy; value := v |}.

(** An integer and a decimal literal of the source. *)
Definition int (z : Z) : t := float (Num (inject_Z z)).
Definition lit (q : Q) : t := float (F64.lit q).

(** An operation on a Python number and a numpy scalar gives a numpy
    scalar. *)
Definition join (a b : kind) : kind :=
  match a, b with
  | python, python => python
  | _, _ => numpy
  end.

Definition lift2 (op : fval -> fval -> fval) (a b : t) : t :=
  {| kind_of := join (kind_of a) (kind_of b);
     value := op (value a) (value b) |}.

Definition add : t -> t -> t := lift2 F64.add.
Definition sub : t -> t -> t := lift2 F64.sub.
Definition mul : t -> t -> t := lift2 F64.mul.

(** [a / b] where the divisor is not zero. *)
Definition div : t -> t -> t := lift2 F64.div.

(** [a / b]: between Python numbers a zero divisor raises; numpy returns
    an infinity or NaN. *)
Definition truediv (a b : t) : result t :=
  if F.eqb (value b) (Num 0) then
    match kind_of a, kind_of b with
    | python, python => Raise ZeroDivisionError
    | _, _ => Ok (div a b)
    end
  else Ok (div a b).

Definition ltb (a b : t) : bool := F.ltb (value a) (value b).
Definition leb (a b : t) : bool := F.leb (value a) (value b).
Definition eqb (a b : t) : bool := F.eqb (value a) (value b).

(** The builtins [min(a, b)] and [max(a, b)]: the first argument is kept
    unless the comparison with the second succeeds. *)
Definition min (a b : t) : t := if ltb b a then b else a.
Definition max (a b : t) : t := if ltb a b then b else a.

(** The truth value of a number: it is not zero. *)
Definition truthy (a : t) : bool := negb (eqb a (int 0)).

End Number.

(** What depends on the versions of CPython and numpy: the builtin [sum],
    a left fold from the integer 0 before CPython 3.12 and on numpy
    scalars, a compensated sum on Python floats since; the [__round__] of
    a numpy scalar; and [numpy.mean], whose order of summation is
    numpy's. *)

Module Interpreter.

Record t : Type := {
  sum : list Number.t -> Number.t;
  np_round : fval -> nat -> fval;
  np_mean : list Q -> fval
}.

(** [round(x, ndigits)]: the [__round__] of the kind of [x]. *)
Definition round (env : t) (x : Number.t) (ndigits : nat) : Number.t :=
  match Number.kind_of x with
  | python => Number.float (F64.py_round (Number.value x) ndigits)
  | numpy => Number.float64 (np_round env (Number.value x) ndigits)
  end.

(** The left fold, the rounding numpy documents, and a mean that sums from
    the left. *)
Definition reference : t :=
  {| sum := fun l => fold_left Number.add l (Number.int 0);
     np_round := F64.np_round;
     np_mean := fun l =>
       F64.div (fold_left (fun acc x => F64.add acc (Num x)) l (Num 0))
               (Num (inject_Z (Z.of_nat (List.length l)))) |}.

(** The rounding of numpy scalars keeps the order. *)
Definition monotone (env : t) : Prop :=
  forall (a b : fval) (n : nat), fle a b -> fle (np_round env a n) (np_round env b n).

End Interpreter.

Declare Scope num_scope.
Delimit Scope num_scope with num.
Bind Scope num_scope with Number.t.
Infix "+" := Number.add : num_scope.
Infix "-" := Number.sub : num_scope.
Infix "*" := Number.mul : num_scope.
Infix "/" := Number.div : num_scope.
Infix "<?" := Number.ltb : num_scope.

(** ** Candles and data frames *)

Record Candle : Type := {
  timestamp : Z;
  open : Q;
  high : Q;
  low : Q;
  close : Q;
  volume : Q
}.

Definition DataFrame : Type := list Candle.

(** [series.iloc[-1]]: the last element, [IndexError] on an empty series. *)
Fixpoint iloc_last {A : Type} (l : list A) : result A :=
  match l with
  | [] => Raise IndexError
  | [x] => Ok x
  | _ :: l' => iloc_last l'
  end.

Definition bind {A B : Type} (r : result A) (k : A -> result B) : result B :=
  match r with
  | Ok a => k a
  | Raise e => Raise e
  end.

Notation "x <- e ;; k" := (bind e (fun x => k))
  (at level 61, e at next level, right associativity).

(** ** strategies/strategy_manager.py *)

Module StrategyManager.

(** What the aggregator reads of a strategy's result. *)
Record StrategyResult : Type := {
  strategy : string;
  signal : Signal;
  confidence : Q
}.

Record Combined : Type := {
  c_signal : Signal;
  avg_confidence : Q;
  strategies : list StrategyResult;
  buy_count : nat;
  sell_count : nat;
  neutral_count : nat;
  total_strategies : option nat
}.

Definition has_signal (s : Signal) (r : StrategyResult) : bool :=
  Signal_eqb (signal r) s.

(** Lines 99-123 of [_combine_strategies]: the signal and the confidence
    before it is rounded, for a list that is not empty. *)
Definition decide (results : list StrategyResult) : Signal * Q :=
  let buy_count := Py.count (has_signal BUY) results in
  let sell_count := Py.count (has_signal SELL) results in
  let neutral_count := Py.count (has_signal NEUTRAL) results in
  let total_confidence := Py.sum (map confidence results) in
  let avg_confidence := total_confidence / Py.len results in
  if (sell_count <? buy_count)%nat && (neutral_count <? buy_count)%nat then
    let agreement_boost := (Py.of_nat buy_count / Py.len results) * 20 in
    (BUY, Py.min 100 (avg_confidence + agreement_boost))
  else if (buy_count <? sell_count)%nat && (neutral_count <? sell_count)%nat then
    let agreement_boost := (Py.of_nat sell_count / Py.len results) * 20 in
    (SELL, Py.min 100 (avg_confidence + agreement_boost))
  else
    let max_count := Nat.max (Nat.max buy_count sell_count) neutral_count in
    let disagreement_penalty := (1 - Py.of_nat max_count / Py.len results) * 30 in
    (NEUTRAL, Py.max 0 (avg_confidence - disagreement_penalty)).

(** [StrategyManager._combine_strategies] (lines 79-133). *)
Definition _combine_strategies (results : list StrategyResult) : Combined :=
  match results with
  | [] =>
      {| c_signal := NEUTRAL; avg_confidence := 0; strategies := [];
         buy_count := 0; sell_count := 0; neutral_count := 0;
         total_strategies := None |}
  | _ =>
      let '(signal, avg_confidence) := decide results in
      {| c_signal := signal;
         avg_confidence := Py.round avg_confidence 2;
         strategies := results;
         buy_count := Py.count (has_signal BUY) results;
         sell_count := Py.count (has_signal SELL) results;
         neutral_count := Py.count (has_signal NEUTRAL) results;
         total_strategies := Some (List.length results) |}
  end.

(** A strategy object: its [calculate] method. *)
Definition Strategy : Type := DataFrame -> result StrategyResult.

Record t : Type := {
  self_strategies : list (string * Strategy);
  enabled_strategies : list (string * bool)
}.

(** [self.enabled_strategies.get(name, True)]. *)
Fixpoint enabled (flags : list (string * bool)) (name : string) : bool :=
  match flags with
  | [] => true
  | (n, b) :: rest => if String.eqb n name then b else enabled rest name
  end.

(** The loop of [calculate_all] (lines 56-65): a strategy that raises is
    logged and contributes no result. *)
Fixpoint run (flags : list (string * bool)) (l : list (string * Strategy))
  (df : DataFrame) : list StrategyResult :=
  match l with
  | [] => []
  | (name, strategy) :: rest =>
      if enabled flags name then
        match strategy df with
        | Ok result => result :: run flags rest df
        | Raise _ => run flags rest df
        end
      else run flags rest df
  end.

(** [StrategyManager.calculate_all] (lines 46-77). *)
Definition calculate_all (self : t) (df : DataFrame) : Combined :=
  let results := run (enabled_strategies self) (self_strategies self) df in
  _combine_strategies results.

(** [StrategyManager.set_enabled_strategies] (lines 135-143):
    [self.enabled_strategies.update(enabled)].  The flags are read with the
    first entry of a name, so the entries of the update go in front. *)
Definition set_enabled_strategies (self : t) (enabled : list (string * bool)) : t :=
  {| self_strategies := self_strategies self;
     enabled_strategies := enabled ++ enabled_strategies self |}.

(** [StrategyManager.get_strategy_list] (lines 145-147). *)
Definition get_strategy_list (self : t) : list string :=
  map fst (self_strategies self).

End StrategyManager.

(** ** ml/model_predictor.py *)

Module MLModelPredictor.

Record Prediction : Type := {
  model : string;
  signal : Signal;
  confidence : Q;
  prediction : Z
}.

Record Combined : Type := {
  c_signal : Signal;
  avg_confidence : Q;
  models : list Prediction;
  buy_count : nat;
  sell_count : nat;
  total_models : option nat
}.

Definition has_signal (s : Signal) (p : Prediction) : bool :=
  Signal_eqb (signal p) s.

(** Lines 227-248 of [_combine_predictions]: the signal and the confidence
    before it is rounded, for a list that is not empty. *)
Definition decide (predictions : list Prediction) : Signal * Q :=
  let buy_count := Py.count (has_signal BUY) predictions in
  let sell_count := Py.count (has_signal SELL) predictions in
  let total_confidence := Py.sum (map confidence predictions) in
  let avg_confidence := total_confidence / Py.len predictions in
  if (sell_count <? buy_count)%nat then
    let agreement_boost := (Py.of_nat buy_count / Py.len predictions) * 15 in
    (BUY, Py.min 100 (avg_confidence + agreement_boost))
  else if (buy_count <? sell_count)%nat then
    let agreement_boost := (Py.of_nat sell_count / Py.len predictions) * 15 in
    (SELL, Py.min 100 (avg_confidence + agreement_boost))
  else
    (NEUTRAL, Py.max 20 (avg_confidence - 20)).

(** [MLModelPredictor._combine_predictions] (lines 208-257). *)
Definition _combine_predictions (predictions : list Prediction) : Combined :=
  match predictions with
  | [] =>
      {| c_signal := NEUTRAL; avg_confidence := 0; models := [];
         buy_count := 0; sell_count := 0; total_models := None |}
  | _ =>
      let '(signal, avg_confidence) := decide predictions in
      {| c_signal := signal;
         avg_confidence := Py.round avg_confidence 2;
         models := predictions;
         buy_count := Py.count (has_signal BUY) predictions;
         sell_count := Py.count (has_signal SELL) predictions;
         total_models := Some (List.length predictions) |}
  end.

End MLModelPredictor.

(** ** strategies/rsi_strategy.py *)

Module RSIStrategy.

Record t : Type := {
  period : Z;
  overbought : Q;
  oversold : Q;
  name : string
}.

(** [period or settings.RSI_PERIOD] on an optional integer. *)
Definition or_period (x : option Z) (d : Z) : Z :=
  match x with
  | Some v => if (v =? 0)%Z then d else v
  | None => d
  end.

(** [RSIStrategy.__init__] (lines 31-34). *)
Definition __init__ (period : option Z) (overbought oversold : option Q) : t :=
  {| period := or_period period settings.RSI_PERIOD;
     overbought := Py.or_default overbought settings.RSI_OVERBOUGHT;
     oversold := Py.or_default oversold settings.RSI_OVERSOLD;
     name := "RSI" |}.

Record Result : Type := {
  strategy : string;
  signal : Signal;
  confidence : fval;
  value : fval;
  thresholds : option (Q * Q);
  error : option exn
}.

(** Lines 52-65: the signal and the confidence for a reading. *)
Definition classify (self : t) (current_rsi : fval) : Signal * fval :=
  if F.leb current_rsi (Num (oversold self)) then
    (BUY,
     F.min (Num 100)
       (F.add (Num 50) (F.mul (F.sub (Num (oversold self)) current_rsi) (Num 2))))
  else if F.leb (Num (overbought self)) current_rsi then
    (SELL,
     F.min (Num 100)
       (F.add (Num 50) (F.mul (F.sub current_rsi (Num (overbought self))) (Num 2))))
  else
    let distance_from_neutral := F.abs (F.sub current_rsi (Num 50)) in
    (NEUTRAL, F.max (Num 20) distance_from_neutral).

Section Indicator.

(** [ta.rsi(close, length)]: the oscillator series of the [ta] package. *)
Variable ta_rsi : list Q -> Z -> result (list fval).

(** [RSIStrategy.calculate] (lines 37-87). *)
Definition calculate (self : t) (df : DataFrame) : Result :=
  let attempt :=
    rsi <- ta_rsi (map close df) (period self) ;;
    current_rsi <- iloc_last rsi ;;
    let '(signal, confidence) := classify self current_rsi in
    Ok {| strategy := name self;
          signal := signal;
          confidence := F.round confidence 2;
          value := F.round current_rsi 2;
          thresholds := Some (overbought self, oversold self);
          error := None |} in
  match attempt with
  | Ok result => result
  | Raise e =>
      {| strategy := name self;
         signal := NEUTRAL;
         confidence := Num 0;
         value := Num 0;
         thresholds := None;
         error := Some e |}
  end.

End Indicator.

End RSIStrategy.

(** ** prediction/target_price_calculator.py *)

Module TargetPriceCalculator.

Inductive TargetType : Type := HIGH | LOW.

Inductive Reason : Type :=
| ConfidenceBelowThreshold (min_confidence : Q)
| SignalIsNeutral.

Record t : Type := { atr_period : Z }.

(** [TargetPriceCalculator.__init__] with its default period. *)
Definition __init__ (atr_period : option Z) : t :=
  {| atr_period := match atr_period with Some p => p | None => 14%Z end |}.

(** The dictionary [calculate_target] returns; the keys that one of the two
    shapes does not have are [None]. *)
Record Target : Type := {
  target_price : option fval;
  target_type : option TargetType;
  current_price : Q;
  reason : option Reason;
  atr : option fval;
  confidence_factor : option Q;
  price_movement : option fval;
  pct_move : option fval
}.

(** Lines 72-84: the target before rounding. *)
Definition confidence_factor_of (confidence : Q) : Q :=
  0.5 + (confidence / 100) * 1.5.

Definition movement_of (current_atr : fval) (confidence : Q) : fval :=
  F.mul current_atr (Num (confidence_factor_of confidence)).

Definition target_of (signal : Signal) (current_price : Q) (price_movement : fval)
  : fval * TargetType :=
  match signal with
  | BUY => (F.add (Num current_price) price_movement, HIGH)
  | _ => (F.sub (Num current_price) price_movement, LOW)
  end.

Definition gated (current_price : Q) (why : Reason) : Target :=
  {| target_price := None; target_type := None;
     current_price := current_price; reason := Some why;
     atr := None; confidence_factor := None;
     price_movement := None; pct_move := None |}.

Section Indicator.

(** [ta.atr(high, low, close, length)]: the average true range series of
    the [ta] package. *)
Variable ta_atr : DataFrame -> Z -> result (list fval).

(** The body of the [try] of [calculate_target] (lines 46-106). *)
Definition attempt (self : t) (df : DataFrame) (signal : Signal)
  (confidence min_confidence : Q) : result Target :=
  if Py.ltb confidence min_confidence then
    current_price <- iloc_last (map close df) ;;
    Ok (gated current_price (ConfidenceBelowThreshold min_confidence))
  else if Signal_eqb signal NEUTRAL then
    current_price <- iloc_last (map close df) ;;
    Ok (gated current_price SignalIsNeutral)
  else
    atr <- ta_atr df (atr_period self) ;;
    current_atr <- iloc_last atr ;;
    current_price <- iloc_last (map close df) ;;
    let confidence_factor := confidence_factor_of confidence in
    let price_movement := movement_of current_atr confidence in
    let '(target_price, target_type) :=
      target_of signal current_price price_movement in
    let pct_move :=
      F.mul (F.div (F.sub target_price (Num current_price)) (Num current_price))
            (Num 100) in
    Ok {| target_price := Some (F.round target_price 2);
          target_type := Some target_type;
          current_price := Py.round current_price 2;
          reason := None;
          atr := Some (F.round current_atr 2);
          confidence_factor := Some (Py.round confidence_factor 2);
          price_movement := Some (F.round price_movement 2);
          pct_move := Some (F.round pct_move 2) |}.

(** [TargetPriceCalculator.calculate_target] (lines 26-110): any exception
    is logged and the method returns [None]. *)
Definition calculate_target (self : t) (df : DataFrame) (signal : Signal)
  (confidence min_confidence : Q) : option Target :=
  match attempt self df signal confidence min_confidence with
  | Ok result => Some result
  | Raise _ => None
  end.

End Indicator.

(** A stand-in for the indicator on windows of constant price: every true
    range is zero there, and so is their average. *)
Definition zero_atr (df : DataFrame) (length : Z) : result (list fval) :=
  Ok (map (fun _ => Num 0) df).

Definition flat_candle (ts : Z) (price : Q) : Candle :=
  {| timestamp := ts; open := price; high := price; low := price;
     close := price; volume := 1 |}.

(** Fourteen candles at the price 100. *)
Definition flat_window : DataFrame :=
  map (fun ts => flat_candle ts 100)
      [1; 2; 3; 4; 5; 6; 7; 8; 9; 10; 11; 12; 13; 14]%Z.

(** Lines 131-140 of [calculate_stop_loss]: the stop before rounding.  Any
    signal other than BUY takes the branch of SELL. *)
Definition stop_loss_of (current_price : Q) (signal : Signal) (atr risk_pct : Q)
  : Q :=
  let atr_stop := current_price - (atr * 1.5) in
  let pct_stop := current_price * (1 - risk_pct / 100) in
  if Signal_eqb signal BUY then Py.max atr_stop pct_stop
  else
    let atr_stop := current_price + (atr * 1.5) in
    let pct_stop := current_price * (1 + risk_pct / 100) in
    Py.min atr_stop pct_stop.

(** [TargetPriceCalculator.calculate_stop_loss] (lines 112-142). *)
Definition calculate_stop_loss (self : t) (current_price : Q) (signal : Signal)
  (atr risk_pct : Q) : Q :=
  Py.round (stop_loss_of current_price signal atr risk_pct) 2.

End TargetPriceCalculator.

(** ** data/news_sentiment_fetcher.py *)

Module NewsSentimentFetcher.

(** What [get_fear_greed_index] returns when the request succeeds. *)
Record FearGreed : Type := {
  fg_value : Z;
  fg_sentiment_score : Q;
  fg_confidence : Q
}.

(** Lines 41-57: the reading for an index value between 0 and 100. *)
Definition fear_greed_of_value (value : Z) : FearGreed :=
  {| fg_value := value;
     fg_sentiment_score := (inject_Z value - 50) / 50;
     fg_confidence := Py.min 100 (Qabs (inject_Z value - 50) * 2) |}.

(** A news item of [get_cryptopanic_news]. *)
Record NewsItem : Type := {
  n_sentiment_score : Q;
  n_confidence : Q
}.

(** An entry of the list [sentiments]. *)
Record Sentiment : Type := {
  score : Q;
  confidence : Q;
  source : string
}.

Record Aggregated : Type := {
  sentiment_score : Q;
  a_confidence : Q;
  signal : Signal;
  num_sources : nat
}.

(** Lines 207-231: the sources that are present, with the confidence of
    each already scaled by the weight of its source. *)
Definition collect (fg_index : option FearGreed) (news : list NewsItem)
  : list Sentiment :=
  let sentiments :=
    match fg_index with
    | Some fg =>
        [ {| score := fg_sentiment_score fg;
             confidence := fg_confidence fg * 0.3;
             source := "fear_greed" |} ]
    | None => []
    end in
  match news with
  | [] => sentiments
  | _ =>
      let news_scores :=
        filter (fun s => negb (Qeq_bool s 0)) (map n_sentiment_score news) in
      match news_scores with
      | [] => sentiments
      | _ =>
          let avg_score := Py.sum news_scores / Py.len news_scores in
          let avg_confidence := Py.sum (map n_confidence news) / Py.len news in
          sentiments ++
          [ {| score := avg_score;
               confidence := avg_confidence * 0.7;
               source := "cryptopanic" |} ]
      end
  end.

(** Lines 245-250. *)
Definition signal_of_score (weighted_score : Q) : Signal :=
  if Py.ltb 0.2 weighted_score then BUY
  else if Py.ltb weighted_score (-0.2) then SELL
  else NEUTRAL.

(** The neutral default of lines 274-281. *)
Definition neutral : Aggregated :=
  {| sentiment_score := 0; a_confidence := 0; signal := NEUTRAL;
     num_sources := 0 |}.

(** [NewsSentimentFetcher.get_aggregated_sentiment] (lines 191-285), as a
    function of what the two fetchers returned. *)
Definition get_aggregated_sentiment (fg_index : option FearGreed)
  (news : list NewsItem) : Aggregated :=
  let sentiments := collect fg_index news in
  match sentiments with
  | [] => neutral
  | _ =>
      let total_weight := Py.sum (map confidence sentiments) in
      if Py.ltb 0 total_weight then
        let weighted_score :=
          Py.sum (map (fun s => score s * confidence s) sentiments)
          / total_weight in
        let avg_confidence :=
          Py.sum (map confidence sentiments) / Py.len sentiments in
        {| sentiment_score := weighted_score;
           a_confidence := Py.round avg_confidence 2;
           signal := signal_of_score weighted_score;
           num_sources := List.length sentiments |}
      else neutral
  end.

(** [NewsSentimentFetcher._analyze_text_sentiment] (lines 160-189), as a
    function of what TextBlob returns for the text: its polarity and its
    subjectivity, or an exception.  The result is the score and the
    confidence. *)
Definition _analyze_text_sentiment (blob : result (Q * Q)) : Q * Q :=
  match blob with
  | Ok (polarity, subjectivity) =>
      let confidence := Py.min 100 (subjectivity * 100) in
      let confidence := if Py.ltb confidence 20 then 20 else confidence in
      (polarity, confidence)
  | Raise _ => (0, 0)
  end.

(** The news item lines 135-144 build from an analysed title. *)
Definition news_item_of (blob : result (Q * Q)) : NewsItem :=
  let sentiment := _analyze_text_sentiment blob in
  {| n_sentiment_score := fst sentiment; n_confidence := snd sentiment |}.

End NewsSentimentFetcher.

(** ** prediction/prediction_engine.py: the serialization cleaner *)

Module PredictionEngine.

(** The values [_clean_for_serialization] tells apart. *)
Inductive pyval : Type :=
| PNone
| PBool (b : bool)
| PInt (z : Z)
| PFloat (f : fval)
| PStr (s : string)
| PDict (items : list (string * pyval))
| PList (l : list pyval)
| PTuple (l : list pyval)
| PNdarray (l : list pyval)
| PSeries (items : list (string * pyval))
| PDataFrame (records : list (list (string * pyval)))
| NpFloat64 (f : fval)
| NpInt64 (z : Z)
| NpBool (b : bool)
| PDatetime (isoformat : string).

(** [PredictionEngine._clean_for_serialization] (lines 164-190).  A numpy
    scalar has an [item] method and leaves at line 177, before the test of
    line 186. *)
Fixpoint _clean_for_serialization (obj : pyval) : pyval :=
  match obj with
  | PDict items =>
      PDict (map (fun '(k, v) => (k, _clean_for_serialization v)) items)
  | PList l | PTuple l | PNdarray l =>
      PList (map _clean_for_serialization l)
  | PSeries items =>
      PDict (map (fun '(k, v) => (k, _clean_for_serialization v)) items)
  | PDataFrame records =>
      PList (map (fun row =>
        PDict (map (fun '(k, v) => (k, _clean_for_serialization v)) row))
        records)
  | NpFloat64 f => PFloat f
  | NpInt64 z => PInt z
  | NpBool b => PBool b
  | PDatetime isoformat => PStr isoformat
  | PFloat f => if F.non_finite f then PNone else obj
  | PNone | PBool _ | PInt _ | PStr _ => obj
  end.

(** Does a serialized structure still hold NaN or an infinity? *)
Fixpoint emits_non_finite (obj : pyval) : bool :=
  match obj with
  | PFloat f | NpFloat64 f => F.non_finite f
  | PDict items | PSeries items =>
      existsb (fun '(_, v) => emits_non_finite v) items
  | PList l | PTuple l | PNdarray l => existsb emits_non_finite l
  | PDataFrame records =>
      existsb (fun row => existsb (fun '(_, v) => emits_non_finite v) row) records
  | PNone | PBool _ | PInt _ | PStr _ | NpInt64 _ | NpBool _ | PDatetime _ => false
  end.

(** Does a structure hold a numpy float that is NaN or an infinity? *)
Fixpoint holds_non_finite_numpy (obj : pyval) : bool :=
  match obj with
  | NpFloat64 f => F.non_finite f
  | PDict items | PSeries items =>
      existsb (fun '(_, v) => holds_non_finite_numpy v) items
  | PList l | PTuple l | PNdarray l => existsb holds_non_finite_numpy l
  | PDataFrame records =>
      existsb (fun row => existsb (fun '(_, v) => holds_non_finite_numpy v) row)
        records
  | PNone | PBool _ | PInt _ | PFloat _ | PStr _ | NpInt64 _ | NpBool _
  | PDatetime _ => false
  end.

(** The values JSON has: [None], booleans, integers, floats, strings,
    dictionaries and lists of such values. *)
Fixpoint json_native (obj : pyval) : bool :=
  match obj with
  | PNone | PBool _ | PInt _ | PFloat _ | PStr _ => true
  | PDict items => forallb (fun '(_, v) => json_native v) items
  | PList l => forallb json_native l
  | PTuple _ | PNdarray _ | PSeries _ | PDataFrame _
  | NpFloat64 _ | NpInt64 _ | NpBool _ | PDatetime _ => false
  end.

(** The entry 'final' of a prediction. *)
Record Final : Type := {
  f_signal : Signal;
  f_confidence : Q;
  f_target_price : option fval;
  f_target_type : option TargetPriceCalculator.TargetType;
  meets_threshold : bool
}.

(** The entry 'final' of [_empty_prediction] (lines 192-207). *)
Definition empty_final : Final :=
  {| f_signal := NEUTRAL; f_confidence := 0; f_target_price := None;
     f_target_type := None; meets_threshold := false |}.

Section Indicator.

Variable ta_atr : DataFrame -> Z -> result (list fval).

(** Steps 5 to 8 of [predict] (lines 80-136), from the three layer results
    to the entry 'final': a missing news result is NEUTRAL at 0, the
    combined signal and confidence go to the target calculator, and a
    target result of [None] gives a null price and type. *)
Definition final_of (combiner : ProbabilityCombiner.t)
  (calculator : TargetPriceCalculator.t) (df : DataFrame)
  (strategy_result ml_result : ProbabilityCombiner.LayerResult)
  (news_result : option ProbabilityCombiner.LayerResult)
  (min_confidence : Q) : Final :=
  let news_result :=
    match news_result with
    | Some r => r
    | None => ProbabilityCombiner.layer NEUTRAL 0
    end in
  let combined :=
    ProbabilityCombiner.combine combiner strategy_result ml_result news_result in
  let final_signal := ProbabilityCombiner.final_signal combined in
  let final_confidence := ProbabilityCombiner.final_confidence combined in
  let target_result :=
    TargetPriceCalculator.calculate_target ta_atr calculator df final_signal
      final_confidence min_confidence in
  {| f_signal := final_signal;
     f_confidence := final_confidence;
     f_target_price :=
       match target_result with
       | Some t => TargetPriceCalculator.target_price t
       | None => None
       end;
     f_target_type :=
       match target_result with
       | Some t => TargetPriceCalculator.target_type t
       | None => None
       end;
     meets_threshold := Qle_bool min_confidence final_confidence |}.

(** The entry 'final' of [predict] (lines 60-162) as a function of what the
    collaborators returned: no market data, or a window whose last close
    cannot be read (line 71), gives the empty prediction. *)
Definition predict_final (combiner : ProbabilityCombiner.t)
  (calculator : TargetPriceCalculator.t) (df : option DataFrame)
  (strategy_result ml_result : ProbabilityCombiner.LayerResult)
  (news_result : option ProbabilityCombiner.LayerResult)
  (min_confidence : Q) : Final :=
  match df with
  | None => empty_final
  | Some df =>
      match iloc_last (map close df) with
      | Raise _ => empty_final
      | Ok _ =>
          final_of combiner calculator df strategy_result ml_result
            news_result min_confidence
      end
  end.

End Indicator.

End PredictionEngine.

(** ** strategies/support_resistance.py *)

Module SupportResistanceStrategy.

Record t : Type := {
  lookback : Z;
  threshold : Q;
  name : string
}.

(** [SupportResistanceStrategy.__init__] (lines 16-27). *)
Definition __init__ (lookback : option Z) (threshold : option Q) : t :=
  {| lookback := match lookback with Some n => n | None => 50%Z end;
     threshold := match threshold with Some x => x | None => 0.02 end;
     name := "Support/Resistance" |}.

(** [df.tail(n)]: the last [n] rows, and for a negative [n] all rows but
    the first [-n]. *)
Definition tail {A : Type} (n : Z) (l : list A) : list A :=
  if (0 <=? n)%Z then skipn (List.length l - Z.to_nat n) l
  else skipn (Z.to_nat (- n)) l.

(** The loop of [_find_pivots] (lines 40-53) on one column: the values that
    beat the two values before them and the two values after them. *)
Fixpoint pivots (beats : Q -> Q -> bool) (column : list Q) : list Q :=
  match column with
  | [] => []
  | a :: rest =>
      match rest with
      | b :: c :: d :: e :: _ =>
          if beats c b && beats c a && beats c d && beats c e
          then c :: pivots beats rest
          else pivots beats rest
      | _ => []
      end
  end.

(** [_find_pivots] (lines 29-55): the pivot lows, then the pivot highs. *)
Definition _find_pivots (df : DataFrame) : list Q * list Q :=
  let highs := pivots (fun x y => Py.ltb y x) (map high df) in
  let lows := pivots (fun x y => Py.ltb x y) (map low df) in
  (lows, highs).

(** [sorted(levels)]. *)
Fixpoint insert (x : Q) (l : list Q) : list Q :=
  match l with
  | [] => [x]
  | y :: rest => if Qle_bool x y then x :: l else y :: insert x rest
  end.

Definition sorted (l : list Q) : list Q := fold_right insert [] l.

(** [np.mean(cluster)]. *)
Definition mean (cluster : list Q) : Q := Py.sum cluster / Py.len cluster.

(** The test of line 76, on numpy floats: a zero divisor raises nothing. *)
Definition within (self : t) (previous level : Q) : bool :=
  F.leb (F.div (Num (level - previous)) (Num previous)) (Num (threshold self)).

(** The loop of [_cluster_levels] (lines 74-85).  [current_cluster] is
    never empty there; [last] has a default only to be total. *)
Fixpoint cluster_loop (self : t) (levels clustered current_cluster : list Q)
  : list Q :=
  match levels with
  | [] =>
      match current_cluster with
      | [] => clustered
      | _ => clustered ++ [mean current_cluster]
      end
  | level :: rest =>
      if within self (last current_cluster 0) level
      then cluster_loop self rest clustered (current_cluster ++ [level])
      else cluster_loop self rest (clustered ++ [mean current_cluster]) [level]
  end.

(** [_cluster_levels] (lines 57-87). *)
Definition _cluster_levels (self : t) (levels : list Q) : list Q :=
  match levels with
  | [] => []
  | _ =>
      match sorted levels with
      | [] => []
      | first :: rest => cluster_loop self rest [] [first]
      end
  end.

(** The loop of lines 116-119: the highest level below the price. *)
Definition nearest_below (current_price : Q) (levels : list Q) : option Q :=
  fold_left
    (fun nearest level =>
       if Py.ltb level current_price then
         match nearest with
         | None => Some level
         | Some n => if Py.ltb n level then Some level else nearest
         end
       else nearest)
    levels None.

(** The loop of lines 121-124: the lowest level above the price. *)
Definition nearest_above (current_price : Q) (levels : list Q) : option Q :=
  fold_left
    (fun nearest level =>
       if Py.ltb current_price level then
         match nearest with
         | None => Some level
         | Some n => if Py.ltb level n then Some level else nearest
         end
       else nearest)
    levels None.

(** The truth value of an optional numpy float: NaN and the infinities are
    truthy. *)
Definition ftruthy (x : option fval) : bool :=
  match x with
  | Some (Num v) => negb (Qeq_bool v 0)
  | Some _ => true
  | None => false
  end.

End SupportResistanceStrategy.

(** [series.iloc[-2]]: the element before the last, [IndexError] on a
    series of fewer than two elements. *)
Fixpoint iloc_prev {A : Type} (l : list A) : result A :=
  match l with
  | [] => Raise IndexError
  | x :: rest =>
      match rest with
      | [] => Raise IndexError
      | [_] => Ok x
      | _ => iloc_prev rest
      end
  end.

(** ** strategies/ema_crossover.py *)

Module EMACrossoverStrategy.

Record t : Type := {
  fast : Z;
  slow : Z;
  name : string
}.

(** [EMACrossoverStrategy.__init__] (lines 17-28). *)
Definition __init__ (fast slow : option Z) : t :=
  {| fast := RSIStrategy.or_period fast settings.EMA_FAST;
     slow := RSIStrategy.or_period slow settings.EMA_SLOW;
     name := "EMA Crossover" |}.

Record Result : Type := {
  strategy : string;
  signal : Signal;
  confidence : fval;
  ema_fast : fval;
  ema_slow : fval;
  diff_percent : fval;
  golden_cross : bool;
  death_cross : bool;
  error : option exn
}.

(** Line 53. *)
Definition diff_percent_of (current_fast current_slow : fval) : fval :=
  F.mul (F.div (F.sub current_fast current_slow) current_slow) (Num 100).

(** Lines 56-57. *)
Definition golden_cross_of (current_fast current_slow prev_fast prev_slow : fval)
  : bool :=
  F.leb prev_fast prev_slow && F.ltb current_slow current_fast.

Definition death_cross_of (current_fast current_slow prev_fast prev_slow : fval)
  : bool :=
  F.leb prev_slow prev_fast && F.ltb current_fast current_slow.

(** Lines 59-68: the signal and the confidence. *)
Definition classify (current_fast current_slow prev_fast prev_slow : fval)
  : Signal * fval :=
  let diff_percent := diff_percent_of current_fast current_slow in
  let golden_cross :=
    golden_cross_of current_fast current_slow prev_fast prev_slow in
  let death_cross :=
    death_cross_of current_fast current_slow prev_fast prev_slow in
  if golden_cross
     || (F.ltb current_slow current_fast
         && F.ltb (Num 0.5) (F.abs diff_percent)) then
    (BUY, F.min (Num 100) (F.add (Num 50) (F.mul (F.abs diff_percent) (Num 10))))
  else if death_cross
          || (F.ltb current_fast current_slow
              && F.ltb (Num 0.5) (F.abs diff_percent)) then
    (SELL, F.min (Num 100) (F.add (Num 50) (F.mul (F.abs diff_percent) (Num 10))))
  else
    (NEUTRAL, F.max (Num 20) (F.sub (Num 40) (F.mul (F.abs diff_percent) (Num 5)))).

Section Indicator.

(** [ta.ema(close, length)]: the moving average series of the [ta]
    package. *)
Variable ta_ema : list Q -> Z -> result (list fval).

(** [EMACrossoverStrategy.calculate] (lines 30-91). *)
Definition calculate (self : t) (df : DataFrame) : Result :=
  let attempt :=
    ema_fast <- ta_ema (map close df) (fast self) ;;
    ema_slow <- ta_ema (map close df) (slow self) ;;
    current_fast <- iloc_last ema_fast ;;
    current_slow <- iloc_last ema_slow ;;
    prev_fast <- iloc_prev ema_fast ;;
    prev_slow <- iloc_prev ema_slow ;;
    let '(signal, confidence) :=
      classify current_fast current_slow prev_fast prev_slow in
    Ok {| strategy := name self;
          signal := signal;
          confidence := F.round confidence 2;
          ema_fast := F.round current_fast 2;
          ema_slow := F.round current_slow 2;
          diff_percent := F.round (diff_percent_of current_fast current_slow) 3;
          golden_cross :=
            golden_cross_of current_fast current_slow prev_fast prev_slow;
          death_cross :=
            death_cross_of current_fast current_slow prev_fast prev_slow;
          error := None |} in
  match attempt with
  | Ok result => result
  | Raise e =>
      {| strategy := name self;
         signal := NEUTRAL;
         confidence := Num 0;
         ema_fast := Num 0;
         ema_slow := Num 0;
         diff_percent := Num 0;
         golden_cross := false;
         death_cross := false;
         error := Some e |}
  end.

End Indicator.

End EMACrossoverStrategy.

(** ** strategies/macd_strategy.py *)

Module MACDStrategy.

Record t : Type := {
  fast : Z;
  slow : Z;
  signal_period : Z;
  name : string
}.

(** [MACDStrategy.__init__] (lines 17-30). *)
Definition __init__ (fast slow signal : option Z) : t :=
  {| fast := RSIStrategy.or_period fast settings.MACD_FAST;
     slow := RSIStrategy.or_period slow settings.MACD_SLOW;
     signal_period := RSIStrategy.or_period signal settings.MACD_SIGNAL;
     name := "MACD" |}.

Record Result : Type := {
  strategy : string;
  signal : Signal;
  confidence : fval;
  macd : fval;
  signal_line : fval;
  histogram : fval;
  bullish_cross : bool;
  bearish_cross : bool;
  error : option exn
}.

(** Lines 64-65. *)
Definition bullish_cross_of (current_macd current_signal prev_macd prev_signal : fval)
  : bool :=
  F.leb prev_macd prev_signal && F.ltb current_signal current_macd.

Definition bearish_cross_of (current_macd current_signal prev_macd prev_signal : fval)
  : bool :=
  F.leb prev_signal prev_macd && F.ltb current_macd current_signal.

(** Lines 68-79: the signal and the confidence. *)
Definition classify
  (current_macd current_signal current_hist prev_macd prev_signal : fval)
  : Signal * fval :=
  let bullish_cross :=
    bullish_cross_of current_macd current_signal prev_macd prev_signal in
  let bearish_cross :=
    bearish_cross_of current_macd current_signal prev_macd prev_signal in
  let hist_strength := F.abs current_hist in
  if bullish_cross
     || (F.ltb current_signal current_macd && F.ltb (Num 0) current_hist) then
    (BUY, F.min (Num 100) (F.add (Num 50) (F.mul hist_strength (Num 5))))
  else if bearish_cross
          || (F.ltb current_macd current_signal && F.ltb current_hist (Num 0)) then
    (SELL, F.min (Num 100) (F.add (Num 50) (F.mul hist_strength (Num 5))))
  else
    (NEUTRAL, F.max (Num 20) (F.sub (Num 40) (F.mul hist_strength (Num 2)))).

Section Indicator.

(** [ta.macd(close, fast, slow, signal)]: the three columns of the frame
    src/backend/pandas_ta.py builds, the line, its signal line and the
    histogram. *)
Variable ta_macd :
  list Q -> Z -> Z -> Z -> result (list fval * list fval * list fval).

(** [MACDStrategy.calculate] (lines 32-102). *)
Definition calculate (self : t) (df : DataFrame) : Result :=
  let attempt :=
    macd_result <-
      ta_macd (map close df) (fast self) (slow self) (signal_period self) ;;
    let '(macd_line, signal_line, histogram) := macd_result in
    current_macd <- iloc_last macd_line ;;
    current_signal <- iloc_last signal_line ;;
    current_hist <- iloc_last histogram ;;
    prev_macd <- iloc_prev macd_line ;;
    prev_signal <- iloc_prev signal_line ;;
    let '(signal, confidence) :=
      classify current_macd current_signal current_hist prev_macd prev_signal in
    Ok {| strategy := name self;
          signal := signal;
          confidence := F.round confidence 2;
          macd := F.round current_macd 2;
          signal_line := F.round current_signal 2;
          histogram := F.round current_hist 2;
          bullish_cross :=
            bullish_cross_of current_macd current_signal prev_macd prev_signal;
          bearish_cross :=
            bearish_cross_of current_macd current_signal prev_macd prev_signal;
          error := None |} in
  match attempt with
  | Ok result => result
  | Raise e =>
      {| strategy := name self;
         signal := NEUTRAL;
         confidence := Num 0;
         macd := Num 0;
         signal_line := Num 0;
         histogram := Num 0;
         bullish_cross := false;
         bearish_cross := false;
         error := Some e |}
  end.

End Indicator.

End MACDStrategy.

(** ** strategies/volume_spike.py *)

Module VolumeSpikeStrategy.

Record t : Type := {
  multiplier : Q;
  period : Z;
  name : string
}.

(** [VolumeSpikeStrategy.__init__] (lines 17-28). *)
Definition __init__ (multiplier : option Q) (period : option Z) : t :=
  {| multiplier := Py.or_default multiplier settings.VOLUME_SPIKE_MULTIPLIER;
     period := match period with Some p => p | None => 20%Z end;
     name := "Volume Spike" |}.

(** What [calculate] can catch: the exceptions of the series, and the
    [OverflowError] of [int] on an infinity. *)
Inductive failure : Type :=
| Raised (e : exn)
| OverflowError.

(** [int(x)] on a float: truncation toward zero; NaN is a [ValueError] and
    an infinity an [OverflowError]. *)
Definition int (x : fval) : failure + Z :=
  match x with
  | Num q => inr (if Qle_bool 0 q then Qfloor q else Qceiling q)
  | NaN => inl (Raised ValueError)
  | Inf _ => inl OverflowError
  end.

Record Result : Type := {
  strategy : string;
  signal : Signal;
  confidence : fval;
  current_volume : Z;
  avg_volume : Z;
  volume_ratio : fval;
  price_change_pct : fval;
  is_spike : bool;
  error : option failure
}.

(** Line 50. *)
Definition price_change_pct_of (current_close prev_close : Q) : fval :=
  F.mul (F.div (Num (current_close - prev_close)) (Num prev_close)) (Num 100).

(** Lines 53-56. *)
Definition volume_ratio_of (current_volume : Q) (avg_volume : fval) : fval :=
  if F.ltb (Num 0) avg_volume then F.div (Num current_volume) avg_volume
  else Num 1.

(** Lines 59-79: the signal and the confidence. *)
Definition classify (self : t) (volume_ratio price_change_pct : fval)
  : Signal * fval :=
  let is_spike := F.leb (Num (multiplier self)) volume_ratio in
  if is_spike then
    if F.ltb (Num 1) price_change_pct then
      (BUY,
       F.min (Num 100)
         (F.add (F.add (Num 50)
                   (F.mul (F.sub volume_ratio (Num (multiplier self))) (Num 15)))
                (F.mul (F.abs price_change_pct) (Num 3))))
    else if F.ltb price_change_pct (Num (-1)) then
      (SELL,
       F.min (Num 100)
         (F.add (F.add (Num 50)
                   (F.mul (F.sub volume_ratio (Num (multiplier self))) (Num 15)))
                (F.mul (F.abs price_change_pct) (Num 3))))
    else (NEUTRAL, Num 30)
  else
    if F.ltb (Num 1.2) volume_ratio && F.ltb (Num 0.5) (F.abs price_change_pct)
    then
      (if F.ltb (Num 0) price_change_pct then BUY else SELL,
       F.max (Num 20)
         (F.add (Num 30) (F.mul (F.sub volume_ratio (Num 1)) (Num 20))))
    else
      (NEUTRAL,
       F.max (Num 10)
         (F.sub (Num 25) (F.mul (F.abs (F.sub (Num 1) volume_ratio)) (Num 10)))).

Definition failed (self : t) (f : failure) : Result :=
  {| strategy := name self;
     signal := NEUTRAL;
     confidence := Num 0;
     current_volume := 0;
     avg_volume := 0;
     volume_ratio := Num 0;
     price_change_pct := Num 0;
     is_spike := false;
     error := Some f |}.

Section Indicator.

(** [ta.sma(volume, length)]: the moving average series of the [ta]
    package. *)
Variable ta_sma : list Q -> Z -> result (list fval).

(** [VolumeSpikeStrategy.calculate] (lines 30-102). *)
Definition calculate (self : t) (df : DataFrame) : Result :=
  let readings :=
    volume_sma <- ta_sma (map volume df) (period self) ;;
    current_volume <- iloc_last (map volume df) ;;
    avg_volume <- iloc_last volume_sma ;;
    current_close <- iloc_last (map close df) ;;
    prev_close <- iloc_prev (map close df) ;;
    Ok (current_volume, avg_volume, current_close, prev_close) in
  match readings with
  | Raise e => failed self (Raised e)
  | Ok (current_volume, avg_volume, current_close, prev_close) =>
      let price_change_pct := price_change_pct_of current_close prev_close in
      let volume_ratio := volume_ratio_of current_volume avg_volume in
      let '(signal, confidence) := classify self volume_ratio price_change_pct in
      match int (Num current_volume), int avg_volume with
      | inr current_int, inr avg_int =>
          {| strategy := name self;
             signal := signal;
             confidence := F.round confidence 2;
             current_volume := current_int;
             avg_volume := avg_int;
             volume_ratio := F.round volume_ratio 2;
             price_change_pct := F.round price_change_pct 2;
             is_spike := F.leb (Num (multiplier self)) volume_ratio;
             error := None |}
      | inl f, _ => failed self f
      | _, inl f => failed self f
      end
  end.

End Indicator.

End VolumeSpikeStrategy.

(** ** strategies/bollinger_bands.py *)

Module BollingerBandsStrategy.

Record t : Type := {
  period : Z;
  std : Z;
  name : string
}.

(** [BollingerBandsStrategy.__init__] (lines 17-28). *)
Definition __init__ (period std : option Z) : t :=
  {| period := RSIStrategy.or_period period settings.BOLLINGER_PERIOD;
     std := RSIStrategy.or_period std settings.BOLLINGER_STD;
     name := "Bollinger Bands" |}.

Record Result : Type := {
  strategy : string;
  signal : Signal;
  confidence : fval;
  price : Q;
  upper : fval;
  middle : fval;
  lower : fval;
  position : fval;
  band_width : fval;
  error : option exn
}.

(** Line 54. *)
Definition band_width_of (current_upper current_middle current_lower : fval)
  : fval :=
  F.mul (F.div (F.sub current_upper current_lower) current_middle) (Num 100).

(** Lines 57-60. *)
Definition position_of (current_price : Q) (current_upper current_lower : fval)
  : fval :=
  if negb (F.eqb current_upper current_lower)
  then F.div (F.sub (Num current_price) current_lower)
             (F.sub current_upper current_lower)
  else Num 0.5.

(** Lines 63-81: the signal and the confidence. *)
Definition classify (current_price : Q)
  (current_upper current_middle current_lower : fval) : Signal * fval :=
  let position := position_of current_price current_upper current_lower in
  if F.leb (Num current_price) current_lower then
    let below_pct :=
      F.mul (F.div (F.sub current_lower (Num current_price)) current_lower)
            (Num 100) in
    (BUY, F.min (Num 100) (F.add (Num 60) (F.mul below_pct (Num 20))))
  else if F.leb current_upper (Num current_price) then
    let above_pct :=
      F.mul (F.div (F.sub (Num current_price) current_upper) current_upper)
            (Num 100) in
    (SELL, F.min (Num 100) (F.add (Num 60) (F.mul above_pct (Num 20))))
  else if F.ltb (Num current_price) current_middle
          && F.ltb position (Num 0.3) then
    (BUY, F.add (Num 40) (F.mul (F.sub (Num 0.3) position) (Num 50)))
  else if F.ltb current_middle (Num current_price)
          && F.ltb (Num 0.7) position then
    (SELL, F.add (Num 40) (F.mul (F.sub position (Num 0.7)) (Num 50)))
  else
    (NEUTRAL,
     F.max (Num 20)
       (F.sub (Num 40) (F.mul (F.abs (F.sub position (Num 0.5))) (Num 40)))).

Section Indicator.

(** [ta.bbands(close, length, std)]: the three columns of the frame
    src/backend/pandas_ta.py builds, the lower band, the middle band and
    the upper band. *)
Variable ta_bbands :
  list Q -> Z -> Z -> result (list fval * list fval * list fval).

(** [BollingerBandsStrategy.calculate] (lines 30-105). *)
Definition calculate (self : t) (df : DataFrame) : Result :=
  let attempt :=
    bbands <- ta_bbands (map close df) (period self) (std self) ;;
    let '(lower, middle, upper) := bbands in
    current_price <- iloc_last (map close df) ;;
    current_upper <- iloc_last upper ;;
    current_middle <- iloc_last middle ;;
    current_lower <- iloc_last lower ;;
    let '(signal, confidence) :=
      classify current_price current_upper current_middle current_lower in
    Ok {| strategy := name self;
          signal := signal;
          confidence := F.round confidence 2;
          price := Py.round current_price 2;
          upper := F.round current_upper 2;
          middle := F.round current_middle 2;
          lower := F.round current_lower 2;
          position :=
            F.round (position_of current_price current_upper current_lower) 3;
          band_width :=
            F.round (band_width_of current_upper current_middle current_lower) 2;
          error := None |} in
  match attempt with
  | Ok result => result
  | Raise e =>
      {| strategy := name self;
         signal := NEUTRAL;
         confidence := Num 0;
         price := 0;
         upper := Num 0;
         middle := Num 0;
         lower := Num 0;
         position := Num 0;
         band_width := Num 0;
         error := Some e |}
  end.

End Indicator.

End BollingerBandsStrategy.

(** * The functions on the numbers of the interpreter

    The modules above read the arithmetic of the program on exact
    rationals, which is what its order and range properties need.  What a
    function returns, digit for digit, is decided by the binary64
    arithmetic: the modules of [Runtime] are the same functions on the
    numbers of the interpreter. *)

Module Runtime.

Module settings.

Definition STRATEGY_WEIGHT : Number.t := Number.lit 0.40.
Definition ML_WEIGHT : Number.t := Number.lit 0.35.
Definition NEWS_WEIGHT : Number.t := Number.lit 0.25.

End settings.

(** ** prediction/probability_combiner.py *)

Module ProbabilityCombiner.

Record t : Type := {
  strategy_weight : Number.t;
  ml_weight : Number.t;
  news_weight : Number.t
}.

(** [x or d] for an optional number: [None] and zero are falsy. *)
Definition or_default (x : option Number.t) (d : Number.t) : Number.t :=
  match x with
  | Some v => if Number.truthy v then v else d
  | None => d
  end.

(** [ProbabilityCombiner.__init__] (lines 29-37). *)
Definition __init__ (strategy_weight ml_weight news_weight : option Number.t)
  : result t :=
  let strategy_weight := or_default strategy_weight settings.STRATEGY_WEIGHT in
  let ml_weight := or_default ml_weight settings.ML_WEIGHT in
  let news_weight := or_default news_weight settings.NEWS_WEIGHT in
  let total_weight :=
    Number.add (Number.add strategy_weight ml_weight) news_weight in
  strategy_weight <- Number.truediv strategy_weight total_weight ;;
  ml_weight <- Number.truediv ml_weight total_weight ;;
  news_weight <- Number.truediv news_weight total_weight ;;
  Ok {| strategy_weight := strategy_weight;
        ml_weight := ml_weight;
        news_weight := news_weight |}.

(** A layer result as [combine] reads it: the keys 'signal' and
    'avg_confidence' (strategy, ml) or 'confidence' (news). *)
Record LayerResult : Type := {
  lr_signal : option Signal;
  lr_confidence : option Number.t
}.

Definition layer (s : Signal) (c : Number.t) : LayerResult :=
  {| lr_signal := Some s; lr_confidence := Some c |}.

Record BreakdownEntry : Type := {
  b_signal : Signal;
  b_confidence : Number.t
}.

Record Combined : Type := {
  final_signal : Signal;
  final_confidence : Number.t;
  final_score : Number.t;
  breakdown : BreakdownEntry * BreakdownEntry * BreakdownEntry
}.

(** [signal_map] (line 75). *)
Definition signal_map (s : Signal) : Number.t :=
  match s with
  | BUY => Number.int 1
  | SELL => Number.int (-1)
  | NEUTRAL => Number.int 0
  end.

(** Lines 82-91: the score before rounding. *)
Definition score (self : t) (strategy_signal : Signal) (strategy_confidence : Number.t)
  (ml_signal : Signal) (ml_confidence : Number.t)
  (news_signal : Signal) (news_confidence : Number.t) : Number.t :=
  let strategy_score := signal_map strategy_signal in
  let ml_score := signal_map ml_signal in
  let news_score := signal_map news_signal in
  let strategy_weighted :=
    Number.mul strategy_score (Number.div strategy_confidence (Number.int 100)) in
  let ml_weighted :=
    Number.mul ml_score (Number.div ml_confidence (Number.int 100)) in
  let news_weighted :=
    Number.mul news_score (Number.div news_confidence (Number.int 100)) in
  Number.add
    (Number.add (Number.mul strategy_weighted (strategy_weight self))
                (Number.mul ml_weighted (ml_weight self)))
    (Number.mul news_weighted (news_weight self)).

(** Lines 94-98: the weighted average of the three confidences. *)
Definition weighted_confidence (self : t)
  (strategy_confidence ml_confidence news_confidence : Number.t) : Number.t :=
  Number.add
    (Number.add (Number.mul strategy_confidence (strategy_weight self))
                (Number.mul ml_confidence (ml_weight self)))
    (Number.mul news_confidence (news_weight self)).

(** Lines 101-106. *)
Definition signal_of_score (final_score : Number.t) : Signal :=
  if Number.ltb (Number.lit 0.15) final_score then BUY
  else if Number.ltb final_score (Number.lit (-0.15)) then SELL
  else NEUTRAL.

(** Lines 112-120: the two adjustments, in the order of the code. *)
Definition adjust (strategy_signal ml_signal news_signal : Signal)
  (final_confidence : Number.t) : Number.t :=
  let final_confidence :=
    if ProbabilityCombiner.all_agree strategy_signal ml_signal news_signal
    then Number.min (Number.int 100) (Number.add final_confidence (Number.int 15))
    else final_confidence in
  if ProbabilityCombiner.disagree strategy_signal ml_signal
  then Number.max (Number.int 0) (Number.sub final_confidence (Number.int 20))
  else final_confidence.

Section Builtins.

Variable env : Interpreter.t.

(** [ProbabilityCombiner.combine] (lines 46-152). *)
Definition combine (self : t) (strategy_result ml_result news_result : LayerResult)
  : Combined :=
  let strategy_signal := Py.get (lr_signal strategy_result) NEUTRAL in
  let strategy_confidence := Py.get (lr_confidence strategy_result) (Number.int 0) in
  let ml_signal := Py.get (lr_signal ml_result) NEUTRAL in
  let ml_confidence := Py.get (lr_confidence ml_result) (Number.int 0) in
  let news_signal := Py.get (lr_signal news_result) NEUTRAL in
  let news_confidence := Py.get (lr_confidence news_result) (Number.int 0) in
  let final_score :=
    score self strategy_signal strategy_confidence ml_signal ml_confidence
      news_signal news_confidence in
  let final_confidence :=
    weighted_confidence self strategy_confidence ml_confidence news_confidence in
  let final_signal := signal_of_score final_score in
  let final_confidence :=
    adjust strategy_signal ml_signal news_signal final_confidence in
  {| final_signal := final_signal;
     final_confidence := Interpreter.round env final_confidence 2;
     final_score := Interpreter.round env final_score 3;
     breakdown :=
       ({| b_signal := strategy_signal; b_confidence := strategy_confidence |},
        {| b_signal := ml_signal; b_confidence := ml_confidence |},
        {| b_signal := news_signal; b_confidence := news_confidence |}) |}.

End Builtins.

End ProbabilityCombiner.

(** ** strategies/strategy_manager.py *)

Module StrategyManager.

(** What the aggregator reads of a strategy's result. *)
Record StrategyResult : Type := {
  strategy : string;
  signal : Signal;
  confidence : Number.t
}.

Record Combined : Type := {
  c_signal : Signal;
  avg_confidence : Number.t;
  strategies : list StrategyResult;
  buy_count : nat;
  sell_count : nat;
  neutral_count : nat;
  total_strategies : option nat
}.

Definition has_signal (s : Signal) (r : StrategyResult) : bool :=
  Signal_eqb (signal r) s.

(** [len(results)] and the counts, as numbers. *)
Definition of_nat (n : nat) : Number.t := Number.int (Z.of_nat n).

Section Builtins.

Variable env : Interpreter.t.

(** Lines 99-123 of [_combine_strategies]: the signal and the confidence
    before it is rounded, for a list that is not empty. *)
Definition decide (results : list StrategyResult) : Signal * Number.t :=
  let len_results := of_nat (List.length results) in
  let buy_count := Py.count (has_signal BUY) results in
  let sell_count := Py.count (has_signal SELL) results in
  let neutral_count := Py.count (has_signal NEUTRAL) results in
  let total_confidence := Interpreter.sum env (map confidence results) in
  let avg_confidence := Number.div total_confidence len_results in
  if (sell_count <? buy_count)%nat && (neutral_count <? buy_count)%nat then
    let agreement_boost :=
      Number.mul (Number.div (of_nat buy_count) len_results) (Number.int 20) in
    (BUY, Number.min (Number.int 100) (Number.add avg_confidence agreement_boost))
  else if (buy_count <? sell_count)%nat && (neutral_count <? sell_count)%nat then
    let agreement_boost :=
      Number.mul (Number.div (of_nat sell_count) len_results) (Number.int 20) in
    (SELL, Number.min (Number.int 100) (Number.add avg_confidence agreement_boost))
  else
    let max_count := Nat.max (Nat.max buy_count sell_count) neutral_count in
    let disagreement_penalty :=
      Number.mul
        (Number.sub (Number.int 1) (Number.div (of_nat max_count) len_results))
        (Number.int 30) in
    (NEUTRAL,
     Number.max (Number.int 0) (Number.sub avg_confidence disagreement_penalty)).

(** [StrategyManager._combine_strategies] (lines 79-133). *)
Definition _combine_strategies (results : list StrategyResult) : Combined :=
  match results with
  | [] =>
      {| c_signal := NEUTRAL; avg_confidence := Number.int 0; strategies := [];
         buy_count := 0; sell_count := 0; neutral_count := 0;
         total_strategies := None |}
  | _ =>
      let '(signal, avg_confidence) := decide results in
      {| c_signal := signal;
         avg_confidence := Interpreter.round env avg_confidence 2;
         strategies := results;
         buy_count := Py.count (has_signal BUY) results;
         sell_count := Py.count (has_signal SELL) results;
         neutral_count := Py.count (has_signal NEUTRAL) results;
         total_strategies := Some (List.length results) |}
  end.

End Builtins.

End StrategyManager.

(** ** ml/model_predictor.py *)

Module MLModelPredictor.

Record Prediction : Type := {
  model : string;
  signal : Signal;
  confidence : Number.t;
  prediction : Z
}.

Record Combined : Type := {
  c_signal : Signal;
  avg_confidence : Number.t;
  models : list Prediction;
  buy_count : nat;
  sell_count : nat;
  total_models : option nat
}.

Definition has_signal (s : Signal) (p : Prediction) : bool :=
  Signal_eqb (signal p) s.

Definition of_nat (n : nat) : Number.t := Number.int (Z.of_nat n).

Section Builtins.

Variable env : Interpreter.t.

(** Lines 227-248 of [_combine_predictions]: the signal and the confidence
    before it is rounded, for a list that is not empty. *)
Definition decide (predictions : list Prediction) : Signal * Number.t :=
  let len_predictions := of_nat (List.length predictions) in
  let buy_count := Py.count (has_signal BUY) predictions in
  let sell_count := Py.count (has_signal SELL) predictions in
  let total_confidence := Interpreter.sum env (map confidence predictions) in
  let avg_confidence := Number.div total_confidence len_predictions in
  if (sell_count <? buy_count)%nat then
    let agreement_boost :=
      Number.mul (Number.div (of_nat buy_count) len_predictions) (Number.int 15) in
    (BUY, Number.min (Number.int 100) (Number.add avg_confidence agreement_boost))
  else if (buy_count <? sell_count)%nat then
    let agreement_boost :=
      Number.mul (Number.div (of_nat sell_count) len_predictions) (Number.int 15) in
    (SELL, Number.min (Number.int 100) (Number.add avg_confidence agreement_boost))
  else
    (NEUTRAL,
     Number.max (Number.int 20) (Number.sub avg_confidence (Number.int 20))).

(** [MLModelPredictor._combine_predictions] (lines 208-257). *)
Definition _combine_predictions (predictions : list Prediction) : Combined :=
  match predictions with
  | [] =>
      {| c_signal := NEUTRAL; avg_confidence := Number.int 0; models := [];
         buy_count := 0; sell_count := 0; total_models := None |}
  | _ =>
      let '(signal, avg_confidence) := decide predictions in
      {| c_signal := signal;
         avg_confidence := Interpreter.round env avg_confidence 2;
         models := predictions;
         buy_count := Py.count (has_signal BUY) predictions;
         sell_count := Py.count (has_signal SELL) predictions;
         total_models := Some (List.length predictions) |}
  end.

End Builtins.

End MLModelPredictor.

(** ** data/news_sentiment_fetcher.py *)

Module NewsSentimentFetcher.

(** What [get_fear_greed_index] returns when the request succeeds. *)
Record FearGreed : Type := {
  fg_value : Z;
  fg_sentiment_score : Number.t;
  fg_confidence : Number.t
}.

(** Lines 41-57: the reading for an index value. *)
Definition fear_greed_of_value (value : Z) : FearGreed :=
  {| fg_value := value;
     fg_sentiment_score := Number.div (Number.int (value - 50)) (Number.int 50);
     fg_confidence :=
       Number.min (Number.int 100) (Number.int (Z.abs (value - 50) * 2)) |}.

(** A news item of [get_cryptopanic_news]. *)
Record NewsItem : Type := {
  n_sentiment_score : Number.t;
  n_confidence : Number.t
}.

(** An entry of the list [sentiments]. *)
Record Sentiment : Type := {
  score : Number.t;
  confidence : Number.t;
  source : string
}.

Record Aggregated : Type := {
  sentiment_score : Number.t;
  a_confidence : Number.t;
  signal : Signal;
  num_sources : nat
}.

Definition of_nat (n : nat) : Number.t := Number.int (Z.of_nat n).

(** Lines 245-250. *)
Definition signal_of_score (weighted_score : Number.t) : Signal :=
  if Number.ltb (Number.lit 0.2) weighted_score then BUY
  else if Number.ltb weighted_score (Number.lit (-0.2)) then SELL
  else NEUTRAL.

(** The neutral default of lines 274-281. *)
Definition neutral : Aggregated :=
  {| sentiment_score := Number.float (Num 0); a_confidence := Number.int 0;
     signal := NEUTRAL; num_sources := 0 |}.

Section Builtins.

Variable env : Interpreter.t.

(** Lines 207-231: the sources that are present, with the confidence of
    each already scaled by the weight of its source. *)
Definition collect (fg_index : option FearGreed) (news : list NewsItem)
  : list Sentiment :=
  let sentiments :=
    match fg_index with
    | Some fg =>
        [ {| score := fg_sentiment_score fg;
             confidence := Number.mul (fg_confidence fg) (Number.lit 0.3);
             source := "fear_greed" |} ]
    | None => []
    end in
  match news with
  | [] => sentiments
  | _ =>
      let news_scores :=
        filter (fun s => negb (Number.eqb s (Number.int 0)))
               (map n_sentiment_score news) in
      match news_scores with
      | [] => sentiments
      | _ =>
          let avg_score :=
            Number.div (Interpreter.sum env news_scores)
                       (of_nat (List.length news_scores)) in
          let avg_confidence :=
            Number.div (Interpreter.sum env (map n_confidence news))
                       (of_nat (List.length news)) in
          sentiments ++
          [ {| score := avg_score;
               confidence := Number.mul avg_confidence (Number.lit 0.7);
               source := "cryptopanic" |} ]
      end
  end.

(** [NewsSentimentFetcher.get_aggregated_sentiment] (lines 191-285), as a
    function of what the two fetchers returned. *)
Definition get_aggregated_sentiment (fg_index : option FearGreed)
  (news : list NewsItem) : Aggregated :=
  let sentiments := collect fg_index news in
  match sentiments with
  | [] => neutral
  | _ =>
      let total_weight := Interpreter.sum env (map confidence sentiments) in
      if Number.ltb (Number.int 0) total_weight then
        let weighted_score :=
          Number.div
            (Interpreter.sum env
               (map (fun s => Number.mul (score s) (confidence s)) sentiments))
            total_weight in
        let avg_confidence :=
          Number.div (Interpreter.sum env (map confidence sentiments))
                     (of_nat (List.length sentiments)) in
        {| sentiment_score := weighted_score;
           a_confidence := Interpreter.round env avg_confidence 2;
           signal := signal_of_score weighted_score;
           num_sources := List.length sentiments |}
      else neutral
  end.

End Builtins.

End NewsSentimentFetcher.

(** ** prediction/target_price_calculator.py *)

Module TargetPriceCalculator.

Inductive Reason : Type :=
| ConfidenceBelowThreshold (min_confidence : Number.t)
| SignalIsNeutral.

(** The dictionary [calculate_target] returns; the keys that one of the two
    shapes does not have are [None]. *)
Record Target : Type := {
  target_price : option Number.t;
  target_type : option TargetPriceCalculator.TargetType;
  current_price : Number.t;
  reason : option Reason;
  atr : option Number.t;
  confidence_factor : option Number.t;
  price_movement : option Number.t;
  pct_move : option Number.t
}.

(** Line 72. *)
Definition confidence_factor_of (confidence : Number.t) : Number.t :=
  Number.add (Number.lit 0.5)
    (Number.mul (Number.div confidence (Number.int 100)) (Number.lit 1.5)).

(** Line 75. *)
Definition movement_of (current_atr confidence : Number.t) : Number.t :=
  Number.mul current_atr (confidence_factor_of confidence).

(** Lines 77-84. *)
Definition target_of (signal : Signal) (current_price price_movement : Number.t)
  : Number.t * TargetPriceCalculator.TargetType :=
  match signal with
  | BUY => (Number.add current_price price_movement, TargetPriceCalculator.HIGH)
  | _ => (Number.sub current_price price_movement, TargetPriceCalculator.LOW)
  end.

Definition gated (current_price : Number.t) (why : Reason) : Target :=
  {| target_price := None; target_type := None;
     current_price := current_price; reason := Some why;
     atr := None; confidence_factor := None;
     price_movement := None; pct_move := None |}.

Section Indicator.

Variable env : Interpreter.t.

(** [ta.atr(high, low, close, length)]: the average true range series of
    the [ta] package. *)
Variable ta_atr : DataFrame -> Z -> result (list fval).

(** [df['close'].iloc[-1]]: a numpy scalar. *)
Definition last_close (df : DataFrame) : result Number.t :=
  current_price <- iloc_last (map close df) ;;
  Ok (Number.float64 (Num current_price)).

(** The body of the [try] of [calculate_target] (lines 46-106). *)
Definition attempt (self : TargetPriceCalculator.t) (df : DataFrame)
  (signal : Signal) (confidence min_confidence : Number.t) : result Target :=
  if Number.ltb confidence min_confidence then
    current_price <- last_close df ;;
    Ok (gated current_price (ConfidenceBelowThreshold min_confidence))
  else if Signal_eqb signal NEUTRAL then
    current_price <- last_close df ;;
    Ok (gated current_price SignalIsNeutral)
  else
    atr <- ta_atr df (TargetPriceCalculator.atr_period self) ;;
    current_atr <- iloc_last atr ;;
    let current_atr := Number.float64 current_atr in
    current_price <- last_close df ;;
    let confidence_factor := confidence_factor_of confidence in
    let price_movement := movement_of current_atr confidence in
    let '(target_price, target_type) :=
      target_of signal current_price price_movement in
    let pct_move :=
      Number.mul
        (Number.div (Number.sub target_price current_price) current_price)
        (Number.int 100) in
    Ok {| target_price := Some (Interpreter.round env target_price 2);
          target_type := Some target_type;
          current_price := Interpreter.round env current_price 2;
          reason := None;
          atr := Some (Interpreter.round env current_atr 2);
          confidence_factor := Some (Interpreter.round env confidence_factor 2);
          price_movement := Some (Interpreter.round env price_movement 2);
          pct_move := Some (Interpreter.round env pct_move 2) |}.

(** [TargetPriceCalculator.calculate_target] (lines 26-110): any exception
    is logged and the method returns [None]. *)
Definition calculate_target (self : TargetPriceCalculator.t) (df : DataFrame)
  (signal : Signal) (confidence min_confidence : Number.t) : option Target :=
  match attempt self df signal confidence min_confidence with
  | Ok result => Some result
  | Raise _ => None
  end.

End Indicator.

End TargetPriceCalculator.

(** ** strategies/support_resistance.py *)

Module SupportResistanceStrategy.

Record t : Type := {
  lookback : Z;
  threshold : fval;
  name : string
}.

(** [SupportResistanceStrategy.__init__] (lines 16-27). *)
Definition __init__ (lookback : option Z) (threshold : option fval) : t :=
  {| lookback := match lookback with Some n => n | None => 50%Z end;
     threshold := match threshold with Some x => x | None => F64.lit 0.02 end;
     name := "Support/Resistance" |}.

(** The test of line 76, on numpy floats: a zero divisor raises nothing. *)
Definition within (self : t) (previous level : Q) : bool :=
  F.leb (F64.div (F64.sub (Num level) (Num previous)) (Num previous))
        (threshold self).

(** The loop of lines 116-119: the highest level below the price. *)
Definition nearest_below (current_price : fval) (levels : list fval)
  : option fval :=
  fold_left
    (fun nearest level =>
       if F.ltb level current_price then
         match nearest with
         | None => Some level
         | Some n => if F.ltb n level then Some level else nearest
         end
       else nearest)
    levels None.

(** The loop of lines 121-124: the lowest level above the price. *)
Definition nearest_above (current_price : fval) (levels : list fval)
  : option fval :=
  fold_left
    (fun nearest level =>
       if F.ltb current_price level then
         match nearest with
         | None => Some level
         | Some n => if F.ltb level n then Some level else nearest
         end
       else nearest)
    levels None.

(** Lines 127-134: the distance of the price to a level, in percent of the
    price; a level that is missing or zero gives none. *)
Definition distance (current_price : fval) (gap : fval -> fval)
  (level : option fval) : option fval :=
  match level with
  | Some l =>
      if SupportResistanceStrategy.ftruthy level
      then Some (F64.mul (F64.div (gap l) current_price) (Num 100))
      else None
  | None => None
  end.

(** [distance is not None and distance < 1.0] (lines 141 and 146). *)
Definition near (distance : option fval) : option fval :=
  match distance with
  | Some d => if F.ltb d (Num 1) then Some d else None
  | None => None
  end.

(** [level and test(level)] (lines 151 and 157). *)
Definition beyond (level : option fval) (test : fval -> bool) : option fval :=
  match level with
  | Some l =>
      if SupportResistanceStrategy.ftruthy level && test l then Some l else None
  | None => None
  end.

(** [min(100, base + x * factor)], [x] a numpy scalar. *)
Definition scaled (base : Z) (x : fval) (factor : Z) : Number.t :=
  Number.min (Number.int 100)
    (Number.add (Number.int base)
       (Number.mul (Number.float64 x) (Number.int factor))).

(** Lines 137-160: the signal and the confidence. *)
Definition classify (current_price : fval)
  (nearest_support nearest_resistance : option fval)
  (support_distance resistance_distance : option fval) : Signal * Number.t :=
  match near support_distance with
  | Some sd => (BUY, scaled 60 (F64.sub (F64.lit 1.0) sd) 30)
  | None =>
  match near resistance_distance with
  | Some rd => (SELL, scaled 60 (F64.sub (F64.lit 1.0) rd) 30)
  | None =>
  match beyond nearest_resistance (fun nr => F.ltb nr current_price) with
  | Some nr =>
      let breakout_strength :=
        F64.mul (F64.div (F64.sub current_price nr) nr) (Num 100) in
      (BUY, scaled 50 breakout_strength 20)
  | None =>
  match beyond nearest_support (fun ns => F.ltb current_price ns) with
  | Some ns =>
      let breakdown_strength :=
        F64.mul (F64.div (F64.sub ns current_price) ns) (Num 100) in
      (SELL, scaled 50 breakdown_strength 20)
  | None => (NEUTRAL, Number.int 30)
  end end end end.

(** The dictionary [calculate] returns; the keys the error branch does not
    have are [None] or 0. *)
Record Result : Type := {
  strategy : string;
  signal : Signal;
  confidence : Number.t;
  current_price : option fval;
  nearest_support : option fval;
  nearest_resistance : option fval;
  support_distance : option fval;
  resistance_distance : option fval;
  num_support_levels : nat;
  num_resistance_levels : nat;
  error : option exn
}.

Section Builtins.

Variable env : Interpreter.t.

(** The loop of [_cluster_levels] (lines 74-85).  [current_cluster] is
    never empty there; [last] has a default only to be total. *)
Fixpoint cluster_loop (self : t) (levels : list Q) (clustered : list fval)
  (current_cluster : list Q) : list fval :=
  match levels with
  | [] =>
      match current_cluster with
      | [] => clustered
      | _ => clustered ++ [Interpreter.np_mean env current_cluster]
      end
  | level :: rest =>
      if within self (last current_cluster 0) level
      then cluster_loop self rest clustered (current_cluster ++ [level])
      else cluster_loop self rest
             (clustered ++ [Interpreter.np_mean env current_cluster]) [level]
  end.

(** [_cluster_levels] (lines 57-87). *)
Definition _cluster_levels (self : t) (levels : list Q) : list fval :=
  match levels with
  | [] => []
  | _ =>
      match SupportResistanceStrategy.sorted levels with
      | [] => []
      | first :: rest => cluster_loop self rest [] [first]
      end
  end.

(** [round(x, 2) if x else None], [x] a numpy scalar. *)
Definition rounded (x : option fval) : option fval :=
  match x with
  | Some v =>
      if SupportResistanceStrategy.ftruthy x
      then Some (Interpreter.np_round env v 2) else None
  | None => None
  end.

(** [SupportResistanceStrategy.calculate] (lines 89-185). *)
Definition calculate (self : t) (df : DataFrame) : Result :=
  let attempt :=
    let df_lookback := SupportResistanceStrategy.tail (lookback self) df in
    let '(support_levels, resistance_levels) :=
      SupportResistanceStrategy._find_pivots df_lookback in
    let support_levels := _cluster_levels self support_levels in
    let resistance_levels := _cluster_levels self resistance_levels in
    current_price <- iloc_last (map close df) ;;
    let current_price := Num current_price in
    let nearest_support := nearest_below current_price support_levels in
    let nearest_resistance := nearest_above current_price resistance_levels in
    let support_distance :=
      distance current_price (fun l => F64.sub current_price l)
        nearest_support in
    let resistance_distance :=
      distance current_price (fun l => F64.sub l current_price)
        nearest_resistance in
    let '(signal, confidence) :=
      classify current_price nearest_support nearest_resistance
        support_distance resistance_distance in
    Ok {| strategy := name self;
          signal := signal;
          confidence := Interpreter.round env confidence 2;
          current_price := Some (Interpreter.np_round env current_price 2);
          nearest_support := rounded nearest_support;
          nearest_resistance := rounded nearest_resistance;
          support_distance := rounded support_distance;
          resistance_distance := rounded resistance_distance;
          num_support_levels := List.length support_levels;
          num_resistance_levels := List.length resistance_levels;
          error := None |} in
  match attempt with
  | Ok result => result
  | Raise e =>
      {| strategy := name self;
         signal := NEUTRAL;
         confidence := Number.int 0;
         current_price := None;
         nearest_support := None;
         nearest_resistance := None;
         support_distance := None;
         resistance_distance := None;
         num_support_levels := 0;
         num_resistance_levels := 0;
         error := Some e |}
  end.

End Builtins.

End SupportResistanceStrategy.

(** ** prediction/prediction_engine.py: the serialization cleaner *)

Module PredictionEngine.

Import PredictionEngine.

(** Line 186 hands a Python integer to [math.isnan], which converts it to
    a float and raises [OverflowError] when it is too large for one: the
    integers that convert are those below 2^1024 - 2^970 in absolute
    value. *)
Definition fits_float (z : Z) : bool := (Z.abs z <? 2 ^ 1024 - 2 ^ 970)%Z.

(** Does every Python integer of a structure convert to a float? *)
Fixpoint ints_fit (obj : pyval) : bool :=
  match obj with
  | PInt z => fits_float z
  | PDict items | PSeries items => forallb (fun '(_, v) => ints_fit v) items
  | PList l | PTuple l | PNdarray l => forallb ints_fit l
  | PDataFrame records =>
      forallb (fun row => forallb (fun '(_, v) => ints_fit v) row) records
  | PNone | PBool _ | PFloat _ | PStr _ | NpFloat64 _ | NpInt64 _ | NpBool _
  | PDatetime _ => true
  end.

(** A comprehension whose body can raise: the first exception leaves it. *)
Definition traverse {A B : Type} (f : A -> result B)
  : list A -> result (list B) :=
  fix go (l : list A) : result (list B) :=
    match l with
    | [] => Ok []
    | a :: l => b <- f a ;; bs <- go l ;; Ok (b :: bs)
    end.

(** [PredictionEngine._clean_for_serialization] (lines 164-190), with the
    exception of line 186. *)
Fixpoint _clean_for_serialization (obj : pyval) : result pyval :=
  match obj with
  | PDict items | PSeries items =>
      items <- traverse
                 (fun '(k, v) => v <- _clean_for_serialization v ;; Ok (k, v))
                 items ;;
      Ok (PDict items)
  | PList l | PTuple l | PNdarray l =>
      l <- traverse _clean_for_serialization l ;; Ok (PList l)
  | PDataFrame records =>
      rows <- traverse
                (fun row =>
                   items <- traverse
                              (fun '(k, v) =>
                                 v <- _clean_for_serialization v ;; Ok (k, v))
                              row ;;
                   Ok (PDict items))
                records ;;
      Ok (PList rows)
  | NpFloat64 f => Ok (PFloat f)
  | NpInt64 z => Ok (PInt z)
  | NpBool b => Ok (PBool b)
  | PDatetime isoformat => Ok (PStr isoformat)
  | PFloat f => Ok (if F.non_finite f then PNone else obj)
  | PInt z => if fits_float z then Ok obj else Raise OverflowError
  | PNone | PBool _ | PStr _ => Ok obj
  end.

End PredictionEngine.

End Runtime.

(** ** Sample inputs *)

Module Samples.

(** Six strategy results with four BUY votes. *)
Definition six_results : list StrategyManager.StrategyResult :=
  [ {| StrategyManager.strategy := "RSI";
       StrategyManager.signal := BUY; StrategyManager.confidence := 60 |};
    {| StrategyManager.strategy := "EMA Crossover";
       StrategyManager.signal := BUY; StrategyManager.confidence := 55 |};
    {| StrategyManager.strategy := "MACD";
       StrategyManager.signal := BUY; StrategyManager.confidence := 70 |};
    {| StrategyManager.strategy := "Bollinger Bands";
       StrategyManager.signal := SELL; StrategyManager.confidence := 45 |};
    {| StrategyManager.strategy := "Volume Spike";
       StrategyManager.signal := NEUTRAL; StrategyManager.confidence := 30 |};
    {| StrategyManager.strategy := "Support/Resistance";
       StrategyManager.signal := BUY; StrategyManager.confidence := 64 |} ].

Definition vote (s : Signal) (c : Q) : MLModelPredictor.Prediction :=
  {| MLModelPredictor.model := "random_forest";
     MLModelPredictor.signal := s;
     MLModelPredictor.confidence := c;
     MLModelPredictor.prediction := match s with BUY => 1 | _ => 0 end |}.

(** One BUY vote and one SELL vote, both at confidence 30. *)
Definition split_votes : list MLModelPredictor.Prediction :=
  [vote BUY 30; vote SELL 30].

(** One BUY vote and one SELL vote, both at confidence 10. *)
Definition weak_split_votes : list MLModelPredictor.Prediction :=
  [vote BUY 10; vote SELL 10].

(** A short window of five candles. *)
Definition short_window : DataFrame :=
  map (fun ts => TargetPriceCalculator.flat_candle ts 100) [1; 2; 3; 4; 5]%Z.

(** A window on which the average true range is 2 at the last candle. *)
Definition steady_atr (df : DataFrame) (length : Z) : result (list fval) :=
  Ok (map (fun _ => Num 2) df).

(** The oscillator on a window shorter than its length: unavailable (NaN)
    at every position, the marker that data/historical_loader.py (line
    198) drops from the indicator columns. *)
Definition unavailable_rsi (closes : list Q) (length : Z) : result (list fval) :=
  Ok (map (fun _ => NaN) closes).

(** The fear and greed index at 100: score 1, confidence 100. *)
Definition extreme_greed : NewsSentimentFetcher.FearGreed :=
  NewsSentimentFetcher.fear_greed_of_value 100.

(** One news item with score 0.5 and confidence 80. *)
Definition headline : NewsSentimentFetcher.NewsItem :=
  {| NewsSentimentFetcher.n_sentiment_score := 0.5;
     NewsSentimentFetcher.n_confidence := 80 |}.

(** The part of a prediction that carries the details of the strategies,
    with the result of the RSI strategy on a window shorter than its
    period: its 'value' is [round(current_rsi, 2)], a numpy float holding
    NaN. *)
Definition nan_prediction : PredictionEngine.pyval :=
  PredictionEngine.PDict
    [ ("coin"%string, PredictionEngine.PStr "BTC");
      ("strategy"%string,
       PredictionEngine.PDict
         [ ("signal"%string, PredictionEngine.PStr "NEUTRAL");
           ("confidence"%string, PredictionEngine.PFloat (Num 12.5));
           ("details"%string,
            PredictionEngine.PList
              [ PredictionEngine.PDict
                  [ ("strategy"%string, PredictionEngine.PStr "RSI");
                    ("signal"%string, PredictionEngine.PStr "NEUTRAL");
                    ("confidence"%string, PredictionEngine.PInt 20);
                    ("value"%string, PredictionEngine.NpFloat64 NaN) ] ]) ]) ].

(** A strategy whose [calculate] raises, and a manager that has only such
    strategies. *)
Definition failing_strategy : StrategyManager.Strategy :=
  fun _ => Raise IndexError.

Definition failing_manager : StrategyManager.t :=
  {| StrategyManager.self_strategies :=
       [("rsi"%string, failing_strategy); ("macd"%string, failing_strategy)];
     StrategyManager.enabled_strategies := [("rsi"%string, true)] |}.

End Samples.

(** ** Sample inputs on the numbers of the interpreter *)

Module RuntimeSamples.

(** Six strategy results with four BUY votes. *)
Definition six_results : list Runtime.StrategyManager.StrategyResult :=
  [ {| Runtime.StrategyManager.strategy := "RSI";
       Runtime.StrategyManager.signal := BUY;
       Runtime.StrategyManager.confidence := Number.float64 (Num 60) |};
    {| Runtime.StrategyManager.strategy := "EMA Crossover";
       Runtime.StrategyManager.signal := BUY;
       Runtime.StrategyManager.confidence := Number.float64 (Num 55) |};
    {| Runtime.StrategyManager.strategy := "MACD";
       Runtime.StrategyManager.signal := BUY;
       Runtime.StrategyManager.confidence := Number.float64 (Num 70) |};
    {| Runtime.StrategyManager.strategy := "Bollinger Bands";
       Runtime.StrategyManager.signal := SELL;
       Runtime.StrategyManager.confidence := Number.float64 (Num 45) |};
    {| Runtime.StrategyManager.strategy := "Volume Spike";
       Runtime.StrategyManager.signal := NEUTRAL;
       Runtime.StrategyManager.confidence := Number.int 30 |};
    {| Runtime.StrategyManager.strategy := "Support/Resistance";
       Runtime.StrategyManager.signal := BUY;
       Runtime.StrategyManager.confidence := Number.float (Num 64) |} ].

(** Six BUY results, five at 50 and one at 50.15. *)
Definition buy_result (c : Number.t) : Runtime.StrategyManager.StrategyResult :=
  {| Runtime.StrategyManager.strategy := "RSI";
     Runtime.StrategyManager.signal := BUY;
     Runtime.StrategyManager.confidence := c |}.

Definition six_buys : list Runtime.StrategyManager.StrategyResult :=
  [ buy_result (Number.int 50); buy_result (Number.int 50);
    buy_result (Number.int 50); buy_result (Number.int 50);
    buy_result (Number.int 50); buy_result (Number.lit 50.15) ].

Definition vote (s : Signal) (c : Number.t) : Runtime.MLModelPredictor.Prediction :=
  {| Runtime.MLModelPredictor.model := "random_forest";
     Runtime.MLModelPredictor.signal := s;
     Runtime.MLModelPredictor.confidence := c;
     Runtime.MLModelPredictor.prediction := match s with BUY => 1 | _ => 0 end |}.

(** One BUY vote and one SELL vote, both at confidence 30, and both at
    confidence 10. *)
Definition split_votes : list Runtime.MLModelPredictor.Prediction :=
  [vote BUY (Number.lit 30.0); vote SELL (Number.lit 30.0)].

Definition weak_split_votes : list Runtime.MLModelPredictor.Prediction :=
  [vote BUY (Number.lit 10.0); vote SELL (Number.lit 10.0)].

(** The fear and greed index at 100: score 1, confidence 100. *)
Definition extreme_greed : Runtime.NewsSentimentFetcher.FearGreed :=
  Runtime.NewsSentimentFetcher.fear_greed_of_value 100.

(** One news item with score 0.5 and confidence 80. *)
Definition headline : Runtime.NewsSentimentFetcher.NewsItem :=
  {| Runtime.NewsSentimentFetcher.n_sentiment_score := Number.lit 0.5;
     Runtime.NewsSentimentFetcher.n_confidence := Number.lit 80.0 |}.

(** Five candles whose lows dip to 100 at the third one and whose highs
    stay at 102, the last closing at 100.5: one pivot low, no pivot
    high. *)
Definition dip_candle (ts : Z) (low close : Q) : Candle :=
  {| timestamp := ts; open := close; high := 102; low := low;
     close := close; volume := 1 |}.

Definition dip_window : DataFrame :=
  [ dip_candle 1 101 101.5; dip_candle 2 100.5 101; dip_candle 3 100 100.5;
    dip_candle 4 100.5 101; dip_candle 5 100.25 100.5 ].

(** A prediction that holds an integer too large for a float. *)
Definition huge_prediction : PredictionEngine.pyval :=
  PredictionEngine.PDict
    [ ("coin"%string, PredictionEngine.PStr "BTC");
      ("volume"%string, PredictionEngine.PInt (10 ^ 400)) ].

(** An interpreter whose numpy scalars round as Python floats do. *)
Definition python_rounding : Interpreter.t :=
  {| Interpreter.sum := Interpreter.sum Interpreter.reference;
     Interpreter.np_round := F64.py_round;
     Interpreter.np_mean := Interpreter.np_mean Interpreter.reference |}.

End RuntimeSamples.

(** * Properties *)

(** ** Comparisons, minimum, maximum and rounding *)

Lemma ltb_lt (x y : Q) : Py.ltb x y = true <-> x < y.
Proof.
  unfold Py.ltb. rewrite negb_true_iff. split; intro H.
  - apply Qnot_le_lt. intro Hle. apply Qle_bool_iff in Hle. congruence.
  - destruct (Qle_bool y x) eqn:E; [|reflexivity].
    apply Qle_bool_iff in E. lra.
Qed.

Lemma ltb_ge (x y : Q) : Py.ltb x y = false <-> y <= x.
Proof.
  unfold Py.ltb. rewrite negb_false_iff. apply Qle_bool_iff.
Qed.

Lemma ltb_comp (x x' y y' : Q) : x == x' -> y == y' -> Py.ltb x y = Py.ltb x' y'.
Proof.
  intros Hx Hy. destruct (Py.ltb x' y') eqn:E.
  - apply ltb_lt. apply ltb_lt in E. lra.
  - apply ltb_ge. apply ltb_ge in E. lra.
Qed.

Lemma min_Qmin (a b : Q) : Py.min a b == Qmin a b.
Proof.
  unfold Py.min. destruct (Py.ltb b a) eqn:E.
  - apply ltb_lt in E. symmetry. apply Q.min_r. lra.
  - apply ltb_ge in E. symmetry. apply Q.min_l. exact E.
Qed.

Lemma max_Qmax (a b : Q) : Py.max a b == Qmax a b.
Proof.
  unfold Py.max. destruct (Py.ltb a b) eqn:E.
  - apply ltb_lt in E. symmetry. apply Q.max_r. lra.
  - apply ltb_ge in E. symmetry. apply Q.max_l. exact E.
Qed.

Lemma round_half_even_comp (x y : Q) :
  x == y -> Py.round_half_even x = Py.round_half_even y.
Proof.
  intro H. unfold Py.round_half_even.
  rewrite (Qfloor_comp x y H).
  rewrite (ltb_comp (x - inject_Z (Qfloor y)) (y - inject_Z (Qfloor y))
             (1 # 2) (1 # 2)) by lra.
  rewrite (ltb_comp (1 # 2) (1 # 2) (x - inject_Z (Qfloor y))
             (y - inject_Z (Qfloor y))) by lra.
  reflexivity.
Qed.

(** Rounding does not see how a number is written. *)
Lemma round_comp (x y : Q) (n : nat) : x == y -> Py.round x n = Py.round y n.
Proof.
  intro H. unfold Py.round.
  rewrite (round_half_even_comp (x * inject_Z (10 ^ Z.of_nat n))
             (y * inject_Z (10 ^ Z.of_nat n))); [reflexivity|].
  rewrite H. reflexivity.
Qed.

Lemma Signal_eqb_eq (a b : Signal) : Signal_eqb a b = true <-> a = b.
Proof. destruct a, b; simpl; split; congruence. Qed.

(** ** The probability combiner *)

Lemma all_agree_iff (ss ms ns : Signal) :
  ProbabilityCombiner.all_agree ss ms ns = true <->
  ss = ms /\ ms = ns /\ ss <> NEUTRAL.
Proof.
  destruct ss, ms, ns; cbn; split; intro H;
    try discriminate; try reflexivity;
    try (repeat split; congruence);
    destruct H as (H1 & H2 & H3); congruence.
Qed.

Lemma disagree_iff (ss ms : Signal) :
  ProbabilityCombiner.disagree ss ms = true <->
  (ss = BUY /\ ms = SELL) \/ (ss = SELL /\ ms = BUY).
Proof.
  destruct ss, ms; cbn; split; intro H;
    try discriminate; try reflexivity; auto;
    destruct H as [[H1 H2] | [H1 H2]]; congruence.
Qed.

(** The substitution of the defaults and the total of [__init__]. *)
Lemma init_cases (sw mw nw : option Q) :
  let s := Py.or_default sw settings.STRATEGY_WEIGHT in
  let m := Py.or_default mw settings.ML_WEIGHT in
  let n := Py.or_default nw settings.NEWS_WEIGHT in
  (s + m + n == 0 /\
   ProbabilityCombiner.__init__ sw mw nw = Raise ZeroDivisionError) \/
  (~ s + m + n == 0 /\
   ProbabilityCombiner.__init__ sw mw nw =
     Ok {| ProbabilityCombiner.strategy_weight := s / (s + m + n);
           ProbabilityCombiner.ml_weight := m / (s + m + n);
           ProbabilityCombiner.news_weight := n / (s + m + n) |}).
Proof.
  intros s m n. unfold ProbabilityCombiner.__init__. fold s m n.
  destruct (Qeq_bool (s + m + n) 0) eqn:E.
  - left. split; [apply Qeq_bool_iff; exact E | reflexivity].
  - right. split; [|reflexivity].
    intro H. apply Qeq_bool_iff in H. congruence.
Qed.

(** ** The strategy aggregator *)

(** Every result is counted in exactly one of the three categories. *)
Lemma strategy_counts_partition (results : list StrategyManager.StrategyResult) :
  (Py.count (StrategyManager.has_signal BUY) results
   + Py.count (StrategyManager.has_signal SELL) results
   + Py.count (StrategyManager.has_signal NEUTRAL) results
   = List.length results)%nat.
Proof.
  unfold Py.count, StrategyManager.has_signal.
  induction results as [|x xs IH]; [reflexivity|].
  cbn [filter List.length].
  destruct (StrategyManager.signal x); cbn [Signal_eqb List.length]; lia.
Qed.

Lemma combine_strategies_nonempty (results : list StrategyManager.StrategyResult) :
  results <> [] ->
  StrategyManager.c_signal (StrategyManager._combine_strategies results)
  = fst (StrategyManager.decide results) /\
  StrategyManager.avg_confidence (StrategyManager._combine_strategies results)
  = Py.round (snd (StrategyManager.decide results)) 2.
Proof.
  intro H. destruct results as [|x xs]; [congruence|].
  unfold StrategyManager._combine_strategies.
  destruct (StrategyManager.decide (x :: xs)) as [sig conf].
  split; reflexivity.
Qed.

(** ** The classifier ensemble aggregator *)

Lemma combine_predictions_nonempty (predictions : list MLModelPredictor.Prediction) :
  predictions <> [] ->
  MLModelPredictor.c_signal (MLModelPredictor._combine_predictions predictions)
  = fst (MLModelPredictor.decide predictions) /\
  MLModelPredictor.avg_confidence (MLModelPredictor._combine_predictions predictions)
  = Py.round (snd (MLModelPredictor.decide predictions)) 2.
Proof.
  intro H. destruct predictions as [|x xs]; [congruence|].
  unfold MLModelPredictor._combine_predictions.
  destruct (MLModelPredictor.decide (x :: xs)) as [sig conf].
  split; reflexivity.
Qed.

(** ** The target price calculator *)

Lemma iloc_last_map {A B : Type} (f : A -> B) (l : list A) (x : A) :
  iloc_last l = Ok x -> iloc_last (map f l) = Ok (f x).
Proof.
  induction l as [|a l IH]; [discriminate|].
  destruct l as [|a' l'].
  - cbn. intro H. injection H as <-. reflexivity.
  - intro H. change (iloc_last (map f (a :: a' :: l')))
      with (iloc_last (map f (a' :: l'))).
    apply IH. exact H.
Qed.

(** ** The RSI strategy and the strategy loop *)

(** A reading of 25 under the default thresholds is a BUY at confidence
    60. *)
Lemma rsi_oversold_reading :
  RSIStrategy.classify (RSIStrategy.__init__ None None None) (Num 25)
  = (BUY, Num (50 + (30 + - (25)) * 2)) /\
  50 + (30 + - (25)) * 2 == 60.
Proof. split; reflexivity. Qed.

(** When the indicator raises, or returns an empty series, the strategy
    answers NEUTRAL with confidence 0 and records the error. *)
Lemma rsi_failure_is_neutral_zero
  (ta_rsi : list Q -> Z -> result (list fval)) (self : RSIStrategy.t)
  (df : DataFrame) (e : exn) :
  ta_rsi (map close df) (RSIStrategy.period self) = Raise e ->
  RSIStrategy.signal (RSIStrategy.calculate ta_rsi self df) = NEUTRAL /\
  RSIStrategy.confidence (RSIStrategy.calculate ta_rsi self df) = Num 0 /\
  RSIStrategy.error (RSIStrategy.calculate ta_rsi self df) = Some e.
Proof.
  intro H. unfold RSIStrategy.calculate. rewrite H. cbn.
  repeat split.
Qed.

(** C7, what the code does.  When the oscillator is unavailable at the last
    candle, the reading is NaN, no comparison with it succeeds, and
    [calculate] reaches its NEUTRAL branch, where [max(20, nan)] is 20: the
    strategy answers NEUTRAL with confidence 20 and no error, not NEUTRAL
    with confidence 0. *)
Theorem rsi_unavailable_reading_has_confidence_20 :
  forall (ta_rsi : list Q -> Z -> result (list fval)) (self : RSIStrategy.t)
         (df : DataFrame) (series : list fval),
    ta_rsi (map close df) (RSIStrategy.period self) = Ok series ->
    iloc_last series = Ok NaN ->
    let r := RSIStrategy.calculate ta_rsi self df in
    RSIStrategy.signal r = NEUTRAL /\
    RSIStrategy.error r = None /\
    RSIStrategy.value r = NaN /\
    exists c, RSIStrategy.confidence r = Num c /\ c == 20 /\ ~ c == 0.
Proof.
  intros ta_rsi self df series Hs Hlast r.
  unfold r, RSIStrategy.calculate. rewrite Hs. cbn [bind].
  rewrite Hlast. cbn.
  repeat split.
  eexists. split; [reflexivity|].
  split; [reflexivity | intro H; vm_compute in H; discriminate].
Qed.

Lemma rsi_unavailable_reading_has_confidence_20_witness :
  RSIStrategy.signal
    (RSIStrategy.calculate Samples.unavailable_rsi
       (RSIStrategy.__init__ None None None) Samples.short_window)
  = NEUTRAL.
Proof.
  apply (rsi_unavailable_reading_has_confidence_20 Samples.unavailable_rsi
           (RSIStrategy.__init__ None None None) Samples.short_window
           [NaN; NaN; NaN; NaN; NaN] eq_refl eq_refl).
Defined.

(** The loop of [calculate_all] runs every strategy on the same window: the
    results of the strategies after the first do not depend on what the
    first one does. *)
Lemma run_tail_independent
  (flags : list (string * bool)) (name : string)
  (s1 s2 : StrategyManager.Strategy)
  (rest : list (string * StrategyManager.Strategy)) (df : DataFrame) :
  exists (pre1 pre2 : list StrategyManager.StrategyResult),
    StrategyManager.run flags ((name, s1) :: rest) df
    = pre1 ++ StrategyManager.run flags rest df /\
    StrategyManager.run flags ((name, s2) :: rest) df
    = pre2 ++ StrategyManager.run flags rest df /\
    (List.length pre1 <= 1)%nat /\ (List.length pre2 <= 1)%nat.
Proof.
  cbn [StrategyManager.run].
  destruct (StrategyManager.enabled flags name).
  - destruct (s1 df) as [r1|e1], (s2 df) as [r2|e2].
    + exists [r1], [r2]. repeat split; cbn; lia.
    + exists [r1], []. repeat split; cbn; lia.
    + exists [], [r2]. repeat split; cbn; lia.
    + exists [], []. repeat split; cbn; lia.
  - exists [], []. repeat split; cbn; lia.
Qed.

(** ** The sentiment aggregator *)

(** ** The serialization cleaner *)

(** A Python float that is NaN or an infinity becomes [None]. *)
Lemma clean_python_float (f : fval) :
  F.non_finite f = true ->
  PredictionEngine._clean_for_serialization (PredictionEngine.PFloat f)
  = PredictionEngine.PNone.
Proof. intro H. cbn. rewrite H. reflexivity. Qed.

(** A numpy float is converted by its [item] method and returned as it is,
    NaN and the infinities included. *)
Lemma clean_numpy_float (f : fval) :
  PredictionEngine._clean_for_serialization (PredictionEngine.NpFloat64 f)
  = PredictionEngine.PFloat f.
Proof. reflexivity. Qed.

(** The cleaned structure holds NaN or an infinity exactly when the
    structure held one in a numpy float. *)
Lemma clean_emits_what_numpy_holds :
  forall obj : PredictionEngine.pyval,
    PredictionEngine.emits_non_finite
      (PredictionEngine._clean_for_serialization obj)
    = PredictionEngine.holds_non_finite_numpy obj.
Proof.
  fix IH 1. intro obj.
  destruct obj as [ | b | z | f | s | items | l | l | l | items | records
                  | f | z | b | iso ]; try reflexivity.
  - cbn. destruct f; reflexivity.
  - cbn. induction items as [|[k v] items IHl]; [reflexivity|].
    cbn. rewrite (IH v), IHl. reflexivity.
  - cbn. induction l as [|v l IHl]; [reflexivity|].
    cbn. rewrite (IH v), IHl. reflexivity.
  - cbn. induction l as [|v l IHl]; [reflexivity|].
    cbn. rewrite (IH v), IHl. reflexivity.
  - cbn. induction l as [|v l IHl]; [reflexivity|].
    cbn. rewrite (IH v), IHl. reflexivity.
  - cbn. induction items as [|[k v] items IHl]; [reflexivity|].
    cbn. rewrite (IH v), IHl. reflexivity.
  - cbn. induction records as [|row records IHr]; [reflexivity|].
    cbn. rewrite IHr. f_equal.
    induction row as [|[k v] row IHl]; [reflexivity|].
    cbn. rewrite (IH v), IHl. reflexivity.
Qed.

(** C9, what the code does.  The RSI value of a short window, a numpy
    float holding NaN, leaves the cleaner as the Python float NaN, not as
    [None], and so does every numpy float holding NaN or an infinity,
    wherever it sits in the structure; Python floats holding NaN or an
    infinity do become [None]. *)
Theorem clean_keeps_numpy_nan :
  PredictionEngine._clean_for_serialization Samples.nan_prediction
  = PredictionEngine.PDict
      [ ("coin"%string, PredictionEngine.PStr "BTC");
        ("strategy"%string,
         PredictionEngine.PDict
           [ ("signal"%string, PredictionEngine.PStr "NEUTRAL");
             ("confidence"%string, PredictionEngine.PFloat (Num 12.5));
             ("details"%string,
              PredictionEngine.PList
                [ PredictionEngine.PDict
                    [ ("strategy"%string, PredictionEngine.PStr "RSI");
                      ("signal"%string, PredictionEngine.PStr "NEUTRAL");
                      ("confidence"%string, PredictionEngine.PInt 20);
                      ("value"%string, PredictionEngine.PFloat NaN) ] ]) ]) ] /\
  PredictionEngine.emits_non_finite
    (PredictionEngine._clean_for_serialization Samples.nan_prediction) = true /\
  PredictionEngine._clean_for_serialization
    (PredictionEngine.NpFloat64 (Inf true))
  = PredictionEngine.PFloat (Inf true) /\
  PredictionEngine._clean_for_serialization (PredictionEngine.PFloat NaN)
  = PredictionEngine.PNone /\
  (forall obj : PredictionEngine.pyval,
     PredictionEngine.emits_non_finite
       (PredictionEngine._clean_for_serialization obj) = true <->
     PredictionEngine.holds_non_finite_numpy obj = true).
Proof.
  repeat split; try reflexivity;
    rewrite clean_emits_what_numpy_holds; auto.
Qed.

(** * Further properties of the engine *)

(** ** Rounding keeps integer bounds and the order *)

Lemma round_half_even_floor (x : Q) :
  (Qfloor x <= Py.round_half_even x <= Qfloor x + 1)%Z.
Proof.
  unfold Py.round_half_even.
  destruct (Py.ltb (x - inject_Z (Qfloor x)) (1 # 2)); [lia|].
  destruct (Py.ltb (1 # 2) (x - inject_Z (Qfloor x))); [lia|].
  destruct (Z.even (Qfloor x)); lia.
Qed.

Lemma round_half_even_ge (x : Q) (k : Z) :
  inject_Z k <= x -> (k <= Py.round_half_even x)%Z.
Proof.
  intro H. apply Qfloor_resp_le in H. rewrite Qfloor_Z in H.
  pose proof (round_half_even_floor x). lia.
Qed.

Lemma round_half_even_le (x : Q) (k : Z) :
  x <= inject_Z k -> (Py.round_half_even x <= k)%Z.
Proof.
  intro H. pose proof (Qfloor_resp_le _ _ H) as Hf. rewrite Qfloor_Z in Hf.
  pose proof (round_half_even_floor x) as Hb.
  destruct (Z.eq_dec (Qfloor x) k) as [E | E]; [|lia].
  assert (Hx : x == inject_Z k).
  { apply Qle_antisym; [exact H|]. rewrite <- E. apply Qfloor_le. }
  rewrite (round_half_even_comp x (inject_Z k) Hx).
  unfold Py.round_half_even. rewrite Qfloor_Z.
  replace (Py.ltb (inject_Z k - inject_Z k) (1 # 2)) with true; [lia|].
  symmetry. apply ltb_lt. lra.
Qed.

Lemma scale_pos (n : nat) : 0 < inject_Z (10 ^ Z.of_nat n).
Proof.
  replace 0 with (inject_Z 0) by reflexivity. rewrite <- Zlt_Qlt.
  apply Z.pow_pos_nonneg; lia.
Qed.

(** An integer bound on a number is a bound on its rounding. *)
Lemma round_ge (x : Q) (n : nat) (k : Z) :
  inject_Z k <= x -> inject_Z k <= Py.round x n.
Proof.
  intro H. unfold Py.round.
  set (s := inject_Z (10 ^ Z.of_nat n)).
  assert (Hs : 0 < s) by apply scale_pos.
  assert (Hk : inject_Z (k * 10 ^ Z.of_nat n) <= x * s).
  { rewrite inject_Z_mult. fold s. nra. }
  apply round_half_even_ge in Hk. rewrite Zle_Qle in Hk.
  rewrite inject_Z_mult in Hk. fold s in Hk.
  apply Qle_shift_div_l; [exact Hs | exact Hk].
Qed.

Lemma round_le (x : Q) (n : nat) (k : Z) :
  x <= inject_Z k -> Py.round x n <= inject_Z k.
Proof.
  intro H. unfold Py.round.
  set (s := inject_Z (10 ^ Z.of_nat n)).
  assert (Hs : 0 < s) by apply scale_pos.
  assert (Hk : x * s <= inject_Z (k * 10 ^ Z.of_nat n)).
  { rewrite inject_Z_mult. fold s. nra. }
  apply round_half_even_le in Hk. rewrite Zle_Qle in Hk.
  rewrite inject_Z_mult in Hk. fold s in Hk.
  apply Qle_shift_div_r; [exact Hs | exact Hk].
Qed.

Lemma round_half_even_mono (x y : Q) :
  x <= y -> (Py.round_half_even x <= Py.round_half_even y)%Z.
Proof.
  intro H. pose proof (Qfloor_resp_le _ _ H) as Hf.
  destruct (Z.eq_dec (Qfloor x) (Qfloor y)) as [E | E].
  - unfold Py.round_half_even. rewrite E.
    set (f := Qfloor y).
    destruct (Py.ltb (x - inject_Z f) (1 # 2)) eqn:X1.
    + destruct (Py.ltb (y - inject_Z f) (1 # 2)); [lia|].
      destruct (Py.ltb (1 # 2) (y - inject_Z f)); [lia|].
      destruct (Z.even f); lia.
    + apply ltb_ge in X1.
      destruct (Py.ltb (1 # 2) (x - inject_Z f)) eqn:X2.
      * apply ltb_lt in X2.
        replace (Py.ltb (y - inject_Z f) (1 # 2)) with false
          by (symmetry; apply ltb_ge; lra).
        replace (Py.ltb (1 # 2) (y - inject_Z f)) with true
          by (symmetry; apply ltb_lt; lra).
        lia.
      * apply ltb_ge in X2.
        replace (Py.ltb (y - inject_Z f) (1 # 2)) with false
          by (symmetry; apply ltb_ge; lra).
        destruct (Py.ltb (1 # 2) (y - inject_Z f)); [|lia].
        destruct (Z.even f); lia.
  - pose proof (round_half_even_floor x). pose proof (round_half_even_floor y).
    lia.
Qed.

(** Rounding to a fixed number of decimals is monotone. *)
Lemma round_mono (x y : Q) (n : nat) : x <= y -> Py.round x n <= Py.round y n.
Proof.
  intro H. unfold Py.round.
  set (s := inject_Z (10 ^ Z.of_nat n)).
  assert (Hs : 0 < s) by apply scale_pos.
  assert (Hxy : x * s <= y * s) by nra.
  apply round_half_even_mono in Hxy. rewrite Zle_Qle in Hxy.
  apply Qle_shift_div_l; [exact Hs|].
  assert (E : inject_Z (Py.round_half_even (x * s)) / s * s
              == inject_Z (Py.round_half_even (x * s))) by (field; lra).
  rewrite E. exact Hxy.
Qed.

Lemma min_le_l (a b : Q) : Py.min a b <= a.
Proof. rewrite min_Qmin. apply Q.le_min_l. Qed.

Lemma min_glb (a b c : Q) : c <= a -> c <= b -> c <= Py.min a b.
Proof. intros. rewrite min_Qmin. apply Q.min_glb; assumption. Qed.

Lemma max_ge_l (a b : Q) : a <= Py.max a b.
Proof. rewrite max_Qmax. apply Q.le_max_l. Qed.

Lemma max_lub (a b c : Q) : a <= c -> b <= c -> Py.max a b <= c.
Proof. intros. rewrite max_Qmax. apply Q.max_lub; assumption. Qed.

Lemma floor_unique (x : Q) (z : Z) :
  inject_Z z <= x -> x < inject_Z (z + 1) -> Qfloor x = z.
Proof.
  intros Hl Hu.
  pose proof (Qfloor_resp_le _ _ Hl) as H1. rewrite Qfloor_Z in H1.
  pose proof (Qfloor_le x) as H2.
  assert (H3 : (Qfloor x < z + 1)%Z) by (rewrite Zlt_Qlt; lra).
  lia.
Qed.

(** Ties go to the even neighbour on both sides of zero: rounding commutes
    with the change of sign. *)
Lemma round_half_even_opp (x : Q) :
  Py.round_half_even (- x) = (- Py.round_half_even x)%Z.
Proof.
  pose proof (Qfloor_le x) as Hl. pose proof (Qlt_floor x) as Hu.
  rewrite inject_Z_plus in Hu. change (inject_Z 1) with 1 in Hu.
  set (f := Qfloor x) in *.
  destruct (Qeq_dec x (inject_Z f)) as [E | E].
  - assert (Hf : Qfloor (- x) = (- f)%Z).
    { apply floor_unique; rewrite ?inject_Z_plus, inject_Z_opp;
        change (inject_Z 1) with 1; lra. }
    unfold Py.round_half_even. fold f. rewrite Hf.
    replace (Py.ltb (- x - inject_Z (- f)) (1 # 2)) with true
      by (symmetry; apply ltb_lt; rewrite inject_Z_opp; lra).
    replace (Py.ltb (x - inject_Z f) (1 # 2)) with true
      by (symmetry; apply ltb_lt; lra).
    reflexivity.
  - assert (Hlt : inject_Z f < x).
    { apply Qle_lteq in Hl. destruct Hl as [Hl | Hl]; [exact Hl|].
      exfalso. apply E. symmetry. exact Hl. }
    assert (Hf : Qfloor (- x) = (- f - 1)%Z).
    { apply floor_unique.
      - unfold Z.sub. rewrite inject_Z_plus, !inject_Z_opp.
        change (inject_Z 1) with 1. lra.
      - replace (- f - 1 + 1)%Z with (- f)%Z by lia.
        rewrite inject_Z_opp. lra. }
    assert (Hr : - x - inject_Z (- f - 1) == 1 - (x - inject_Z f)).
    { unfold Z.sub. rewrite inject_Z_plus, !inject_Z_opp.
      change (inject_Z 1) with 1. ring. }
    unfold Py.round_half_even. fold f. rewrite Hf.
    rewrite (ltb_comp _ (1 - (x - inject_Z f)) (1 # 2) (1 # 2) Hr (Qeq_refl _)).
    rewrite (ltb_comp (1 # 2) (1 # 2) _ (1 - (x - inject_Z f)) (Qeq_refl _) Hr).
    set (r := x - inject_Z f) in *.
    destruct (Py.ltb r (1 # 2)) eqn:R1.
    + apply ltb_lt in R1.
      replace (Py.ltb (1 - r) (1 # 2)) with false
        by (symmetry; apply ltb_ge; lra).
      replace (Py.ltb (1 # 2) (1 - r)) with true
        by (symmetry; apply ltb_lt; lra).
      lia.
    + apply ltb_ge in R1.
      destruct (Py.ltb (1 # 2) r) eqn:R2.
      * apply ltb_lt in R2.
        replace (Py.ltb (1 - r) (1 # 2)) with true
          by (symmetry; apply ltb_lt; lra).
        lia.
      * apply ltb_ge in R2.
        replace (Py.ltb (1 - r) (1 # 2)) with false
          by (symmetry; apply ltb_ge; lra).
        replace (Py.ltb (1 # 2) (1 - r)) with false
          by (symmetry; apply ltb_ge; lra).
        replace (- f - 1)%Z with (- (f + 1))%Z by lia.
        rewrite Z.even_opp.
        replace (f + 1)%Z with (Z.succ f) by lia. rewrite Z.even_succ.
        rewrite <- Z.negb_even.
        destruct (Z.even f); cbn; lia.
Qed.

Lemma round_opp (x : Q) (n : nat) : Py.round (- x) n == - Py.round x n.
Proof.
  unfold Py.round.
  set (s := inject_Z (10 ^ Z.of_nat n)).
  assert (Hs : 0 < s) by apply scale_pos.
  rewrite (round_half_even_comp (- x * s) (- (x * s))) by ring.
  rewrite round_half_even_opp, inject_Z_opp.
  field. lra.
Qed.

(** ** The probability combiner: bounds, sources and symmetry *)

(** A weighted average with non-negative weights that sum to 1 stays
    between the bounds of what it averages. *)
Lemma convex_bounds (a b c w1 w2 w3 lo hi : Q) :
  0 <= w1 -> 0 <= w2 -> 0 <= w3 -> w1 + w2 + w3 == 1 ->
  lo <= a <= hi -> lo <= b <= hi -> lo <= c <= hi ->
  lo <= a * w1 + b * w2 + c * w3 <= hi.
Proof.
  intros H1 H2 H3 Hs [Ha1 Ha2] [Hb1 Hb2] [Hc1 Hc2].
  assert (E1 : lo == lo * w1 + lo * w2 + lo * w3)
    by (transitivity (lo * (w1 + w2 + w3)); [rewrite Hs|]; ring).
  assert (E2 : hi == hi * w1 + hi * w2 + hi * w3)
    by (transitivity (hi * (w1 + w2 + w3)); [rewrite Hs|]; ring).
  split; [rewrite E1 | rewrite E2]; nra.
Qed.

Lemma or_default_nonneg (x : option Q) (d : Q) :
  0 <= d -> (forall v, x = Some v -> 0 <= v) -> 0 <= Py.or_default x d.
Proof.
  intros Hd Hx. destruct x as [v|]; cbn; [|exact Hd].
  destruct (Qeq_bool v 0); [exact Hd | apply Hx; reflexivity].
Qed.

(** The weights of a combiner built from arguments that are not negative
    are not negative and sum to 1. *)
Lemma init_nonneg_weights (sw mw nw : option Q) (self : ProbabilityCombiner.t) :
  ProbabilityCombiner.__init__ sw mw nw = Ok self ->
  (forall v, sw = Some v -> 0 <= v) ->
  (forall v, mw = Some v -> 0 <= v) ->
  (forall v, nw = Some v -> 0 <= v) ->
  0 <= ProbabilityCombiner.strategy_weight self /\
  0 <= ProbabilityCombiner.ml_weight self /\
  0 <= ProbabilityCombiner.news_weight self /\
  ProbabilityCombiner.strategy_weight self
  + ProbabilityCombiner.ml_weight self
  + ProbabilityCombiner.news_weight self == 1.
Proof.
  intros Hi Hs Hm Hn.
  destruct (init_cases sw mw nw) as [[_ Hr] | [Hnz Hr]]; [congruence|].
  rewrite Hr in Hi. injection Hi as <-. cbn.
  assert (H1 := or_default_nonneg sw settings.STRATEGY_WEIGHT ltac:(discriminate) Hs).
  assert (H2 := or_default_nonneg mw settings.ML_WEIGHT ltac:(discriminate) Hm).
  assert (H3 := or_default_nonneg nw settings.NEWS_WEIGHT ltac:(discriminate) Hn).
  set (s := Py.or_default sw settings.STRATEGY_WEIGHT) in *.
  set (m := Py.or_default mw settings.ML_WEIGHT) in *.
  set (n := Py.or_default nw settings.NEWS_WEIGHT) in *.
  assert (Hpos : 0 < s + m + n).
  { apply Qle_lteq in H1. apply Qle_lteq in H2. apply Qle_lteq in H3.
    assert (Hle : 0 <= s + m + n) by (destruct H1, H2, H3; lra).
    apply Qle_lteq in Hle. destruct Hle as [Hlt | Heq]; [exact Hlt|].
    exfalso. apply Hnz. symmetry. exact Heq. }
  assert (Hdiv : forall x, 0 <= x -> 0 <= x / (s + m + n)).
  { intros x Hx. apply Qle_shift_div_l; [exact Hpos | lra]. }
  repeat split; try (apply Hdiv; assumption).
  field. lra.
Qed.

Lemma adjust_bounds (ss ms ns : Signal) (c : Q) :
  0 <= c <= 100 -> 0 <= ProbabilityCombiner.adjust ss ms ns c <= 100.
Proof.
  intros [H0 H1]. unfold ProbabilityCombiner.adjust.
  set (c1 := if ProbabilityCombiner.all_agree ss ms ns
             then Py.min 100 (c + 15) else c).
  assert (Hc1 : 0 <= c1 <= 100).
  { unfold c1. destruct (ProbabilityCombiner.all_agree ss ms ns).
    - split; [apply min_glb; lra | apply min_le_l].
    - split; assumption. }
  destruct (ProbabilityCombiner.disagree ss ms); [|exact Hc1].
  split; [apply max_ge_l | apply max_lub; lra].
Qed.

Lemma signal_map_bounds (s : Signal) (c : Q) :
  0 <= c <= 100 -> -1 <= ProbabilityCombiner.signal_map s * (c / 100) <= 1.
Proof.
  intros [H0 H1].
  assert (E : c / 100 == c * (1 # 100)) by field.
  rewrite E. destruct s; cbn [ProbabilityCombiner.signal_map]; lra.
Qed.

(** X1.  A combiner built from weights that are not negative, fed with
    confidences between 0 and 100, returns a confidence between 0 and 100
    and a score between -1 and 1, the adjustments and the rounding
    included. *)
Theorem combine_bounds :
  forall (sw mw nw : option Q) (self : ProbabilityCombiner.t)
         (ss ms ns : Signal) (sc mc nc : Q),
    ProbabilityCombiner.__init__ sw mw nw = Ok self ->
    (forall v, sw = Some v -> 0 <= v) ->
    (forall v, mw = Some v -> 0 <= v) ->
    (forall v, nw = Some v -> 0 <= v) ->
    0 <= sc <= 100 -> 0 <= mc <= 100 -> 0 <= nc <= 100 ->
    let r := ProbabilityCombiner.combine self
               (ProbabilityCombiner.layer ss sc)
               (ProbabilityCombiner.layer ms mc)
               (ProbabilityCombiner.layer ns nc) in
    0 <= ProbabilityCombiner.final_confidence r <= 100 /\
    -1 <= ProbabilityCombiner.final_score r <= 1.
Proof.
  intros sw mw nw self ss ms ns sc mc nc Hi Hs Hm Hn Hsc Hmc Hnc r.
  destruct (init_nonneg_weights sw mw nw self Hi Hs Hm Hn)
    as (W1 & W2 & W3 & Wsum).
  assert (Hconf : 0 <= ProbabilityCombiner.weighted_confidence self sc mc nc
                  <= 100).
  { unfold ProbabilityCombiner.weighted_confidence.
    apply convex_bounds; assumption. }
  assert (Hscore : -1 <= ProbabilityCombiner.score self ss sc ms mc ns nc <= 1).
  { unfold ProbabilityCombiner.score.
    apply convex_bounds; try assumption; apply signal_map_bounds; assumption. }
  apply (adjust_bounds ss ms ns) in Hconf.
  destruct Hconf as [C0 C1]. destruct Hscore as [S0 S1].
  unfold r. cbn [ProbabilityCombiner.combine ProbabilityCombiner.layer
                 ProbabilityCombiner.lr_signal ProbabilityCombiner.lr_confidence
                 Py.get ProbabilityCombiner.final_confidence
                 ProbabilityCombiner.final_score].
  repeat split.
  - apply (round_ge _ 2 0). exact C0.
  - apply (round_le _ 2 100). exact C1.
  - apply (round_ge _ 3 (-1)). exact S0.
  - apply (round_le _ 3 1). exact S1.
Qed.

Lemma combine_bounds_witness :
  exists self,
    ProbabilityCombiner.__init__ None (Some 2) (Some 0) = Ok self /\
    0 <= ProbabilityCombiner.final_confidence
           (ProbabilityCombiner.combine self
              (ProbabilityCombiner.layer BUY 100)
              (ProbabilityCombiner.layer BUY 100)
              (ProbabilityCombiner.layer BUY 100)) <= 100.
Proof.
  eexists. split; [reflexivity|].
  apply (combine_bounds None (Some 2) (Some 0) _ BUY BUY BUY 100 100 100 eq_refl).
  - intros v H. discriminate.
  - intros v H. injection H as <-. unfold Qle. cbn. lia.
  - intros v H. injection H as <-. unfold Qle. cbn. lia.
  - split; unfold Qle; cbn; lia.
  - split; unfold Qle; cbn; lia.
  - split; unfold Qle; cbn; lia.
Defined.

Lemma signal_of_score_buy (s : Q) :
  ProbabilityCombiner.signal_of_score s = BUY -> 0.15 < s.
Proof.
  unfold ProbabilityCombiner.signal_of_score.
  destruct (Py.ltb 0.15 s) eqn:E; [intros _; apply ltb_lt; exact E|].
  destruct (Py.ltb s (-0.15)); discriminate.
Qed.

Lemma signal_of_score_sell (s : Q) :
  ProbabilityCombiner.signal_of_score s = SELL -> s < -0.15.
Proof.
  unfold ProbabilityCombiner.signal_of_score.
  destruct (Py.ltb 0.15 s) eqn:E; [discriminate|].
  destruct (Py.ltb s (-0.15)) eqn:E2; [intros _; apply ltb_lt; exact E2|].
  discriminate.
Qed.

(** X2.  With weights and confidences that are not negative, the combiner
    answers BUY only when at least one layer says BUY, and SELL only when
    at least one layer says SELL; three NEUTRAL layers give NEUTRAL. *)
Theorem combine_needs_a_source :
  forall (self : ProbabilityCombiner.t) (ss ms ns : Signal) (sc mc nc : Q),
    0 <= ProbabilityCombiner.strategy_weight self ->
    0 <= ProbabilityCombiner.ml_weight self ->
    0 <= ProbabilityCombiner.news_weight self ->
    0 <= sc -> 0 <= mc -> 0 <= nc ->
    let r := ProbabilityCombiner.combine self
               (ProbabilityCombiner.layer ss sc)
               (ProbabilityCombiner.layer ms mc)
               (ProbabilityCombiner.layer ns nc) in
    (ProbabilityCombiner.final_signal r = BUY ->
       ss = BUY \/ ms = BUY \/ ns = BUY) /\
    (ProbabilityCombiner.final_signal r = SELL ->
       ss = SELL \/ ms = SELL \/ ns = SELL) /\
    (ss = NEUTRAL -> ms = NEUTRAL -> ns = NEUTRAL ->
       ProbabilityCombiner.final_signal r = NEUTRAL).
Proof.
  intros self ss ms ns sc mc nc W1 W2 W3 Hsc Hmc Hnc r.
  set (w1 := ProbabilityCombiner.strategy_weight self) in *.
  set (w2 := ProbabilityCombiner.ml_weight self) in *.
  set (w3 := ProbabilityCombiner.news_weight self) in *.
  assert (Hr : ProbabilityCombiner.final_signal r
               = ProbabilityCombiner.signal_of_score
                   (ProbabilityCombiner.score self ss sc ms mc ns nc))
    by reflexivity.
  assert (Ea : forall c : Q, c / 100 == c * (1 # 100)) by (intro; field).
  assert (P1 : 0 <= sc * (1 # 100) * w1) by nra.
  assert (P2 : 0 <= mc * (1 # 100) * w2) by nra.
  assert (P3 : 0 <= nc * (1 # 100) * w3) by nra.
  assert (Hb : ProbabilityCombiner.final_signal r = BUY ->
               ss = BUY \/ ms = BUY \/ ns = BUY).
  { rewrite Hr. intro H. apply signal_of_score_buy in H.
    unfold ProbabilityCombiner.score in H. fold w1 w2 w3 in H.
    rewrite !Ea in H.
    destruct ss; auto; destruct ms; auto; destruct ns; auto;
      exfalso; cbn [ProbabilityCombiner.signal_map] in H; lra. }
  assert (Hs : ProbabilityCombiner.final_signal r = SELL ->
               ss = SELL \/ ms = SELL \/ ns = SELL).
  { rewrite Hr. intro H. apply signal_of_score_sell in H.
    unfold ProbabilityCombiner.score in H. fold w1 w2 w3 in H.
    rewrite !Ea in H.
    destruct ss; auto; destruct ms; auto; destruct ns; auto;
      exfalso; cbn [ProbabilityCombiner.signal_map] in H; lra. }
  split; [exact Hb|]. split; [exact Hs|].
  intros E1 E2 E3.
  destruct (ProbabilityCombiner.final_signal r) eqn:E; [| |reflexivity].
  - destruct (Hb eq_refl) as [H | [H | H]]; congruence.
  - destruct (Hs eq_refl) as [H | [H | H]]; congruence.
Qed.

Lemma combine_needs_a_source_witness :
  ProbabilityCombiner.final_signal
    (ProbabilityCombiner.combine
       {| ProbabilityCombiner.strategy_weight := 0.40;
          ProbabilityCombiner.ml_weight := 0.35;
          ProbabilityCombiner.news_weight := 0.25 |}
       (ProbabilityCombiner.layer NEUTRAL 80)
       (ProbabilityCombiner.layer NEUTRAL 90)
       (ProbabilityCombiner.layer NEUTRAL 70)) = NEUTRAL.
Proof.
  assert (H : forall q : Q, (0 <= Qnum q)%Z -> 0 <= q)
    by (intros q Hq; unfold Qle; cbn; lia).
  apply (combine_needs_a_source
           {| ProbabilityCombiner.strategy_weight := 0.40;
              ProbabilityCombiner.ml_weight := 0.35;
              ProbabilityCombiner.news_weight := 0.25 |}
           NEUTRAL NEUTRAL NEUTRAL 80 90 70);
    try reflexivity; apply H; cbn; lia.
Defined.

(** X3.  The combiner has no directional bias: exchanging BUY and SELL in
    the three layers exchanges them in the final signal, changes the sign
    of the score and leaves the confidence as it is. *)
Theorem combine_mirror :
  forall (self : ProbabilityCombiner.t) (ss ms ns : Signal) (sc mc nc : Q),
    let mirror (s : Signal) : Signal :=
      match s with BUY => SELL | SELL => BUY | NEUTRAL => NEUTRAL end in
    let r := ProbabilityCombiner.combine self
               (ProbabilityCombiner.layer ss sc)
               (ProbabilityCombiner.layer ms mc)
               (ProbabilityCombiner.layer ns nc) in
    let r' := ProbabilityCombiner.combine self
                (ProbabilityCombiner.layer (mirror ss) sc)
                (ProbabilityCombiner.layer (mirror ms) mc)
                (ProbabilityCombiner.layer (mirror ns) nc) in
    ProbabilityCombiner.final_signal r'
    = mirror (ProbabilityCombiner.final_signal r) /\
    ProbabilityCombiner.final_score r'
    == - ProbabilityCombiner.final_score r /\
    ProbabilityCombiner.final_confidence r'
    = ProbabilityCombiner.final_confidence r.
Proof.
  intros self ss ms ns sc mc nc mirror r r'.
  assert (Hscore : ProbabilityCombiner.score self (mirror ss) sc (mirror ms) mc
                     (mirror ns) nc
                   == - ProbabilityCombiner.score self ss sc ms mc ns nc).
  { unfold ProbabilityCombiner.score.
    destruct ss, ms, ns; cbn [mirror ProbabilityCombiner.signal_map]; ring. }
  set (x := ProbabilityCombiner.score self ss sc ms mc ns nc) in *.
  set (x' := ProbabilityCombiner.score self (mirror ss) sc (mirror ms) mc
               (mirror ns) nc) in *.
  split; [|split].
  - change (ProbabilityCombiner.signal_of_score x'
            = mirror (ProbabilityCombiner.signal_of_score x)).
    unfold ProbabilityCombiner.signal_of_score.
    rewrite (ltb_comp 0.15 0.15 x' (- x) (Qeq_refl _) Hscore).
    rewrite (ltb_comp x' (- x) (-0.15) (-0.15) Hscore (Qeq_refl _)).
    destruct (Py.ltb 0.15 x) eqn:A; destruct (Py.ltb x (-0.15)) eqn:B;
      try apply ltb_lt in A; try apply ltb_lt in B;
      try apply ltb_ge in A; try apply ltb_ge in B.
    + exfalso. lra.
    + replace (Py.ltb 0.15 (- x)) with false by (symmetry; apply ltb_ge; lra).
      replace (Py.ltb (- x) (-0.15)) with true by (symmetry; apply ltb_lt; lra).
      reflexivity.
    + replace (Py.ltb 0.15 (- x)) with true by (symmetry; apply ltb_lt; lra).
      reflexivity.
    + replace (Py.ltb 0.15 (- x)) with false by (symmetry; apply ltb_ge; lra).
      replace (Py.ltb (- x) (-0.15)) with false by (symmetry; apply ltb_ge; lra).
      reflexivity.
  - change (Py.round x' 3 == - Py.round x 3).
    rewrite (round_comp x' (- x) 3 Hscore). apply round_opp.
  - change (Py.round (ProbabilityCombiner.adjust (mirror ss) (mirror ms)
                        (mirror ns)
                        (ProbabilityCombiner.weighted_confidence self sc mc nc)) 2
            = Py.round (ProbabilityCombiner.adjust ss ms ns
                          (ProbabilityCombiner.weighted_confidence self sc mc nc)) 2).
    destruct ss, ms, ns; reflexivity.
Qed.

(** ** The aggregators: bounds, counts and the strategy loop *)

Lemma fold_left_plus (l : list Q) (a : Q) :
  fold_left Qplus l a == a + fold_left Qplus l 0.
Proof.
  revert a. induction l as [|x l IH]; intro a; cbn.
  - ring.
  - rewrite (IH (a + x)), (IH (0 + x)). ring.
Qed.

Lemma sum_cons (x : Q) (l : list Q) : Py.sum (x :: l) == x + Py.sum l.
Proof. unfold Py.sum. cbn. rewrite fold_left_plus. ring. Qed.

Lemma len_cons {A : Type} (x : A) (l : list A) : Py.len (x :: l) == 1 + Py.len l.
Proof.
  unfold Py.len. cbn [List.length]. rewrite Nat2Z.inj_succ.
  unfold Z.succ. rewrite inject_Z_plus. change (inject_Z 1) with 1. ring.
Qed.

Lemma len_nonneg {A : Type} (l : list A) : 0 <= Py.len l.
Proof.
  unfold Py.len. change 0 with (inject_Z 0). rewrite <- Zle_Qle. lia.
Qed.

Lemma len_pos {A : Type} (x : A) (l : list A) : 0 < Py.len (x :: l).
Proof. rewrite len_cons. pose proof (len_nonneg l). lra. Qed.

(** The sum of numbers between two bounds lies between the bounds times
    the length. *)
Lemma sum_bounds (lo hi : Q) (l : list Q) :
  Forall (fun x => lo <= x <= hi) l ->
  lo * Py.len l <= Py.sum l <= hi * Py.len l.
Proof.
  induction 1 as [|x l [Hx1 Hx2] _ [IH1 IH2]].
  - unfold Py.sum, Py.len. cbn [fold_left List.length Z.of_nat].
    change (inject_Z 0) with 0. lra.
  - rewrite sum_cons, len_cons. split; lra.
Qed.

Lemma average_bounds (lo hi : Q) (x : Q) (l : list Q) :
  Forall (fun y => lo <= y <= hi) (x :: l) ->
  lo <= Py.sum (x :: l) / Py.len (x :: l) <= hi.
Proof.
  intro H. destruct (sum_bounds lo hi (x :: l) H) as [H1 H2].
  pose proof (len_pos x l) as Hp.
  split.
  - apply Qle_shift_div_l; assumption.
  - apply Qle_shift_div_r; assumption.
Qed.

Lemma of_nat_nonneg (n : nat) : 0 <= Py.of_nat n.
Proof.
  unfold Py.of_nat. change 0 with (inject_Z 0). rewrite <- Zle_Qle. lia.
Qed.

Lemma of_nat_le (n m : nat) : (n <= m)%nat -> Py.of_nat n <= Py.of_nat m.
Proof. intro H. unfold Py.of_nat. rewrite <- Zle_Qle. lia. Qed.

Lemma count_le_length {A : Type} (p : A -> bool) (l : list A) :
  (Py.count p l <= List.length l)%nat.
Proof. unfold Py.count. apply filter_length_le. Qed.

(** A share [count / len] of a list that is not empty is between 0 and 1. *)
Lemma share_bounds {A : Type} (n : nat) (x : A) (l : list A) :
  (n <= List.length (x :: l))%nat ->
  0 <= Py.of_nat n / Py.len (x :: l) <= 1.
Proof.
  intro H. pose proof (len_pos x l) as Hp.
  pose proof (of_nat_nonneg n) as H0.
  apply of_nat_le in H. change (Py.of_nat (List.length (x :: l)))
    with (Py.len (x :: l)) in H.
  split.
  - apply Qle_shift_div_l; [exact Hp | lra].
  - apply Qle_shift_div_r; [exact Hp | lra].
Qed.

(** X4.  Whatever the number of strategy results, when their confidences
    are between 0 and 100 the aggregated confidence is between 0 and 100,
    and the three counts add up to the number of results. *)
Theorem combine_strategies_bounds :
  forall results : list StrategyManager.StrategyResult,
    Forall (fun r => 0 <= StrategyManager.confidence r <= 100) results ->
    let c := StrategyManager._combine_strategies results in
    0 <= StrategyManager.avg_confidence c <= 100 /\
    (StrategyManager.buy_count c + StrategyManager.sell_count c
     + StrategyManager.neutral_count c = List.length results)%nat.
Proof.
  intros results Hall c.
  destruct results as [|x xs].
  - cbn. split; [lra | reflexivity].
  - assert (Hne : x :: xs <> []) by discriminate.
    destruct (combine_strategies_nonempty (x :: xs) Hne) as [_ Hconf].
    fold c in Hconf. rewrite Hconf.
    split.
    2:{ unfold c, StrategyManager._combine_strategies.
        destruct (StrategyManager.decide (x :: xs)) as [sig conf].
        apply (strategy_counts_partition (x :: xs)). }
    assert (Havg : 0 <= Py.sum (map StrategyManager.confidence (x :: xs))
                        / Py.len (x :: xs) <= 100).
    { assert (E : Py.len (x :: xs)
                  = Py.len (map StrategyManager.confidence (x :: xs)))
        by (unfold Py.len; rewrite length_map; reflexivity).
      rewrite E. cbn [map]. apply average_bounds.
      change (Forall (fun y => 0 <= y <= 100)
                (map StrategyManager.confidence (x :: xs))).
      apply Forall_map. exact Hall. }
    destruct Havg as [A0 A1].
    assert (Hshare : forall n, (n <= List.length (x :: xs))%nat ->
              0 <= Py.of_nat n / Py.len (x :: xs) <= 1)
      by (intros n Hn; apply share_bounds; exact Hn).
    unfold StrategyManager.decide.
    set (b := Py.count (StrategyManager.has_signal BUY) (x :: xs)).
    set (s := Py.count (StrategyManager.has_signal SELL) (x :: xs)).
    set (n := Py.count (StrategyManager.has_signal NEUTRAL) (x :: xs)).
    assert (Hb : (b <= List.length (x :: xs))%nat) by apply count_le_length.
    assert (Hs : (s <= List.length (x :: xs))%nat) by apply count_le_length.
    assert (Hn : (n <= List.length (x :: xs))%nat) by apply count_le_length.
    destruct ((s <? b)%nat && (n <? b)%nat); [|destruct ((b <? s)%nat && (n <? s)%nat)];
      cbn [snd].
    + destruct (Hshare b Hb). split.
      * apply (round_ge _ 2 0). change (inject_Z 0) with 0.
        apply min_glb; [lra | nra].
      * apply (round_le _ 2 100). change (inject_Z 100) with 100.
        apply min_le_l.
    + destruct (Hshare s Hs). split.
      * apply (round_ge _ 2 0). change (inject_Z 0) with 0.
        apply min_glb; [lra | nra].
      * apply (round_le _ 2 100). change (inject_Z 100) with 100.
        apply min_le_l.
    + assert (Hm : (Nat.max (Nat.max b s) n <= List.length (x :: xs))%nat) by lia.
      destruct (Hshare _ Hm). split.
      * apply (round_ge _ 2 0). change (inject_Z 0) with 0. apply max_ge_l.
      * apply (round_le _ 2 100). change (inject_Z 100) with 100.
        apply max_lub; [lra | nra].
Qed.

Lemma combine_strategies_bounds_witness :
  0 <= StrategyManager.avg_confidence
         (StrategyManager._combine_strategies Samples.six_results) <= 100.
Proof.
  apply (combine_strategies_bounds Samples.six_results).
  repeat constructor; cbn; unfold Qle; cbn; lia.
Defined.

(** X5.  When the confidences of the votes are between 0 and 100, the
    confidence of the ensemble is between 0 and 100, and a NEUTRAL answer
    to a list that is not empty never has a confidence below 20. *)
Theorem combine_predictions_bounds :
  forall predictions : list MLModelPredictor.Prediction,
    Forall (fun p => 0 <= MLModelPredictor.confidence p <= 100) predictions ->
    let c := MLModelPredictor._combine_predictions predictions in
    0 <= MLModelPredictor.avg_confidence c <= 100 /\
    (predictions <> [] -> MLModelPredictor.c_signal c = NEUTRAL ->
       20 <= MLModelPredictor.avg_confidence c).
Proof.
  intros predictions Hall c.
  destruct predictions as [|x xs].
  - cbn. split; [lra | congruence].
  - assert (Hne : x :: xs <> []) by discriminate.
    destruct (combine_predictions_nonempty (x :: xs) Hne) as [Hsig Hconf].
    fold c in Hsig, Hconf. rewrite Hsig, Hconf.
    assert (Havg : 0 <= Py.sum (map MLModelPredictor.confidence (x :: xs))
                        / Py.len (x :: xs) <= 100).
    { assert (E : Py.len (x :: xs)
                  = Py.len (map MLModelPredictor.confidence (x :: xs)))
        by (unfold Py.len; rewrite length_map; reflexivity).
      rewrite E. cbn [map]. apply average_bounds.
      change (Forall (fun y => 0 <= y <= 100)
                (map MLModelPredictor.confidence (x :: xs))).
      apply Forall_map. exact Hall. }
    destruct Havg as [A0 A1].
    unfold MLModelPredictor.decide.
    set (b := Py.count (MLModelPredictor.has_signal BUY) (x :: xs)).
    set (s := Py.count (MLModelPredictor.has_signal SELL) (x :: xs)).
    assert (Hb : 0 <= Py.of_nat b / Py.len (x :: xs) <= 1)
      by (apply share_bounds, count_le_length).
    assert (Hs : 0 <= Py.of_nat s / Py.len (x :: xs) <= 1)
      by (apply share_bounds, count_le_length).
    destruct (s <? b)%nat; [|destruct (b <? s)%nat]; cbn [fst snd].
    + split; [|intros _ H; discriminate]. split.
      * apply (round_ge _ 2 0). change (inject_Z 0) with 0.
        apply min_glb; [lra | nra].
      * apply (round_le _ 2 100). change (inject_Z 100) with 100.
        apply min_le_l.
    + split; [|intros _ H; discriminate]. split.
      * apply (round_ge _ 2 0). change (inject_Z 0) with 0.
        apply min_glb; [lra | nra].
      * apply (round_le _ 2 100). change (inject_Z 100) with 100.
        apply min_le_l.
    + assert (H20 : 20 <= Py.max 20 (Py.sum (map MLModelPredictor.confidence (x :: xs))
                                     / Py.len (x :: xs) - 20))
        by apply max_ge_l.
      split; [split|intros _ _].
      * apply (round_ge _ 2 0). change (inject_Z 0) with 0. lra.
      * apply (round_le _ 2 100). change (inject_Z 100) with 100.
        apply max_lub; lra.
      * apply (round_ge _ 2 20). exact H20.
Qed.

Lemma combine_predictions_bounds_witness :
  0 <= MLModelPredictor.avg_confidence
         (MLModelPredictor._combine_predictions Samples.split_votes) <= 100.
Proof.
  apply (combine_predictions_bounds Samples.split_votes).
  repeat constructor; cbn; unfold Qle; cbn; lia.
Defined.

(** Votes that are all BUY or SELL are counted in one of the two. *)
Lemma vote_counts_partition (predictions : list MLModelPredictor.Prediction) :
  Forall (fun p => MLModelPredictor.signal p <> NEUTRAL) predictions ->
  (Py.count (MLModelPredictor.has_signal BUY) predictions
   + Py.count (MLModelPredictor.has_signal SELL) predictions
   = List.length predictions)%nat.
Proof.
  unfold Py.count, MLModelPredictor.has_signal.
  induction 1 as [|x xs Hx _ IH]; [reflexivity|].
  cbn [filter List.length].
  destruct (MLModelPredictor.signal x); cbn [Signal_eqb List.length];
    try lia; congruence.
Qed.

(** X6.  The classifiers vote BUY or SELL only; with an odd number of such
    votes the two counts differ and the ensemble never answers NEUTRAL. *)
Theorem combine_predictions_odd_is_decisive :
  forall predictions : list MLModelPredictor.Prediction,
    Forall (fun p => MLModelPredictor.signal p <> NEUTRAL) predictions ->
    Nat.odd (List.length predictions) = true ->
    MLModelPredictor.c_signal (MLModelPredictor._combine_predictions predictions)
    <> NEUTRAL.
Proof.
  intros predictions Hall Hodd.
  assert (Hne : predictions <> []) by (intro E; subst; discriminate).
  destruct (combine_predictions_nonempty predictions Hne) as [Hsig _].
  rewrite Hsig. unfold MLModelPredictor.decide.
  pose proof (vote_counts_partition predictions Hall) as Hpart.
  set (b := Py.count (MLModelPredictor.has_signal BUY) predictions) in *.
  set (s := Py.count (MLModelPredictor.has_signal SELL) predictions) in *.
  destruct (s <? b)%nat eqn:E1; [cbn; discriminate|].
  destruct (b <? s)%nat eqn:E2; [cbn; discriminate|].
  apply Nat.ltb_ge in E1, E2.
  assert (E : b = s) by lia.
  rewrite <- Hpart, E in Hodd.
  replace (s + s)%nat with (2 * s)%nat in Hodd by lia.
  rewrite Nat.odd_mul in Hodd. discriminate.
Qed.

Lemma combine_predictions_odd_is_decisive_witness :
  MLModelPredictor.c_signal
    (MLModelPredictor._combine_predictions
       [Samples.vote BUY 55; Samples.vote SELL 70; Samples.vote BUY 61])
  <> NEUTRAL.
Proof.
  apply (combine_predictions_odd_is_decisive
           [Samples.vote BUY 55; Samples.vote SELL 70; Samples.vote BUY 61]).
  - repeat constructor; cbn; discriminate.
  - reflexivity.
Defined.

(** X7.  When every enabled strategy raises, [calculate_all] has no result
    to combine and answers NEUTRAL with confidence 0 and empty counts. *)
Theorem calculate_all_without_results :
  forall (self : StrategyManager.t) (df : DataFrame),
    (forall name strategy,
       In (name, strategy) (StrategyManager.self_strategies self) ->
       StrategyManager.enabled (StrategyManager.enabled_strategies self) name
       = true ->
       exists e, strategy df = Raise e) ->
    StrategyManager.calculate_all self df
    = StrategyManager._combine_strategies [] /\
    StrategyManager.c_signal (StrategyManager.calculate_all self df) = NEUTRAL /\
    StrategyManager.avg_confidence (StrategyManager.calculate_all self df) = 0.
Proof.
  intros self df H.
  assert (Hrun : StrategyManager.run (StrategyManager.enabled_strategies self)
                   (StrategyManager.self_strategies self) df = []).
  { induction (StrategyManager.self_strategies self) as [|[name s] rest IH];
      [reflexivity|].
    cbn [StrategyManager.run].
    assert (IH' : StrategyManager.run (StrategyManager.enabled_strategies self)
                    rest df = []).
    { apply IH. intros n st Hin. apply H. right. exact Hin. }
    destruct (StrategyManager.enabled (StrategyManager.enabled_strategies self)
                name) eqn:E; [|exact IH'].
    destruct (H name s (or_introl eq_refl) E) as [e He].
    rewrite He. exact IH'. }
  unfold StrategyManager.calculate_all. rewrite Hrun.
  repeat split.
Qed.

Lemma calculate_all_without_results_witness :
  StrategyManager.calculate_all Samples.failing_manager Samples.short_window
  = StrategyManager._combine_strategies [].
Proof.
  apply (calculate_all_without_results Samples.failing_manager
           Samples.short_window).
  intros name strategy Hin _.
  destruct Hin as [H | [H | []]]; injection H as _ <-;
    exists IndexError; reflexivity.
Defined.

(** X8.  After [set_enabled_strategies({name: False})] the strategy of that
    name is skipped, and [calculate_all] answers what it would answer
    without that strategy. *)
Theorem disabled_strategy_is_skipped :
  forall (self : StrategyManager.t) (name : string) (df : DataFrame),
    let self' := StrategyManager.set_enabled_strategies self [(name, false)] in
    let others :=
      {| StrategyManager.self_strategies :=
           filter (fun '(n, _) => negb (String.eqb n name))
             (StrategyManager.self_strategies self);
         StrategyManager.enabled_strategies :=
           StrategyManager.enabled_strategies self |} in
    StrategyManager.calculate_all self' df
    = StrategyManager.calculate_all others df /\
    StrategyManager.get_strategy_list self'
    = StrategyManager.get_strategy_list self.
Proof.
  intros self name df self' others.
  split; [|reflexivity].
  unfold StrategyManager.calculate_all. f_equal.
  unfold self', others, StrategyManager.set_enabled_strategies.
  cbn [StrategyManager.self_strategies StrategyManager.enabled_strategies app].
  set (flags := StrategyManager.enabled_strategies self).
  induction (StrategyManager.self_strategies self) as [|[n s] rest IH];
    [reflexivity|].
  cbn [StrategyManager.run filter StrategyManager.enabled].
  rewrite String.eqb_sym.
  destruct (String.eqb n name) eqn:E; cbn [negb].
  - exact IH.
  - cbn [StrategyManager.run]. rewrite IH. reflexivity.
Qed.

(** ** The RSI strategy: ranges and failures *)

Lemma round_fixed (k : Z) (n : nat) : Py.round (inject_Z k) n == inject_Z k.
Proof.
  apply Qle_antisym; [apply round_le | apply round_ge]; apply Qle_refl.
Qed.

Lemma F_min_num (a b : Q) : F.min (Num a) (Num b) = Num (Py.min a b).
Proof. unfold F.min, F.ltb, Py.min. destruct (Py.ltb b a); reflexivity. Qed.

Lemma F_max_num (a b : Q) : F.max (Num a) (Num b) = Num (Py.max a b).
Proof. unfold F.max, F.ltb, Py.max. destruct (Py.ltb a b); reflexivity. Qed.

(** X9.  For a reading that is a number and thresholds no wider than the
    defaults (oversold at least 30, overbought at most 70), the RSI
    strategy answers BUY exactly when the reading is at or below the
    oversold threshold, with a confidence between 50 and 100 for BUY and
    SELL, and every NEUTRAL answer has confidence exactly 20: the distance
    from 50 never exceeds the floor of 20. *)
Theorem rsi_confidence_range :
  forall (ta_rsi : list Q -> Z -> result (list fval)) (self : RSIStrategy.t)
         (df : DataFrame) (series : list fval) (reading : Q),
    ta_rsi (map close df) (RSIStrategy.period self) = Ok series ->
    iloc_last series = Ok (Num reading) ->
    30 <= RSIStrategy.oversold self ->
    RSIStrategy.overbought self <= 70 ->
    let r := RSIStrategy.calculate ta_rsi self df in
    exists c,
      RSIStrategy.confidence r = Num c /\
      20 <= c <= 100 /\
      (RSIStrategy.signal r = BUY <-> reading <= RSIStrategy.oversold self) /\
      (RSIStrategy.signal r = NEUTRAL -> c == 20) /\
      (RSIStrategy.signal r <> NEUTRAL -> 50 <= c) /\
      RSIStrategy.error r = None.
Proof.
  intros ta_rsi self df series reading Hs Hlast Hos Hob r.
  unfold r, RSIStrategy.calculate. rewrite Hs. cbn [bind].
  rewrite Hlast. cbn [bind].
  unfold RSIStrategy.classify. cbn [F.leb F.sub F.neg F.add F.mul F.abs].
  set (os := RSIStrategy.oversold self) in *.
  set (ob := RSIStrategy.overbought self) in *.
  destruct (Qle_bool reading os) eqn:E1.
  - apply Qle_bool_iff in E1. rewrite F_min_num.
    cbn [F.round RSIStrategy.signal RSIStrategy.confidence RSIStrategy.error].
    eexists. split; [reflexivity|].
    assert (H50 : 50 <= Py.min 100 (50 + (os + - reading) * 2))
      by (apply min_glb; lra).
    pose proof (min_le_l 100 (50 + (os + - reading) * 2)) as H100.
    repeat split; intros;
      first [ congruence | assumption
            | apply (round_le _ 2 100); exact H100
            | apply (round_ge _ 2 50); exact H50
            | apply (round_ge _ 2 20); change (inject_Z 20) with 20; lra ].
  - assert (Hgt : os < reading).
    { apply Qnot_le_lt. intro H. apply Qle_bool_iff in H. congruence. }
    destruct (Qle_bool ob reading) eqn:E2.
    + apply Qle_bool_iff in E2. rewrite F_min_num.
      cbn [F.round RSIStrategy.signal RSIStrategy.confidence RSIStrategy.error].
      eexists. split; [reflexivity|].
      assert (H50 : 50 <= Py.min 100 (50 + (reading + - ob) * 2))
        by (apply min_glb; lra).
      pose proof (min_le_l 100 (50 + (reading + - ob) * 2)) as H100.
      repeat split; intros;
        first [ congruence | exfalso; lra
              | apply (round_le _ 2 100); exact H100
              | apply (round_ge _ 2 50); exact H50
              | apply (round_ge _ 2 20); change (inject_Z 20) with 20; lra ].
    + assert (Hlt : reading < ob).
      { apply Qnot_le_lt. intro H. apply Qle_bool_iff in H. congruence. }
      assert (Habs : Qabs (reading + - (50)) <= 20).
      { apply Qabs_case; intros; lra. }
      rewrite F_max_num.
      cbn [F.round RSIStrategy.signal RSIStrategy.confidence RSIStrategy.error].
      eexists. split; [reflexivity|].
      assert (Hmax : Py.max 20 (Qabs (reading + - (50))) == 20).
      { apply Qle_antisym; [apply max_lub; lra | apply max_ge_l]. }
      rewrite (round_comp _ 20 2 Hmax).
      pose proof (round_fixed 20 2) as R. change (inject_Z 20) with 20 in R.
      repeat split; intros;
        first [ congruence | exact R | exfalso; lra | rewrite R; lra ].
Qed.

Lemma rsi_confidence_range_witness :
  RSIStrategy.signal
    (RSIStrategy.calculate (fun closes _ => Ok (map (fun _ => Num 25) closes))
       (RSIStrategy.__init__ None None None) Samples.short_window) = BUY.
Proof.
  destruct (rsi_confidence_range
              (fun closes _ => Ok (map (fun _ => Num 25) closes))
              (RSIStrategy.__init__ None None None) Samples.short_window
              [Num 25; Num 25; Num 25; Num 25; Num 25] 25 eq_refl eq_refl)
    as (c & _ & _ & Hbuy & _).
  - unfold Qle. cbn. lia.
  - unfold Qle. cbn. lia.
  - apply Hbuy. unfold Qle. cbn. lia.
Defined.

(** X10.  When the indicator raises, or returns an empty series, the RSI
    strategy does not fail: it answers NEUTRAL with confidence 0, value 0
    and the error. *)
Theorem rsi_failure_modes :
  forall (ta_rsi : list Q -> Z -> result (list fval)) (self : RSIStrategy.t)
         (df : DataFrame),
    (exists e, ta_rsi (map close df) (RSIStrategy.period self) = Raise e) \/
    ta_rsi (map close df) (RSIStrategy.period self) = Ok [] ->
    let r := RSIStrategy.calculate ta_rsi self df in
    RSIStrategy.signal r = NEUTRAL /\
    RSIStrategy.confidence r = Num 0 /\
    RSIStrategy.value r = Num 0 /\
    RSIStrategy.error r <> None.
Proof.
  intros ta_rsi self df [[e H] | H] r; unfold r, RSIStrategy.calculate;
    rewrite H; cbn; repeat split; discriminate.
Qed.

Lemma rsi_failure_modes_witness :
  RSIStrategy.confidence
    (RSIStrategy.calculate (fun _ _ => Ok [])
       (RSIStrategy.__init__ None None None) []) = Num 0.
Proof.
  apply (rsi_failure_modes (fun _ _ => Ok [])
           (RSIStrategy.__init__ None None None) []).
  right. reflexivity.
Defined.

(** ** The target price calculator: stops, empty windows and reach *)

(** X11.  The stop is at the smaller of the two distances, 1.5 times the
    ATR and the risk percentage of the price, from the current price:
    below it for BUY and above it for every other signal.  With a price,
    an ATR and a risk that are not negative, the rounded BUY stop is never
    above the rounded price and the rounded stop of the other signals never
    below it. *)
Theorem stop_loss_is_the_tighter_stop :
  forall (self : TargetPriceCalculator.t) (price : Q) (signal : Signal)
         (atr risk_pct : Q),
    let stop := TargetPriceCalculator.stop_loss_of price signal atr risk_pct in
    let distance := Qmin (atr * 1.5) (price * (risk_pct / 100)) in
    (signal = BUY -> stop == price - distance) /\
    (signal <> BUY -> stop == price + distance) /\
    (0 <= price -> 0 <= atr -> 0 <= risk_pct ->
       0 <= distance /\
       (signal = BUY ->
          TargetPriceCalculator.calculate_stop_loss self price signal atr risk_pct
          <= Py.round price 2) /\
       (signal <> BUY ->
          Py.round price 2
          <= TargetPriceCalculator.calculate_stop_loss self price signal atr
               risk_pct)).
Proof.
  intros self price signal atr risk_pct stop distance.
  assert (Hr : risk_pct / 100 == risk_pct * (1 # 100)) by field.
  assert (Hbuy : signal = BUY -> stop == price - distance).
  { intros ->. unfold stop, TargetPriceCalculator.stop_loss_of, distance.
    cbn [Signal_eqb]. rewrite max_Qmax.
    destruct (Q.max_spec (price - atr * 1.5) (price * (1 - risk_pct / 100)))
      as [[H E] | [H E]]; rewrite E;
      destruct (Q.min_spec (atr * 1.5) (price * (risk_pct / 100)))
        as [[H' E'] | [H' E']]; rewrite E'; lra. }
  assert (Hother : signal <> BUY -> stop == price + distance).
  { intros Hs. unfold stop, TargetPriceCalculator.stop_loss_of, distance.
    replace (Signal_eqb signal BUY) with false
      by (destruct signal; [congruence | reflexivity | reflexivity]).
    rewrite min_Qmin.
    destruct (Q.min_spec (price + atr * 1.5) (price * (1 + risk_pct / 100)))
      as [[H E] | [H E]]; rewrite E;
      destruct (Q.min_spec (atr * 1.5) (price * (risk_pct / 100)))
        as [[H' E'] | [H' E']]; rewrite E'; lra. }
  split; [exact Hbuy|]. split; [exact Hother|].
  intros Hp Ha Hk.
  assert (Hd : 0 <= distance).
  { unfold distance. apply Q.min_glb; [lra|]. rewrite Hr. nra. }
  split; [exact Hd|].
  unfold TargetPriceCalculator.calculate_stop_loss. fold stop.
  split; intro Hs; apply round_mono.
  - rewrite (Hbuy Hs). lra.
  - rewrite (Hother Hs). lra.
Qed.

(** X12.  On an empty window [calculate_target] returns [None], whatever
    the signal, the confidence and the indicator: reading the last close
    raises and the exception is swallowed. *)
Theorem calculate_target_empty_window :
  forall (ta_atr : DataFrame -> Z -> result (list fval))
         (self : TargetPriceCalculator.t) (signal : Signal)
         (confidence min_confidence : Q),
    TargetPriceCalculator.calculate_target ta_atr self [] signal confidence
      min_confidence = None.
Proof.
  intros ta_atr self signal confidence min_confidence.
  unfold TargetPriceCalculator.calculate_target, TargetPriceCalculator.attempt.
  destruct (Py.ltb confidence min_confidence); [reflexivity|].
  destruct (Signal_eqb signal NEUTRAL); [reflexivity|].
  destruct (ta_atr [] (TargetPriceCalculator.atr_period self)) as [series|e];
    [|reflexivity].
  cbn [bind]. destruct (iloc_last series); reflexivity.
Qed.

(** ** The sentiment sources and their aggregation *)

(** X14.  Whatever TextBlob answers, the confidence of an analysed title is
    between 20 and 100 and the score is the polarity; when TextBlob raises,
    score and confidence are 0. *)
Theorem analyze_text_confidence_floor :
  forall blob : result (Q * Q),
    let item := NewsSentimentFetcher.news_item_of blob in
    (forall polarity subjectivity, blob = Ok (polarity, subjectivity) ->
       NewsSentimentFetcher.n_sentiment_score item = polarity /\
       20 <= NewsSentimentFetcher.n_confidence item <= 100 /\
       (0.2 <= subjectivity <= 1 ->
          NewsSentimentFetcher.n_confidence item == subjectivity * 100)) /\
    (forall e, blob = Raise e ->
       NewsSentimentFetcher.n_sentiment_score item = 0 /\
       NewsSentimentFetcher.n_confidence item = 0).
Proof.
  intros blob item. split.
  - intros polarity subjectivity ->. unfold item. cbn.
    pose proof (min_le_l 100 (subjectivity * 100)) as Hm.
    pose proof (min_Qmin 100 (subjectivity * 100)) as Hq.
    split; [reflexivity|].
    destruct (Py.ltb (Py.min 100 (subjectivity * 100)) 20) eqn:E;
      [apply ltb_lt in E | apply ltb_ge in E].
    + split; [lra|]. intros [H1 H2]. exfalso.
      assert (20 <= Py.min 100 (subjectivity * 100)) by (apply min_glb; lra).
      lra.
    + split; [lra|]. intros [H1 H2]. rewrite Hq. apply Q.min_r. lra.
  - intros e ->. split; reflexivity.
Qed.

(** X15.  For an index value between 0 and 100 the fear and greed reading
    has a score between -1 and 1 with the sign of [value - 50], and a
    confidence between 0 and 100 that is 100 times the size of the
    score. *)
Theorem fear_greed_reading_range :
  forall value : Z,
    (0 <= value <= 100)%Z ->
    let fg := NewsSentimentFetcher.fear_greed_of_value value in
    -1 <= NewsSentimentFetcher.fg_sentiment_score fg <= 1 /\
    0 <= NewsSentimentFetcher.fg_confidence fg <= 100 /\
    NewsSentimentFetcher.fg_confidence fg
    == 100 * Qabs (NewsSentimentFetcher.fg_sentiment_score fg) /\
    ((50 < value)%Z <-> 0 < NewsSentimentFetcher.fg_sentiment_score fg).
Proof.
  intros value [H0 H1] fg.
  assert (V0 : 0 <= inject_Z value)
    by (change 0 with (inject_Z 0); rewrite <- Zle_Qle; exact H0).
  assert (V1 : inject_Z value <= 100)
    by (change 100 with (inject_Z 100); rewrite <- Zle_Qle; exact H1).
  unfold fg, NewsSentimentFetcher.fear_greed_of_value.
  cbn [NewsSentimentFetcher.fg_sentiment_score
       NewsSentimentFetcher.fg_confidence].
  set (v := inject_Z value) in *.
  assert (Es : (v - 50) / 50 == (v - 50) * (1 # 50)) by field.
  assert (Habs : Qabs (v - 50) <= 50) by (apply Qabs_case; intros; lra).
  assert (Hnn : 0 <= Qabs (v - 50)) by apply Qabs_nonneg.
  assert (Em : Py.min 100 (Qabs (v - 50) * 2) == Qabs (v - 50) * 2).
  { rewrite min_Qmin. apply Q.min_r. lra. }
  assert (Ea : Qabs ((v - 50) / 50) == Qabs (v - 50) * (1 # 50)).
  { rewrite Es, Qabs_Qmult. reflexivity. }
  repeat split.
  - rewrite Es. lra.
  - rewrite Es. lra.
  - rewrite Em. lra.
  - rewrite Em. lra.
  - rewrite Em, Ea. ring.
  - intro H. rewrite Es.
    assert (50 < v) by (change 50 with (inject_Z 50); unfold v;
                        rewrite <- Zlt_Qlt; exact H).
    lra.
  - intro H. rewrite Es in H.
    assert (Hv : 50 < v) by lra.
    change 50 with (inject_Z 50) in Hv. unfold v in Hv.
    rewrite <- Zlt_Qlt in Hv. exact Hv.
Qed.

Lemma fear_greed_reading_range_witness :
  0 <= NewsSentimentFetcher.fg_confidence
         (NewsSentimentFetcher.fear_greed_of_value 20) <= 100.
Proof.
  apply (fear_greed_reading_range 20). lia.
Defined.

Lemma collect_shape (fg_index : option NewsSentimentFetcher.FearGreed)
  (news : list NewsSentimentFetcher.NewsItem) :
  let scores :=
    filter (fun s => negb (Qeq_bool s 0))
      (map NewsSentimentFetcher.n_sentiment_score news) in
  NewsSentimentFetcher.collect fg_index news
  = match fg_index with
    | Some fg =>
        [ {| NewsSentimentFetcher.score :=
               NewsSentimentFetcher.fg_sentiment_score fg;
             NewsSentimentFetcher.confidence :=
               NewsSentimentFetcher.fg_confidence fg * 0.3;
             NewsSentimentFetcher.source := "fear_greed" |} ]
    | None => []
    end
    ++ match scores with
       | [] => []
       | _ =>
           [ {| NewsSentimentFetcher.score := Py.sum scores / Py.len scores;
                NewsSentimentFetcher.confidence :=
                  Py.sum (map NewsSentimentFetcher.n_confidence news)
                  / Py.len news * 0.7;
                NewsSentimentFetcher.source := "cryptopanic" |} ]
       end.
Proof.
  intro scores. unfold NewsSentimentFetcher.collect.
  destruct news as [|x xs].
  - cbn. rewrite app_nil_r. reflexivity.
  - fold scores. destruct scores; [rewrite app_nil_r|]; reflexivity.
Qed.

(** The weighted score of sources whose scores are between -1 and 1, and
    the average of their weighted confidences. *)
Lemma weighted_score_bounds (hi : Q) (sentiments : list NewsSentimentFetcher.Sentiment) :
  Forall (fun s => -1 <= NewsSentimentFetcher.score s <= 1 /\
                   0 <= NewsSentimentFetcher.confidence s <= hi) sentiments ->
  let total := Py.sum (map NewsSentimentFetcher.confidence sentiments) in
  let weighted :=
    Py.sum (map (fun s => NewsSentimentFetcher.score s
                          * NewsSentimentFetcher.confidence s) sentiments) in
  - total <= weighted <= total /\
  0 <= total <= hi * Py.len sentiments.
Proof.
  induction 1 as [|s l [[S0 S1] [C0 C1]] _ IH].
  - cbn. unfold Py.sum, Py.len. cbn [fold_left List.length Z.of_nat].
    change (inject_Z 0) with 0. repeat split; lra.
  - cbn zeta in *. cbn [map]. rewrite !sum_cons, len_cons.
    destruct IH as [[I0 I1] [T0 T1]].
    repeat split; nra.
Qed.

Lemma mean_in_range (lo hi : Q) (l : list Q) :
  l <> [] -> Forall (fun y => lo <= y <= hi) l ->
  lo <= Py.sum l / Py.len l <= hi.
Proof.
  intros Hne H. destruct l as [|x l]; [congruence|].
  apply average_bounds. exact H.
Qed.

(** X16.  When every score lies between -1 and 1 and every confidence
    between 0 and 100, the aggregated sentiment score lies between -1 and
    1 and the aggregated confidence between 0 and 70: the aggregator never
    reports more than the weight of the news, and with the index as the
    only source never more than 30. *)
Theorem aggregated_sentiment_bounds :
  forall (fg_index : option NewsSentimentFetcher.FearGreed)
         (news : list NewsSentimentFetcher.NewsItem),
    (forall fg, fg_index = Some fg ->
       -1 <= NewsSentimentFetcher.fg_sentiment_score fg <= 1 /\
       0 <= NewsSentimentFetcher.fg_confidence fg <= 100) ->
    Forall (fun n => -1 <= NewsSentimentFetcher.n_sentiment_score n <= 1 /\
                     0 <= NewsSentimentFetcher.n_confidence n <= 100) news ->
    let r := NewsSentimentFetcher.get_aggregated_sentiment fg_index news in
    -1 <= NewsSentimentFetcher.sentiment_score r <= 1 /\
    0 <= NewsSentimentFetcher.a_confidence r <= 70 /\
    (news = [] -> NewsSentimentFetcher.a_confidence r <= 30).
Proof.
  intros fg_index news Hfg Hnews r.
  set (scores := filter (fun s => negb (Qeq_bool s 0))
                   (map NewsSentimentFetcher.n_sentiment_score news)).
  assert (Hscores : Forall (fun y => -1 <= y <= 1) scores).
  { unfold scores. apply Forall_forall. intros y Hy.
    apply filter_In in Hy. destruct Hy as [Hy _].
    apply in_map_iff in Hy. destruct Hy as (n & <- & Hn).
    rewrite Forall_forall in Hnews. apply (Hnews n Hn). }
  assert (Hconfs : Forall (fun y => 0 <= y <= 100)
                     (map NewsSentimentFetcher.n_confidence news)).
  { apply Forall_map. eapply Forall_impl; [|exact Hnews].
    cbn. intros n [_ H]. exact H. }
  assert (Hall : forall hi,
            (news = [] -> 30 <= hi) -> (news <> [] -> 70 <= hi) ->
            Forall (fun s => -1 <= NewsSentimentFetcher.score s <= 1 /\
                             0 <= NewsSentimentFetcher.confidence s <= hi)
              (NewsSentimentFetcher.collect fg_index news)).
  { intros hi Hhi0 Hhi1. rewrite collect_shape. fold scores.
    apply Forall_app. split.
    - destruct fg_index as [fg|]; [|constructor].
      destruct (Hfg fg eq_refl) as [[S0 S1] [C0 C1]].
      constructor; [|constructor].
      cbn [NewsSentimentFetcher.score NewsSentimentFetcher.confidence].
      assert (Hhi : 30 <= hi).
      { destruct news; [apply Hhi0; reflexivity|].
        assert (70 <= hi) by (apply Hhi1; discriminate). lra. }
      repeat split; lra.
    - destruct scores as [|y ys] eqn:Es; [constructor|].
      assert (Hn : news <> []).
      { intro E. subst news. discriminate. }
      constructor; [|constructor].
      cbn [NewsSentimentFetcher.score NewsSentimentFetcher.confidence].
      assert (Hmean : -1 <= Py.sum (y :: ys) / Py.len (y :: ys) <= 1)
        by (apply mean_in_range; [discriminate | exact Hscores]).
      assert (Hc : 0 <= Py.sum (map NewsSentimentFetcher.n_confidence news)
                        / Py.len news <= 100).
      { assert (E : Py.len news
                    = Py.len (map NewsSentimentFetcher.n_confidence news))
          by (unfold Py.len; rewrite length_map; reflexivity).
        rewrite E. apply mean_in_range; [|exact Hconfs].
        destruct news; [congruence | discriminate]. }
      specialize (Hhi1 Hn). repeat split; lra. }
  assert (Hmain : forall hi, 0 <= hi -> (exists k, hi = inject_Z k) ->
            (news = [] -> 30 <= hi) -> (news <> [] -> 70 <= hi) ->
            -1 <= NewsSentimentFetcher.sentiment_score r <= 1 /\
            0 <= NewsSentimentFetcher.a_confidence r <= hi).
  { intros hi Hhi [k Hk] Hhi0 Hhi1.
    specialize (Hall hi Hhi0 Hhi1).
    unfold r, NewsSentimentFetcher.get_aggregated_sentiment.
    destruct (NewsSentimentFetcher.collect fg_index news) as [|s0 rest] eqn:Ec.
    - cbn. repeat split; lra.
    - destruct (weighted_score_bounds hi (s0 :: rest) Hall)
        as [[W0 W1] [T0 T1]].
      set (total := Py.sum (map NewsSentimentFetcher.confidence (s0 :: rest))) in *.
      destruct (Py.ltb 0 total) eqn:Et; [|cbn; repeat split; lra].
      apply ltb_lt in Et.
      cbn [NewsSentimentFetcher.sentiment_score NewsSentimentFetcher.a_confidence].
      pose proof (len_pos s0 rest) as Hlen.
      repeat split.
      + apply Qle_shift_div_l; [exact Et | lra].
      + apply Qle_shift_div_r; [exact Et | lra].
      + apply (round_ge _ 2 0). change (inject_Z 0) with 0.
        apply Qle_shift_div_l; [exact Hlen | lra].
      + rewrite Hk. apply round_le. rewrite <- Hk.
        apply Qle_shift_div_r; [exact Hlen | lra]. }
  destruct (Hmain 70) as [Hs [C0 C1]].
  { lra. } { exists 70%Z. reflexivity. } { intros _. lra. } { intros _. lra. }
  split; [exact Hs|]. split; [split; assumption|].
  intro Hn.
  destruct (Hmain 30) as [_ [_ C30]].
  { lra. } { exists 30%Z. reflexivity. } { intros _. lra. }
  { intro H. congruence. }
  exact C30.
Qed.

Lemma aggregated_sentiment_bounds_witness :
  NewsSentimentFetcher.a_confidence
    (NewsSentimentFetcher.get_aggregated_sentiment
       (Some Samples.extreme_greed) [Samples.headline]) <= 70.
Proof.
  assert (Hq : forall p q : Q, (Qnum p * QDen q <= Qnum q * QDen p)%Z -> p <= q)
    by (intros p q H; exact H).
  apply (aggregated_sentiment_bounds (Some Samples.extreme_greed)
           [Samples.headline]).
  - intros fg H. injection H as <-. repeat split; apply Hq; vm_compute;
      discriminate.
  - repeat constructor; apply Hq; vm_compute; discriminate.
Defined.

Lemma zero_scores_filtered (news : list NewsSentimentFetcher.NewsItem) :
  Forall (fun n => NewsSentimentFetcher.n_sentiment_score n == 0) news ->
  filter (fun s => negb (Qeq_bool s 0))
    (map NewsSentimentFetcher.n_sentiment_score news) = [].
Proof.
  induction 1 as [|n l Hn _ IH]; [reflexivity|].
  cbn [map filter]. apply Qeq_bool_iff in Hn. rewrite Hn. exact IH.
Qed.

(** X17.  News whose scores are all zero is no source at all: whatever the
    confidences of its items, the result is the one obtained with no
    news. *)
Theorem neutral_news_is_ignored :
  forall (fg_index : option NewsSentimentFetcher.FearGreed)
         (news : list NewsSentimentFetcher.NewsItem),
    Forall (fun n => NewsSentimentFetcher.n_sentiment_score n == 0) news ->
    NewsSentimentFetcher.get_aggregated_sentiment fg_index news
    = NewsSentimentFetcher.get_aggregated_sentiment fg_index [].
Proof.
  intros fg_index news H.
  unfold NewsSentimentFetcher.get_aggregated_sentiment.
  rewrite (collect_shape fg_index news), (collect_shape fg_index []).
  rewrite (zero_scores_filtered news H). reflexivity.
Qed.

Lemma neutral_news_is_ignored_witness :
  NewsSentimentFetcher.get_aggregated_sentiment (Some Samples.extreme_greed)
    [ {| NewsSentimentFetcher.n_sentiment_score := 0;
         NewsSentimentFetcher.n_confidence := 90 |} ]
  = NewsSentimentFetcher.get_aggregated_sentiment (Some Samples.extreme_greed) [].
Proof.
  apply (neutral_news_is_ignored (Some Samples.extreme_greed)).
  repeat constructor.
Defined.

(** ** The serialization cleaner: what comes out *)

(** One pass, and so two, give a structure of JSON values. *)
Lemma clean_is_json_native_aux (obj : PredictionEngine.pyval) :
  PredictionEngine.json_native
    (PredictionEngine._clean_for_serialization obj) = true /\
  PredictionEngine.json_native
    (PredictionEngine._clean_for_serialization
       (PredictionEngine._clean_for_serialization obj)) = true.
Proof.
  assert (H : forall v : PredictionEngine.pyval,
            PredictionEngine.json_native
              (PredictionEngine._clean_for_serialization v) = true).
  { fix IH 1. intro v.
    destruct v as [ | b | z | f | s | items | l | l | l | items | records
                  | f | z | b | iso ]; try reflexivity.
    - cbn. destruct (F.non_finite f); reflexivity.
    - cbn. induction items as [|[k x] items IHl]; [reflexivity|].
      cbn. rewrite (IH x), IHl. reflexivity.
    - cbn. induction l as [|x l IHl]; [reflexivity|].
      cbn. rewrite (IH x), IHl. reflexivity.
    - cbn. induction l as [|x l IHl]; [reflexivity|].
      cbn. rewrite (IH x), IHl. reflexivity.
    - cbn. induction l as [|x l IHl]; [reflexivity|].
      cbn. rewrite (IH x), IHl. reflexivity.
    - cbn. induction items as [|[k x] items IHl]; [reflexivity|].
      cbn. rewrite (IH x), IHl. reflexivity.
    - cbn. induction records as [|row records IHr]; [reflexivity|].
      cbn. rewrite IHr, andb_true_r.
      induction row as [|[k x] row IHl]; [reflexivity|].
      cbn. rewrite (IH x), IHl. reflexivity. }
  split; apply H.
Qed.

(** A structure of JSON values holds no numpy float. *)
Lemma json_native_holds_no_numpy :
  forall obj : PredictionEngine.pyval,
    PredictionEngine.json_native obj = true ->
    PredictionEngine.holds_non_finite_numpy obj = false.
Proof.
  fix IH 1. intro obj.
  destruct obj as [ | b | z | f | s | items | l | l | l | items | records
                  | f | z | b | iso ]; try reflexivity; try discriminate.
  - cbn. induction items as [|[k v] items IHl]; [reflexivity|].
    cbn. intro H. apply andb_true_iff in H. destruct H as [H1 H2].
    rewrite (IH v H1), (IHl H2). reflexivity.
  - cbn. induction l as [|v l IHl]; [reflexivity|].
    cbn. intro H. apply andb_true_iff in H. destruct H as [H1 H2].
    rewrite (IH v H1), (IHl H2). reflexivity.
Qed.

(** A structure of JSON values without NaN or infinity is left as it is. *)
Lemma clean_fixes_finite_json :
  forall obj : PredictionEngine.pyval,
    PredictionEngine.json_native obj = true ->
    PredictionEngine.emits_non_finite obj = false ->
    PredictionEngine._clean_for_serialization obj = obj.
Proof.
  fix IH 1. intro obj.
  destruct obj as [ | b | z | f | s | items | l | l | l | items | records
                  | f | z | b | iso ]; try reflexivity; try discriminate.
  - cbn. intros _ H. rewrite H. reflexivity.
  - cbn. intros Hj He. f_equal.
    induction items as [|[k v] items IHl]; [reflexivity|].
    cbn in Hj, He. apply andb_true_iff in Hj. destruct Hj as [J1 J2].
    apply orb_false_iff in He. destruct He as [E1 E2].
    cbn. rewrite (IH v J1 E1), (IHl J2 E2). reflexivity.
  - cbn. intros Hj He. f_equal.
    induction l as [|v l IHl]; [reflexivity|].
    cbn in Hj, He. apply andb_true_iff in Hj. destruct Hj as [J1 J2].
    apply orb_false_iff in He. destruct He as [E1 E2].
    cbn. rewrite (IH v J1 E1), (IHl J2 E2). reflexivity.
Qed.

(** X19.  The cleaner is not idempotent, but a second pass finishes the
    work: after two passes no NaN and no infinity is left, and every
    further pass changes nothing.  The web socket path cleans a prediction
    twice. *)
Theorem clean_twice_is_clean :
  forall obj : PredictionEngine.pyval,
    let once := PredictionEngine._clean_for_serialization obj in
    let twice := PredictionEngine._clean_for_serialization once in
    PredictionEngine.emits_non_finite twice = false /\
    PredictionEngine._clean_for_serialization twice = twice /\
    (PredictionEngine.holds_non_finite_numpy obj = true -> twice <> once).
Proof.
  intros obj once twice.
  destruct (clean_is_json_native_aux obj) as [J1 J2].
  assert (E : PredictionEngine.emits_non_finite twice = false).
  { unfold twice. rewrite clean_emits_what_numpy_holds.
    apply json_native_holds_no_numpy. exact J1. }
  split; [exact E|]. split.
  - apply clean_fixes_finite_json; [exact J2 | exact E].
  - intros H Heq.
    rewrite <- (clean_emits_what_numpy_holds obj) in H. fold once in H.
    rewrite <- Heq in H. congruence.
Qed.

(** ** From the layers to the final entry of a prediction *)

(** What [calculate_target] returns when one of its two gates closes. *)
Lemma calculate_target_gated
  (ta_atr : DataFrame -> Z -> result (list fval))
  (self : TargetPriceCalculator.t) (df : DataFrame) (signal : Signal)
  (confidence min_confidence : Q) :
  Py.ltb confidence min_confidence = true \/ signal = NEUTRAL ->
  match TargetPriceCalculator.calculate_target ta_atr self df signal confidence
          min_confidence with
  | Some t => TargetPriceCalculator.target_price t = None /\
              TargetPriceCalculator.target_type t = None
  | None => True
  end.
Proof.
  intro H.
  unfold TargetPriceCalculator.calculate_target, TargetPriceCalculator.attempt.
  destruct (Py.ltb confidence min_confidence) eqn:E.
  - destruct (iloc_last (map close df)); cbn; auto.
  - destruct H as [H | H]; [discriminate|]. subst signal. cbn [Signal_eqb].
    destruct (iloc_last (map close df)); cbn; auto.
Qed.

(** X20.  In the entry 'final' of every prediction, a target price or a
    target type is present only when the confidence meets the threshold
    and the signal is not NEUTRAL; without market data the entry is NEUTRAL
    at confidence 0 with no target; and a missing news result counts as
    NEUTRAL at confidence 0. *)
Theorem predict_final_is_consistent :
  forall (ta_atr : DataFrame -> Z -> result (list fval))
         (combiner : ProbabilityCombiner.t)
         (calculator : TargetPriceCalculator.t) (df : option DataFrame)
         (strategy_result ml_result : ProbabilityCombiner.LayerResult)
         (news_result : option ProbabilityCombiner.LayerResult)
         (min_confidence : Q),
    let final := PredictionEngine.predict_final ta_atr combiner calculator df
                   strategy_result ml_result news_result min_confidence in
    (PredictionEngine.f_target_price final <> None \/
     PredictionEngine.f_target_type final <> None ->
       PredictionEngine.meets_threshold final = true /\
       min_confidence <= PredictionEngine.f_confidence final /\
       PredictionEngine.f_signal final <> NEUTRAL) /\
    (df = None -> final = PredictionEngine.empty_final) /\
    PredictionEngine.predict_final ta_atr combiner calculator df
      strategy_result ml_result None min_confidence
    = PredictionEngine.predict_final ta_atr combiner calculator df
        strategy_result ml_result
        (Some (ProbabilityCombiner.layer NEUTRAL 0)) min_confidence.
Proof.
  intros ta_atr combiner calculator df strategy_result ml_result news_result
    min_confidence final.
  split; [|split; [intros ->; reflexivity | reflexivity]].
  unfold final, PredictionEngine.predict_final.
  destruct df as [df|]; [|cbn; intros [H | H]; congruence].
  destruct (iloc_last (map close df)) as [price|e];
    [|cbn; intros [H | H]; congruence].
  unfold PredictionEngine.final_of.
  set (combined := ProbabilityCombiner.combine combiner strategy_result
                     ml_result _).
  set (sig := ProbabilityCombiner.final_signal combined).
  set (conf := ProbabilityCombiner.final_confidence combined).
  cbn [PredictionEngine.f_target_price PredictionEngine.f_target_type
       PredictionEngine.meets_threshold PredictionEngine.f_confidence
       PredictionEngine.f_signal].
  pose proof (calculate_target_gated ta_atr calculator df sig conf
                min_confidence) as Hg.
  destruct (TargetPriceCalculator.calculate_target ta_atr calculator df sig
              conf min_confidence) as [t|]; [|intros [H | H]; congruence].
  intro Hpresent.
  assert (Hopen : Py.ltb conf min_confidence = false /\ sig <> NEUTRAL).
  { destruct (Py.ltb conf min_confidence) eqn:E.
    - destruct (Hg (or_introl eq_refl)) as [H1 H2].
      destruct Hpresent as [H | H]; congruence.
    - split; [reflexivity|]. intro Hs.
      destruct (Hg (or_intror Hs)) as [H1 H2].
      destruct Hpresent as [H | H]; congruence. }
  destruct Hopen as [Hc Hs]. apply ltb_ge in Hc.
  split; [apply Qle_bool_iff; exact Hc|]. split; assumption.
Qed.

(** ** The support and resistance strategy *)

(** Every value the pivot loop keeps sits in the column with two values
    before it and two after it, and beats the four. *)
Lemma pivots_sound (beats : Q -> Q -> bool) (column : list Q) (p : Q) :
  In p (SupportResistanceStrategy.pivots beats column) ->
  exists pre a b d e post,
    column = pre ++ a :: b :: p :: d :: e :: post /\
    beats p a = true /\ beats p b = true /\
    beats p d = true /\ beats p e = true.
Proof.
  induction column as [|a rest IH]; [intros []|].
  cbn [SupportResistanceStrategy.pivots].
  destruct rest as [|b [|c [|d [|e post]]]]; try (intros []).
  destruct (beats c b && beats c a && beats c d && beats c e) eqn:E.
  - intros [<- | Hin].
    + apply andb_true_iff in E. destruct E as [E He].
      apply andb_true_iff in E. destruct E as [E Hd].
      apply andb_true_iff in E. destruct E as [Hb Ha].
      exists [], a, b, d, e, post. repeat split; assumption.
    + destruct (IH Hin) as (pre & a' & b' & d' & e' & post' & Hc & H).
      exists (a :: pre), a', b', d', e', post'. split; [|exact H].
      cbn. rewrite Hc. reflexivity.
  - intro Hin.
    destruct (IH Hin) as (pre & a' & b' & d' & e' & post' & Hc & H).
    exists (a :: pre), a', b', d', e', post'. split; [|exact H].
    cbn. rewrite Hc. reflexivity.
Qed.

Lemma pivots_length (beats : Q -> Q -> bool) (column : list Q) :
  (List.length (SupportResistanceStrategy.pivots beats column)
   <= List.length column - 4)%nat.
Proof.
  induction column as [|a rest IH]; [cbn; lia|].
  cbn [SupportResistanceStrategy.pivots].
  destruct rest as [|b [|c [|d [|e post]]]]; try (cbn; lia).
  destruct (beats c b && beats c a && beats c d && beats c e);
    cbn [List.length] in *; lia.
Qed.

(** X21.  Every pivot high [_find_pivots] returns is the high of a candle
    that has two candles before it and two after it in the window and is
    strictly above the highs of the four; every pivot low is strictly
    below the lows of its four neighbours.  A window of [n] candles has at
    most [n - 4] pivots of each kind, so none when it has fewer than
    five. *)
Theorem find_pivots_are_local_extremes :
  forall df : DataFrame,
    let lows := fst (SupportResistanceStrategy._find_pivots df) in
    let highs := snd (SupportResistanceStrategy._find_pivots df) in
    (forall p, In p highs ->
       exists pre a b d e post,
         map high df = pre ++ a :: b :: p :: d :: e :: post /\
         a < p /\ b < p /\ d < p /\ e < p) /\
    (forall p, In p lows ->
       exists pre a b d e post,
         map low df = pre ++ a :: b :: p :: d :: e :: post /\
         p < a /\ p < b /\ p < d /\ p < e) /\
    (List.length highs <= List.length df - 4)%nat /\
    (List.length lows <= List.length df - 4)%nat.
Proof.
  intros df lows highs.
  unfold lows, highs, SupportResistanceStrategy._find_pivots. cbn [fst snd].
  repeat split.
  - intros p Hp. apply pivots_sound in Hp.
    destruct Hp as (pre & a & b & d & e & post & Hc & Ha & Hb & Hd & He).
    exists pre, a, b, d, e, post.
    repeat split; try exact Hc; apply ltb_lt; assumption.
  - intros p Hp. apply pivots_sound in Hp.
    destruct Hp as (pre & a & b & d & e & post & Hc & Ha & Hb & Hd & He).
    exists pre, a, b, d, e, post.
    repeat split; try exact Hc; apply ltb_lt; assumption.
  - rewrite <- (length_map high df). apply pivots_length.
  - rewrite <- (length_map low df). apply pivots_length.
Qed.








Lemma nearest_below_fold (price : Q) (levels : list Q) :
  forall acc : option Q,
    let r := fold_left
               (fun nearest level =>
                  if Py.ltb level price then
                    match nearest with
                    | None => Some level
                    | Some n => if Py.ltb n level then Some level else nearest
                    end
                  else nearest) levels acc in
    (forall s, r = Some s -> acc = Some s \/ (In s levels /\ s < price)) /\
    (forall l, In l levels -> l < price -> exists s, r = Some s /\ l <= s) /\
    (forall n, acc = Some n -> exists s, r = Some s /\ n <= s).
Proof.
  induction levels as [|level rest IH]; intro acc; cbn [fold_left].
  - repeat split.
    + intros s H. left. exact H.
    + intros l [].
    + intros n H. exists n. split; [exact H | lra].
  - set (acc' := if Py.ltb level price
                 then match acc with
                      | None => Some level
                      | Some n => if Py.ltb n level then Some level else acc
                      end
                 else acc).
    destruct (IH acc') as (P1 & P2 & P3).
    assert (Hacc' : forall s, acc' = Some s ->
              acc = Some s \/ (s = level /\ level < price)).
    { intros s. unfold acc'.
      destruct (Py.ltb level price) eqn:E; [|auto].
      apply ltb_lt in E.
      destruct acc as [n|].
      - destruct (Py.ltb n level); [|auto].
        intro H. injection H as <-. right. split; [reflexivity | exact E].
      - intro H. injection H as <-. right. split; [reflexivity | exact E]. }
    assert (Hkeep : forall n, acc = Some n -> exists m, acc' = Some m /\ n <= m).
    { intros n ->. unfold acc'.
      destruct (Py.ltb level price); [|exists n; split; [reflexivity | lra]].
      destruct (Py.ltb n level) eqn:E.
      - apply ltb_lt in E. exists level. split; [reflexivity | lra].
      - exists n. split; [reflexivity | lra]. }
    assert (Hnew : level < price -> exists m, acc' = Some m /\ level <= m).
    { intro Hlt. apply ltb_lt in Hlt. unfold acc'. rewrite Hlt.
      destruct acc as [n|].
      - destruct (Py.ltb n level) eqn:E.
        + exists level. split; [reflexivity | lra].
        + apply ltb_ge in E. exists n. split; [reflexivity | exact E].
      - exists level. split; [reflexivity | lra]. }
    repeat split.
    + intros s Hs. destruct (P1 s Hs) as [H | [H1 H2]].
      * destruct (Hacc' s H) as [H' | [-> H']]; [left; exact H'|].
        right. split; [left; reflexivity | exact H'].
      * right. split; [right; exact H1 | exact H2].
    + intros l [<- | Hin] Hlt.
      * destruct (Hnew Hlt) as (m & Hm & Hle).
        destruct (P3 m Hm) as (s & Hs & Hms). exists s. split; [exact Hs | lra].
      * apply (P2 l Hin Hlt).
    + intros n Hn. destruct (Hkeep n Hn) as (m & Hm & Hle).
      destruct (P3 m Hm) as (s & Hs & Hms). exists s. split; [exact Hs | lra].
Qed.

Lemma nearest_above_fold (price : Q) (levels : list Q) :
  forall acc : option Q,
    let r := fold_left
               (fun nearest level =>
                  if Py.ltb price level then
                    match nearest with
                    | None => Some level
                    | Some n => if Py.ltb level n then Some level else nearest
                    end
                  else nearest) levels acc in
    (forall s, r = Some s -> acc = Some s \/ (In s levels /\ price < s)) /\
    (forall l, In l levels -> price < l -> exists s, r = Some s /\ s <= l) /\
    (forall n, acc = Some n -> exists s, r = Some s /\ s <= n).
Proof.
  induction levels as [|level rest IH]; intro acc; cbn [fold_left].
  - repeat split.
    + intros s H. left. exact H.
    + intros l [].
    + intros n H. exists n. split; [exact H | lra].
  - set (acc' := if Py.ltb price level
                 then match acc with
                      | None => Some level
                      | Some n => if Py.ltb level n then Some level else acc
                      end
                 else acc).
    destruct (IH acc') as (P1 & P2 & P3).
    assert (Hacc' : forall s, acc' = Some s ->
              acc = Some s \/ (s = level /\ price < level)).
    { intros s. unfold acc'.
      destruct (Py.ltb price level) eqn:E; [|auto].
      apply ltb_lt in E.
      destruct acc as [n|].
      - destruct (Py.ltb level n); [|auto].
        intro H. injection H as <-. right. split; [reflexivity | exact E].
      - intro H. injection H as <-. right. split; [reflexivity | exact E]. }
    assert (Hkeep : forall n, acc = Some n -> exists m, acc' = Some m /\ m <= n).
    { intros n ->. unfold acc'.
      destruct (Py.ltb price level); [|exists n; split; [reflexivity | lra]].
      destruct (Py.ltb level n) eqn:E.
      - apply ltb_lt in E. exists level. split; [reflexivity | lra].
      - exists n. split; [reflexivity | lra]. }
    assert (Hnew : price < level -> exists m, acc' = Some m /\ m <= level).
    { intro Hlt. apply ltb_lt in Hlt. unfold acc'. rewrite Hlt.
      destruct acc as [n|].
      - destruct (Py.ltb level n) eqn:E.
        + exists level. split; [reflexivity | lra].
        + apply ltb_ge in E. exists n. split; [reflexivity | exact E].
      - exists level. split; [reflexivity | lra]. }
    repeat split.
    + intros s Hs. destruct (P1 s Hs) as [H | [H1 H2]].
      * destruct (Hacc' s H) as [H' | [-> H']]; [left; exact H'|].
        right. split; [left; reflexivity | exact H'].
      * right. split; [right; exact H1 | exact H2].
    + intros l [<- | Hin] Hlt.
      * destruct (Hnew Hlt) as (m & Hm & Hle).
        destruct (P3 m Hm) as (s & Hs & Hms). exists s. split; [exact Hs | lra].
      * apply (P2 l Hin Hlt).
    + intros n Hn. destruct (Hkeep n Hn) as (m & Hm & Hle).
      destruct (P3 m Hm) as (s & Hs & Hms). exists s. split; [exact Hs | lra].
Qed.

(** X23.  The nearest support is a level strictly below the price that no
    other level below the price exceeds, and there is none exactly when no
    level is below the price; the nearest resistance is the same on the
    other side. *)
Theorem nearest_levels_are_nearest :
  forall (price : Q) (levels : list Q),
    (forall s, SupportResistanceStrategy.nearest_below price levels = Some s ->
       In s levels /\ s < price /\
       forall l, In l levels -> l < price -> l <= s) /\
    (SupportResistanceStrategy.nearest_below price levels = None <->
       forall l, In l levels -> price <= l) /\
    (forall r, SupportResistanceStrategy.nearest_above price levels = Some r ->
       In r levels /\ price < r /\
       forall l, In l levels -> price < l -> r <= l) /\
    (SupportResistanceStrategy.nearest_above price levels = None <->
       forall l, In l levels -> l <= price).
Proof.
  intros price levels.
  destruct (nearest_below_fold price levels None) as (B1 & B2 & _).
  destruct (nearest_above_fold price levels None) as (A1 & A2 & _).
  fold (SupportResistanceStrategy.nearest_below price levels) in B1, B2.
  fold (SupportResistanceStrategy.nearest_above price levels) in A1, A2.
  repeat split.
  - destruct (B1 s H) as [E | [Hin _]]; [discriminate | exact Hin].
  - destruct (B1 s H) as [E | [_ Hlt]]; [discriminate | exact Hlt].
  - intros l Hin Hlt. destruct (B2 l Hin Hlt) as (s' & Hs' & Hle).
    rewrite H in Hs'. injection Hs' as <-. exact Hle.
  - intros Hnone l Hin. apply Qnot_lt_le. intro Hlt.
    destruct (B2 l Hin Hlt) as (s & Hs & _). congruence.
  - intro Hall.
    destruct (SupportResistanceStrategy.nearest_below price levels) as [s|] eqn:E;
      [|reflexivity].
    destruct (B1 s eq_refl) as [E' | [Hin Hlt]]; [discriminate|].
    specialize (Hall s Hin). lra.
  - destruct (A1 r H) as [E | [Hin _]]; [discriminate | exact Hin].
  - destruct (A1 r H) as [E | [_ Hlt]]; [discriminate | exact Hlt].
  - intros l Hin Hlt. destruct (A2 l Hin Hlt) as (s' & Hs' & Hle).
    rewrite H in Hs'. injection Hs' as <-. exact Hle.
  - intros Hnone l Hin. apply Qnot_lt_le. intro Hlt.
    destruct (A2 l Hin Hlt) as (s & Hs & _). congruence.
  - intro Hall.
    destruct (SupportResistanceStrategy.nearest_above price levels) as [s|] eqn:E;
      [|reflexivity].
    destruct (A1 s eq_refl) as [E' | [Hin Hlt]]; [discriminate|].
    specialize (Hall s Hin). lra.
Qed.

(** ** The crossover strategies: confidence for every reading *)

(** [min(100, base + abs(x) * k)] is a number between [base] and 100 for
    every [x], a number or not. *)
Lemma boost_range (base k : Q) (x : fval) :
  0 < k -> base <= 100 ->
  exists c,
    F.min (Num 100) (F.add (Num base) (F.mul (F.abs x) (Num k))) = Num c /\
    base <= c <= 100.
Proof.
  intros Hk Hb.
  assert (Ek : Qeq_bool k 0 = false).
  { destruct (Qeq_bool k 0) eqn:E; [|reflexivity].
    apply Qeq_bool_iff in E. lra. }
  destruct x as [a| |p]; cbn [F.abs F.mul F.add].
  - rewrite F_min_num. eexists. split; [reflexivity|].
    pose proof (Qabs_nonneg a).
    split; [apply min_glb; [exact Hb | nra] | apply min_le_l].
  - exists 100. split; [reflexivity | lra].
  - rewrite Ek. cbn [F.add].
    replace (Py.ltb 0 k) with true by (symmetry; apply ltb_lt; exact Hk).
    exists 100. split; [reflexivity | lra].
Qed.

(** [max(floor, top - abs(x) * k)] is a number between [floor] and [top]
    for every [x], a number or not. *)
Lemma decay_range (floor top k : Q) (x : fval) :
  0 < k -> floor <= top ->
  exists c,
    F.max (Num floor) (F.sub (Num top) (F.mul (F.abs x) (Num k))) = Num c /\
    floor <= c <= top.
Proof.
  intros Hk Hb.
  assert (Ek : Qeq_bool k 0 = false).
  { destruct (Qeq_bool k 0) eqn:E; [|reflexivity].
    apply Qeq_bool_iff in E. lra. }
  destruct x as [a| |p]; cbn [F.abs F.mul F.sub F.neg F.add].
  - rewrite F_max_num. eexists. split; [reflexivity|].
    pose proof (Qabs_nonneg a).
    split; [apply max_ge_l | apply max_lub; [exact Hb | nra]].
  - exists floor. split; [reflexivity | lra].
  - rewrite Ek. cbn [F.neg F.add].
    replace (Py.ltb 0 k) with true by (symmetry; apply ltb_lt; exact Hk).
    exists floor. split; [reflexivity | lra].
Qed.

Lemma ema_classify_range (cf cs pf ps : fval) :
  exists c,
    snd (EMACrossoverStrategy.classify cf cs pf ps) = Num c /\
    20 <= c <= 100 /\
    (fst (EMACrossoverStrategy.classify cf cs pf ps) = NEUTRAL -> c <= 40) /\
    (fst (EMACrossoverStrategy.classify cf cs pf ps) <> NEUTRAL -> 50 <= c) /\
    (fst (EMACrossoverStrategy.classify cf cs pf ps) = BUY ->
       F.ltb cs cf = true) /\
    (fst (EMACrossoverStrategy.classify cf cs pf ps) = SELL ->
       F.ltb cf cs = true).
Proof.
  unfold EMACrossoverStrategy.classify,
    EMACrossoverStrategy.golden_cross_of, EMACrossoverStrategy.death_cross_of.
  set (d := EMACrossoverStrategy.diff_percent_of cf cs).
  destruct (boost_range 50 10 d) as (cb & Eb & B0 & B1); [lra | lra |].
  destruct (decay_range 20 40 5 d) as (cn & En & N0 & N1); [lra | lra |].
  destruct (F.ltb cs cf) eqn:Eup; destruct (F.ltb cf cs) eqn:Edown;
    rewrite ?andb_true_r, ?andb_false_r, ?andb_true_l, ?andb_false_l,
      ?orb_false_l, ?orb_false_r;
    repeat match goal with
           | |- context [if ?b then _ else _] => destruct b
           end;
    cbn [fst snd];
    first [ exists cb; split; [exact Eb|];
            repeat split; intros; first [congruence | lra]
          | exists cn; split; [exact En|];
            repeat split; intros; first [congruence | lra] ].
Qed.

(** X25.  Whatever the moving averages are, numbers, NaN or infinities,
    and whether or not the indicator fails, the EMA crossover strategy
    returns a confidence that is a number between 0 and 100: 0 with the
    error when the indicator raises or a series has fewer than two
    values, at most 40 (and at least 20) for NEUTRAL, at least 50 for BUY
    and SELL.  It answers BUY only when the fast reading is above the slow
    one and SELL only when it is below. *)
Theorem ema_confidence_is_bounded :
  forall (ta_ema : list Q -> Z -> result (list fval))
         (self : EMACrossoverStrategy.t) (df : DataFrame),
    let r := EMACrossoverStrategy.calculate ta_ema self df in
    (exists c,
       EMACrossoverStrategy.confidence r = Num c /\
       0 <= c <= 100 /\
       (EMACrossoverStrategy.error r = None -> 20 <= c) /\
       (EMACrossoverStrategy.error r = None ->
        EMACrossoverStrategy.signal r = NEUTRAL -> c <= 40) /\
       (EMACrossoverStrategy.signal r <> NEUTRAL -> 50 <= c) /\
       (EMACrossoverStrategy.error r <> None ->
        EMACrossoverStrategy.signal r = NEUTRAL /\ c = 0)) /\
    (forall cf cs pf ps,
       (fst (EMACrossoverStrategy.classify cf cs pf ps) = BUY ->
          F.ltb cs cf = true) /\
       (fst (EMACrossoverStrategy.classify cf cs pf ps) = SELL ->
          F.ltb cf cs = true)).
Proof.
  intros ta_ema self df r. split.
  2:{ intros cf cs pf ps.
      destruct (ema_classify_range cf cs pf ps) as (c & _ & _ & _ & _ & Hb & Hs).
      split; assumption. }
  assert (Hfail : forall e,
            let r0 := {| EMACrossoverStrategy.strategy :=
                           EMACrossoverStrategy.name self;
                         EMACrossoverStrategy.signal := NEUTRAL;
                         EMACrossoverStrategy.confidence := Num 0;
                         EMACrossoverStrategy.ema_fast := Num 0;
                         EMACrossoverStrategy.ema_slow := Num 0;
                         EMACrossoverStrategy.diff_percent := Num 0;
                         EMACrossoverStrategy.golden_cross := false;
                         EMACrossoverStrategy.death_cross := false;
                         EMACrossoverStrategy.error := Some e |} in
            exists c,
              EMACrossoverStrategy.confidence r0 = Num c /\
              0 <= c <= 100 /\
              (EMACrossoverStrategy.error r0 = None -> 20 <= c) /\
              (EMACrossoverStrategy.error r0 = None ->
               EMACrossoverStrategy.signal r0 = NEUTRAL -> c <= 40) /\
              (EMACrossoverStrategy.signal r0 <> NEUTRAL -> 50 <= c) /\
              (EMACrossoverStrategy.error r0 <> None ->
               EMACrossoverStrategy.signal r0 = NEUTRAL /\ c = 0)).
  { intros e r0. exists 0. cbn.
    repeat split; intros; first [congruence | lra]. }
  unfold r, EMACrossoverStrategy.calculate.
  destruct (ta_ema (map close df) (EMACrossoverStrategy.fast self))
    as [ema_fast|e]; [|apply Hfail].
  cbn [bind].
  destruct (ta_ema (map close df) (EMACrossoverStrategy.slow self))
    as [ema_slow|e]; [|apply Hfail].
  cbn [bind].
  destruct (iloc_last ema_fast) as [cf|e]; [|apply Hfail]. cbn [bind].
  destruct (iloc_last ema_slow) as [cs|e]; [|apply Hfail]. cbn [bind].
  destruct (iloc_prev ema_fast) as [pf|e]; [|apply Hfail]. cbn [bind].
  destruct (iloc_prev ema_slow) as [ps|e]; [|apply Hfail]. cbn [bind].
  destruct (ema_classify_range cf cs pf ps) as (c & Ec & [C0 C1] & Hn & Hd & _).
  destruct (EMACrossoverStrategy.classify cf cs pf ps) as [sig conf].
  cbn [fst snd] in *. subst conf.
  cbn [EMACrossoverStrategy.confidence EMACrossoverStrategy.error
       EMACrossoverStrategy.signal F.round].
  eexists. split; [reflexivity|].
  repeat split; intros;
    first [ congruence
          | apply (round_ge _ 2 0); change (inject_Z 0) with 0; lra
          | apply (round_le _ 2 100); exact C1
          | apply (round_ge _ 2 20); exact C0
          | apply (round_le _ 2 40); change (inject_Z 40) with 40; auto
          | apply (round_ge _ 2 50); change (inject_Z 50) with 50; auto ].
Qed.

Lemma macd_classify_range (cm cs ch pm ps : fval) :
  exists c,
    snd (MACDStrategy.classify cm cs ch pm ps) = Num c /\
    20 <= c <= 100 /\
    (fst (MACDStrategy.classify cm cs ch pm ps) = NEUTRAL -> c <= 40) /\
    (fst (MACDStrategy.classify cm cs ch pm ps) <> NEUTRAL -> 50 <= c) /\
    (fst (MACDStrategy.classify cm cs ch pm ps) = BUY -> F.ltb cs cm = true) /\
    (fst (MACDStrategy.classify cm cs ch pm ps) = SELL -> F.ltb cm cs = true).
Proof.
  unfold MACDStrategy.classify, MACDStrategy.bullish_cross_of,
    MACDStrategy.bearish_cross_of.
  destruct (boost_range 50 5 ch) as (cb & Eb & B0 & B1); [lra | lra |].
  destruct (decay_range 20 40 2 ch) as (cn & En & N0 & N1); [lra | lra |].
  destruct (F.ltb cs cm) eqn:Eup; destruct (F.ltb cm cs) eqn:Edown;
    rewrite ?andb_true_r, ?andb_false_r, ?andb_true_l, ?andb_false_l,
      ?orb_false_l, ?orb_false_r;
    repeat match goal with
           | |- context [if ?b then _ else _] => destruct b
           end;
    cbn [fst snd];
    first [ exists cb; split; [exact Eb|];
            repeat split; intros; first [congruence | lra]
          | exists cn; split; [exact En|];
            repeat split; intros; first [congruence | lra] ].
Qed.

(** X26.  Whatever the line, its signal line and the histogram are,
    numbers, NaN or infinities, and whether or not the indicator fails, the
    MACD strategy returns a confidence that is a number between 0 and 100:
    0 with the error on a failure, between 20 and 40 for NEUTRAL, at least
    50 for BUY and SELL.  It answers BUY only when the line is above its
    signal line and SELL only when it is below. *)
Theorem macd_confidence_is_bounded :
  forall (ta_macd : list Q -> Z -> Z -> Z ->
                    result (list fval * list fval * list fval))
         (self : MACDStrategy.t) (df : DataFrame),
    let r := MACDStrategy.calculate ta_macd self df in
    (exists c,
       MACDStrategy.confidence r = Num c /\
       0 <= c <= 100 /\
       (MACDStrategy.error r = None -> 20 <= c) /\
       (MACDStrategy.error r = None ->
        MACDStrategy.signal r = NEUTRAL -> c <= 40) /\
       (MACDStrategy.signal r <> NEUTRAL -> 50 <= c) /\
       (MACDStrategy.error r <> None ->
        MACDStrategy.signal r = NEUTRAL /\ c = 0)) /\
    (forall cm cs ch pm ps,
       (fst (MACDStrategy.classify cm cs ch pm ps) = BUY ->
          F.ltb cs cm = true) /\
       (fst (MACDStrategy.classify cm cs ch pm ps) = SELL ->
          F.ltb cm cs = true)).
Proof.
  intros ta_macd self df r. split.
  2:{ intros cm cs ch pm ps.
      destruct (macd_classify_range cm cs ch pm ps)
        as (c & _ & _ & _ & _ & Hb & Hs).
      split; assumption. }
  assert (Hfail : forall e,
            let r0 := {| MACDStrategy.strategy := MACDStrategy.name self;
                         MACDStrategy.signal := NEUTRAL;
                         MACDStrategy.confidence := Num 0;
                         MACDStrategy.macd := Num 0;
                         MACDStrategy.signal_line := Num 0;
                         MACDStrategy.histogram := Num 0;
                         MACDStrategy.bullish_cross := false;
                         MACDStrategy.bearish_cross := false;
                         MACDStrategy.error := Some e |} in
            exists c,
              MACDStrategy.confidence r0 = Num c /\
              0 <= c <= 100 /\
              (MACDStrategy.error r0 = None -> 20 <= c) /\
              (MACDStrategy.error r0 = None ->
               MACDStrategy.signal r0 = NEUTRAL -> c <= 40) /\
              (MACDStrategy.signal r0 <> NEUTRAL -> 50 <= c) /\
              (MACDStrategy.error r0 <> None ->
               MACDStrategy.signal r0 = NEUTRAL /\ c = 0)).
  { intros e r0. exists 0. cbn.
    repeat split; intros; first [congruence | lra]. }
  unfold r, MACDStrategy.calculate.
  destruct (ta_macd (map close df) (MACDStrategy.fast self)
              (MACDStrategy.slow self) (MACDStrategy.signal_period self))
    as [[[macd_line signal_line] histogram]|e]; [|apply Hfail].
  cbn [bind].
  destruct (iloc_last macd_line) as [cm|e]; [|apply Hfail]. cbn [bind].
  destruct (iloc_last signal_line) as [cs|e]; [|apply Hfail]. cbn [bind].
  destruct (iloc_last histogram) as [ch|e]; [|apply Hfail]. cbn [bind].
  destruct (iloc_prev macd_line) as [pm|e]; [|apply Hfail]. cbn [bind].
  destruct (iloc_prev signal_line) as [ps|e]; [|apply Hfail]. cbn [bind].
  destruct (macd_classify_range cm cs ch pm ps)
    as (c & Ec & [C0 C1] & Hn & Hd & _).
  destruct (MACDStrategy.classify cm cs ch pm ps) as [sig conf].
  cbn [fst snd] in *. subst conf.
  cbn [MACDStrategy.confidence MACDStrategy.error MACDStrategy.signal F.round].
  eexists. split; [reflexivity|].
  repeat split; intros;
    first [ congruence
          | apply (round_ge _ 2 0); change (inject_Z 0) with 0; lra
          | apply (round_le _ 2 100); exact C1
          | apply (round_ge _ 2 20); exact C0
          | apply (round_le _ 2 40); change (inject_Z 40) with 40; auto
          | apply (round_ge _ 2 50); change (inject_Z 50) with 50; auto ].
Qed.

(** ** The volume spike strategy *)

Lemma boost_range_any (base k : Q) (x : fval) :
  0 < k ->
  exists c,
    F.min (Num 100) (F.add (Num base) (F.mul (F.abs x) (Num k))) = Num c /\
    Qmin base 100 <= c <= 100.
Proof.
  intros Hk.
  assert (Ek : Qeq_bool k 0 = false).
  { destruct (Qeq_bool k 0) eqn:E; [|reflexivity].
    apply Qeq_bool_iff in E. lra. }
  pose proof (Q.le_min_r base 100) as Hr.
  pose proof (Q.le_min_l base 100) as Hl.
  destruct x as [a| |p]; cbn [F.abs F.mul F.add].
  - rewrite F_min_num. eexists. split; [reflexivity|].
    pose proof (Qabs_nonneg a).
    split; [apply min_glb; [exact Hr | nra] | apply min_le_l].
  - exists 100. split; [reflexivity | lra].
  - rewrite Ek. cbn [F.add].
    replace (Py.ltb 0 k) with true by (symmetry; apply ltb_lt; exact Hk).
    exists 100. split; [reflexivity | lra].
Qed.

(** The volume ratio is a number whatever the average is. *)
Lemma volume_ratio_is_number (current_volume : Q) (avg_volume : fval) :
  exists q, VolumeSpikeStrategy.volume_ratio_of current_volume avg_volume = Num q.
Proof.
  unfold VolumeSpikeStrategy.volume_ratio_of.
  destruct avg_volume as [a| |p]; cbn [F.ltb].
  - destruct (Py.ltb 0 a) eqn:E; [|eexists; reflexivity].
    apply ltb_lt in E. cbn [F.div].
    destruct (Qeq_bool a 0) eqn:Z; [|eexists; reflexivity].
    apply Qeq_bool_iff in Z. exfalso. lra.
  - eexists. reflexivity.
  - destruct p; eexists; reflexivity.
Qed.

Lemma volume_classify_range (self : VolumeSpikeStrategy.t) (q : Q) (pct : fval) :
  VolumeSpikeStrategy.multiplier self <= 4.5 ->
  exists c,
    snd (VolumeSpikeStrategy.classify self (Num q) pct) = Num c /\
    10 <= c <= 100.
Proof.
  intro Hm. unfold VolumeSpikeStrategy.classify.
  set (m := VolumeSpikeStrategy.multiplier self) in *.
  cbn [F.leb F.sub F.neg F.add F.mul].
  destruct (Qle_bool m q) eqn:Es.
  - apply Qle_bool_iff in Es.
    destruct (boost_range_any (50 + (q + - m) * 15) 3 pct) as (c & Ec & C0 & C1);
      [lra|].
    assert (H50 : 50 <= Qmin (50 + (q + - m) * 15) 100)
      by (apply Q.min_glb; lra).
    destruct (F.ltb (Num 1) pct); [|destruct (F.ltb pct (Num (-1)))]; cbn [snd].
    + exists c. split; [exact Ec | lra].
    + exists c. split; [exact Ec | lra].
    + exists 30. split; [reflexivity | lra].
  - assert (Hlt : q < m).
    { apply Qnot_le_lt. intro H. apply Qle_bool_iff in H. congruence. }
    destruct (F.ltb (Num 1.2) (Num q) && F.ltb (Num 0.5) (F.abs pct)); cbn [snd].
    + rewrite F_max_num. eexists. split; [reflexivity|].
      split; [|apply max_lub; lra].
      apply Qle_trans with 20; [lra | apply max_ge_l].
    + destruct (decay_range 10 25 10 (Num (1 + - q))) as (c & Ec & C0 & C1);
        [lra | lra |].
      exists c. split; [exact Ec | lra].
Qed.

(** X27.  With a multiplier of at most 4.5 (the default is 2), whatever
    the volumes, the closes and the average are, the volume spike strategy
    returns a confidence that is a number between 0 and 100, at least 10
    when no error is recorded; on an error the answer is NEUTRAL at 0. *)
Theorem volume_confidence_is_bounded :
  forall (ta_sma : list Q -> Z -> result (list fval))
         (self : VolumeSpikeStrategy.t) (df : DataFrame),
    VolumeSpikeStrategy.multiplier self <= 4.5 ->
    let r := VolumeSpikeStrategy.calculate ta_sma self df in
    exists c,
      VolumeSpikeStrategy.confidence r = Num c /\
      0 <= c <= 100 /\
      (VolumeSpikeStrategy.error r = None -> 10 <= c) /\
      (VolumeSpikeStrategy.error r <> None ->
       VolumeSpikeStrategy.signal r = NEUTRAL /\ c = 0).
Proof.
  intros ta_sma self df Hm r.
  assert (Hfail : forall f,
            exists c,
              VolumeSpikeStrategy.confidence (VolumeSpikeStrategy.failed self f)
              = Num c /\
              0 <= c <= 100 /\
              (VolumeSpikeStrategy.error (VolumeSpikeStrategy.failed self f)
               = None -> 10 <= c) /\
              (VolumeSpikeStrategy.error (VolumeSpikeStrategy.failed self f)
               <> None ->
               VolumeSpikeStrategy.signal (VolumeSpikeStrategy.failed self f)
               = NEUTRAL /\ c = 0)).
  { intro f. exists 0. cbn.
    repeat split; intros; first [congruence | lra]. }
  unfold r, VolumeSpikeStrategy.calculate.
  destruct (ta_sma (map volume df) (VolumeSpikeStrategy.period self))
    as [sma|e]; [|apply Hfail]. cbn [bind].
  destruct (iloc_last (map volume df)) as [cv|e]; [|apply Hfail]. cbn [bind].
  destruct (iloc_last sma) as [av|e]; [|apply Hfail]. cbn [bind].
  destruct (iloc_last (map close df)) as [cc|e]; [|apply Hfail]. cbn [bind].
  destruct (iloc_prev (map close df)) as [pc|e]; [|apply Hfail]. cbn [bind].
  destruct (volume_ratio_is_number cv av) as (q & Eq). rewrite Eq.
  destruct (volume_classify_range self q
              (VolumeSpikeStrategy.price_change_pct_of cc pc) Hm)
    as (c & Ec & C0 & C1).
  destruct (VolumeSpikeStrategy.classify self (Num q)
              (VolumeSpikeStrategy.price_change_pct_of cc pc)) as [sig conf].
  cbn [snd] in Ec. subst conf.
  cbn [VolumeSpikeStrategy.int].
  destruct (VolumeSpikeStrategy.int av) as [f|avg_int]; [apply Hfail|].
  cbn [VolumeSpikeStrategy.confidence VolumeSpikeStrategy.error
       VolumeSpikeStrategy.signal F.round].
  eexists. split; [reflexivity|].
  repeat split; intros;
    first [ congruence
          | apply (round_ge _ 2 0); change (inject_Z 0) with 0; lra
          | apply (round_le _ 2 100); exact C1
          | apply (round_ge _ 2 10); exact C0 ].
Qed.

Lemma volume_confidence_is_bounded_witness :
  exists c,
    VolumeSpikeStrategy.confidence
      (VolumeSpikeStrategy.calculate
         (fun volumes _ => Ok (map (fun _ => Num 1) volumes))
         (VolumeSpikeStrategy.__init__ None None)
         TargetPriceCalculator.flat_window) = Num c /\
    0 <= c <= 100.
Proof.
  destruct (volume_confidence_is_bounded
              (fun volumes _ => Ok (map (fun _ => Num 1) volumes))
              (VolumeSpikeStrategy.__init__ None None)
              TargetPriceCalculator.flat_window) as (c & Hc & Hb & _).
  - unfold Qle. cbn. lia.
  - exists c. split; assumption.
Defined.

(** X28.  When the average volume is unavailable (NaN) at the last candle,
    the volume spike strategy does not reach its answer: [int(avg_volume)]
    raises and the result is NEUTRAL at confidence 0 with the error,
    whatever the volumes and the closes are. *)
Theorem volume_unavailable_average_is_an_error :
  forall (ta_sma : list Q -> Z -> result (list fval))
         (self : VolumeSpikeStrategy.t) (df : DataFrame) (series : list fval),
    ta_sma (map volume df) (VolumeSpikeStrategy.period self) = Ok series ->
    iloc_last series = Ok NaN ->
    let r := VolumeSpikeStrategy.calculate ta_sma self df in
    VolumeSpikeStrategy.signal r = NEUTRAL /\
    VolumeSpikeStrategy.confidence r = Num 0 /\
    VolumeSpikeStrategy.error r <> None /\
    (forall current_volume current_close prev_close,
       iloc_last (map volume df) = Ok current_volume ->
       iloc_last (map close df) = Ok current_close ->
       iloc_prev (map close df) = Ok prev_close ->
       VolumeSpikeStrategy.error r
       = Some (VolumeSpikeStrategy.Raised ValueError)).
Proof.
  intros ta_sma self df series Hs Hlast r.
  unfold r, VolumeSpikeStrategy.calculate. rewrite Hs. cbn [bind].
  destruct (iloc_last (map volume df)) as [cv|e];
    [|cbn; repeat split; intros; discriminate].
  cbn [bind]. rewrite Hlast. cbn [bind].
  destruct (iloc_last (map close df)) as [cc|e];
    [|cbn; repeat split; intros; discriminate].
  cbn [bind].
  destruct (iloc_prev (map close df)) as [pc|e];
    [|cbn; repeat split; intros; discriminate].
  cbn [bind].
  destruct (VolumeSpikeStrategy.classify self
              (VolumeSpikeStrategy.volume_ratio_of cv NaN)
              (VolumeSpikeStrategy.price_change_pct_of cc pc)) as [sig conf].
  cbn. repeat split; intros; first [discriminate | reflexivity].
Qed.

Lemma volume_unavailable_average_is_an_error_witness :
  VolumeSpikeStrategy.confidence
    (VolumeSpikeStrategy.calculate
       (fun volumes _ => Ok (map (fun _ => NaN) volumes))
       (VolumeSpikeStrategy.__init__ None None) Samples.short_window) = Num 0.
Proof.
  apply (volume_unavailable_average_is_an_error
           (fun volumes _ => Ok (map (fun _ => NaN) volumes))
           (VolumeSpikeStrategy.__init__ None None) Samples.short_window
           [NaN; NaN; NaN; NaN; NaN] eq_refl eq_refl).
Defined.

(** The position of a price strictly inside the bands is strictly between
    0 and 1. *)
Lemma bollinger_position_inside (p u l : Q) :
  l < p -> p < u ->
  exists x,
    BollingerBandsStrategy.position_of p (Num u) (Num l) = Num x /\
    x == (p - l) / (u - l) /\ 0 < x < 1.
Proof.
  intros Hl Hu. unfold BollingerBandsStrategy.position_of.
  cbn [F.eqb F.sub F.neg F.add F.div].
  assert (E1 : Qeq_bool u l = false).
  { destruct (Qeq_bool u l) eqn:E; [|reflexivity].
    apply Qeq_bool_iff in E. lra. }
  assert (E2 : Qeq_bool (u + - l) 0 = false).
  { destruct (Qeq_bool (u + - l) 0) eqn:E; [|reflexivity].
    apply Qeq_bool_iff in E. lra. }
  rewrite E1, E2. cbn [negb].
  eexists. split; [reflexivity|].
  split; [unfold Qminus; reflexivity|].
  split.
  - apply Qlt_shift_div_l; lra.
  - apply Qlt_shift_div_r; lra.
Qed.

Lemma bollinger_outside_range (a b : Q) :
  0 < b -> 0 <= a ->
  exists c,
    F.min (Num 100)
      (F.add (Num 60)
         (F.mul (F.mul (F.div (Num a) (Num b)) (Num 100)) (Num 20))) = Num c /\
    60 <= c <= 100.
Proof.
  intros Hb Ha. cbn [F.div].
  assert (E : Qeq_bool b 0 = false).
  { destruct (Qeq_bool b 0) eqn:E; [|reflexivity].
    apply Qeq_bool_iff in E. lra. }
  rewrite E. cbn [F.mul F.add]. rewrite F_min_num.
  eexists. split; [reflexivity|].
  assert (0 <= a / b) by (apply Qle_shift_div_l; lra).
  split; [apply min_glb; nra | apply min_le_l].
Qed.

Lemma bollinger_classify_range (p u m l : Q) :
  0 < l -> l <= m -> m <= u ->
  let out := BollingerBandsStrategy.classify p (Num u) (Num m) (Num l) in
  exists c,
    snd out = Num c /\
    20 <= c <= 100 /\
    (fst out = BUY -> p <= m /\ 40 <= c) /\
    (fst out = SELL -> m <= p /\ 40 <= c) /\
    (fst out = NEUTRAL -> l < p < u /\ c <= 40).
Proof.
  intros Hl Hlm Hmu out. unfold out, BollingerBandsStrategy.classify.
  cbn [F.leb].
  destruct (Qle_bool p l) eqn:E1.
  { apply Qle_bool_iff in E1.
    cbn [F.sub F.neg F.add].
    destruct (bollinger_outside_range (l + - p) l) as (c & Ec & C0 & C1);
      [lra | lra |].
    exists c. cbn [fst snd]. split; [exact Ec|].
    repeat split; intros; first [discriminate | lra]. }
  assert (H1 : l < p).
  { apply Qnot_le_lt. intro H. apply Qle_bool_iff in H. congruence. }
  destruct (Qle_bool u p) eqn:E2.
  { apply Qle_bool_iff in E2.
    cbn [F.sub F.neg F.add].
    destruct (bollinger_outside_range (p + - u) u) as (c & Ec & C0 & C1);
      [lra | lra |].
    exists c. cbn [fst snd]. split; [exact Ec|].
    repeat split; intros; first [discriminate | lra]. }
  assert (H2 : p < u).
  { apply Qnot_le_lt. intro H. apply Qle_bool_iff in H. congruence. }
  destruct (bollinger_position_inside p u l H1 H2) as (x & Ex & _ & X0 & X1).
  rewrite Ex. cbn [F.ltb F.sub F.neg F.add F.mul F.abs].
  destruct (Py.ltb p m && Py.ltb x 0.3) eqn:E3.
  { apply andb_prop in E3. destruct E3 as [A B].
    apply ltb_lt in A. apply ltb_lt in B.
    eexists. cbn [fst snd]. split; [reflexivity|].
    repeat split; intros; first [discriminate | lra]. }
  destruct (Py.ltb m p && Py.ltb 0.7 x) eqn:E4.
  { apply andb_prop in E4. destruct E4 as [A B].
    apply ltb_lt in A. apply ltb_lt in B.
    eexists. cbn [fst snd]. split; [reflexivity|].
    repeat split; intros; first [discriminate | lra]. }
  rewrite F_max_num. eexists. cbn [fst snd]. split; [reflexivity|].
  match goal with
  | |- context [Qabs ?t] =>
      assert (Habs : Qabs t <= 0.5) by (apply Qabs_Qle_condition; lra);
      pose proof (Qabs_nonneg t) as Hn
  end.
  repeat split; intros;
    first [ discriminate | assumption | apply max_ge_l
          | apply max_lub; lra
          | apply Qle_trans with 20; [lra | apply max_ge_l] ].
Qed.

(** X29.  When the three Bollinger bands at the last candle are numbers
    with 0 < lower <= middle <= upper, the strategy records no error and
    its confidence is a number between 20 and 100.  A BUY is only given at
    or below the middle band and a SELL only at or above it, each with a
    confidence of at least 40; NEUTRAL is only given strictly between the
    outer bands, with a confidence of at most 40. *)
Theorem bollinger_signal_follows_the_bands :
  forall (ta_bbands :
            list Q -> Z -> Z -> result (list fval * list fval * list fval))
         (self : BollingerBandsStrategy.t) (df : DataFrame)
         (lower middle upper : list fval) (p u m l : Q),
    ta_bbands (map close df) (BollingerBandsStrategy.period self)
      (BollingerBandsStrategy.std self) = Ok (lower, middle, upper) ->
    iloc_last (map close df) = Ok p ->
    iloc_last upper = Ok (Num u) ->
    iloc_last middle = Ok (Num m) ->
    iloc_last lower = Ok (Num l) ->
    0 < l -> l <= m -> m <= u ->
    let r := BollingerBandsStrategy.calculate ta_bbands self df in
    BollingerBandsStrategy.error r = None /\
    exists c,
      BollingerBandsStrategy.confidence r = Num c /\
      20 <= c <= 100 /\
      (BollingerBandsStrategy.signal r = BUY -> p <= m /\ 40 <= c) /\
      (BollingerBandsStrategy.signal r = SELL -> m <= p /\ 40 <= c) /\
      (BollingerBandsStrategy.signal r = NEUTRAL -> l < p < u /\ c <= 40).
Proof.
  intros ta_bbands self df lower middle upper p u m l Hb Hp Hu Hm Hl
         L0 L1 L2 r.
  unfold r, BollingerBandsStrategy.calculate.
  rewrite Hb. cbn [bind]. rewrite Hp. cbn [bind]. rewrite Hu. cbn [bind].
  rewrite Hm. cbn [bind]. rewrite Hl. cbn [bind].
  destruct (bollinger_classify_range p u m l L0 L1 L2)
    as (c & Ec & (C0 & C1) & HB & HS & HN).
  destruct (BollingerBandsStrategy.classify p (Num u) (Num m) (Num l))
    as [sig conf].
  cbn [fst snd] in *. subst conf.
  cbn [BollingerBandsStrategy.error BollingerBandsStrategy.confidence
       BollingerBandsStrategy.signal F.round].
  split; [reflexivity|].
  eexists. split; [reflexivity|].
  split; [split; [apply (round_ge _ 2 20); exact C0
                 | apply (round_le _ 2 100); exact C1]|].
  split; [|split].
  - intro H. destruct (HB H) as [A B].
    split; [exact A | apply (round_ge _ 2 40); exact B].
  - intro H. destruct (HS H) as [A B].
    split; [exact A | apply (round_ge _ 2 40); exact B].
  - intro H. destruct (HN H) as [A B].
    split; [exact A | apply (round_le _ 2 40); exact B].
Qed.

Lemma bollinger_signal_follows_the_bands_witness :
  exists c,
    BollingerBandsStrategy.confidence
      (BollingerBandsStrategy.calculate
         (fun closes _ _ =>
            Ok (map (fun _ => Num 90) closes,
                map (fun _ => Num 100) closes,
                map (fun _ => Num 110) closes))
         (BollingerBandsStrategy.__init__ None None)
         TargetPriceCalculator.flat_window) = Num c /\
    20 <= c <= 100.
Proof.
  destruct (bollinger_signal_follows_the_bands
              (fun closes _ _ =>
                 Ok (map (fun _ => Num 90) closes,
                     map (fun _ => Num 100) closes,
                     map (fun _ => Num 110) closes))
              (BollingerBandsStrategy.__init__ None None)
              TargetPriceCalculator.flat_window
              (map (fun _ => Num 90) (map close TargetPriceCalculator.flat_window))
              (map (fun _ => Num 100) (map close TargetPriceCalculator.flat_window))
              (map (fun _ => Num 110) (map close TargetPriceCalculator.flat_window))
              100 110 100 90)
    as (_ & c & Hc & Hb & _).
  - reflexivity.
  - reflexivity.
  - reflexivity.
  - reflexivity.
  - reflexivity.
  - unfold Qlt. cbn. lia.
  - unfold Qle. cbn. lia.
  - unfold Qle. cbn. lia.
  - exists c. split; assumption.
Defined.

(** X30.  When the readings at the last candle are unavailable (NaN, as
    during the warm-up of an indicator) and no error is recorded, the EMA
    crossover, the MACD and the Bollinger bands strategies do not report
    the gap: each answers NEUTRAL with the confidence 20.  For the EMA
    crossover it is enough that the slow average is NaN, for the MACD that
    the signal line and the histogram are, for the Bollinger bands that
    the upper and the lower band are. *)
Theorem unavailable_readings_answer_neutral_20 :
  forall (ta_ema : list Q -> Z -> result (list fval))
         (ta_macd : list Q -> Z -> Z -> Z ->
                    result (list fval * list fval * list fval))
         (ta_bbands :
            list Q -> Z -> Z -> result (list fval * list fval * list fval))
         (ema : EMACrossoverStrategy.t) (macd : MACDStrategy.t)
         (bb : BollingerBandsStrategy.t) (df : DataFrame)
         (ema_slow macd_line signal_line histogram lower middle upper
            : list fval),
    ta_ema (map close df) (EMACrossoverStrategy.slow ema) = Ok ema_slow ->
    iloc_last ema_slow = Ok NaN ->
    ta_macd (map close df) (MACDStrategy.fast macd) (MACDStrategy.slow macd)
      (MACDStrategy.signal_period macd)
    = Ok (macd_line, signal_line, histogram) ->
    iloc_last signal_line = Ok NaN ->
    iloc_last histogram = Ok NaN ->
    ta_bbands (map close df) (BollingerBandsStrategy.period bb)
      (BollingerBandsStrategy.std bb) = Ok (lower, middle, upper) ->
    iloc_last upper = Ok NaN ->
    iloc_last lower = Ok NaN ->
    let e := EMACrossoverStrategy.calculate ta_ema ema df in
    let m := MACDStrategy.calculate ta_macd macd df in
    let b := BollingerBandsStrategy.calculate ta_bbands bb df in
    (EMACrossoverStrategy.error e = None ->
     EMACrossoverStrategy.signal e = NEUTRAL /\
     exists c, EMACrossoverStrategy.confidence e = Num c /\ c == 20) /\
    (MACDStrategy.error m = None ->
     MACDStrategy.signal m = NEUTRAL /\
     exists c, MACDStrategy.confidence m = Num c /\ c == 20) /\
    (BollingerBandsStrategy.error b = None ->
     BollingerBandsStrategy.signal b = NEUTRAL /\
     BollingerBandsStrategy.position b = NaN /\
     exists c, BollingerBandsStrategy.confidence b = Num c /\ c == 20).
Proof.
  intros ta_ema ta_macd ta_bbands ema macd bb df
         ema_slow macd_line signal_line histogram lower middle upper
         He Hes Hm Hsl Hh Hb Hu Hl e m b.
  assert (R20 : Py.round 20 2 == 20) by (vm_compute; reflexivity).
  split; [|split].
  - unfold e, EMACrossoverStrategy.calculate. rewrite He.
    destruct (ta_ema (map close df) (EMACrossoverStrategy.fast ema))
      as [ema_fast|x]; [|cbn; discriminate].
    cbn [bind].
    destruct (iloc_last ema_fast) as [cf|x]; [|cbn; discriminate].
    cbn [bind]. rewrite Hes. cbn [bind].
    destruct (iloc_prev ema_fast) as [pf|x]; [|cbn; discriminate].
    cbn [bind].
    destruct (iloc_prev ema_slow) as [ps|x]; [|cbn; discriminate].
    cbn [bind]. intros _.
    unfold EMACrossoverStrategy.classify, EMACrossoverStrategy.golden_cross_of,
      EMACrossoverStrategy.death_cross_of, EMACrossoverStrategy.diff_percent_of.
    destruct cf as [f| |q]; destruct (F.leb pf ps); destruct (F.leb ps pf);
      (split; [reflexivity | eexists; split; [reflexivity | exact R20]]).
  - unfold m, MACDStrategy.calculate. rewrite Hm. cbn [bind].
    destruct (iloc_last macd_line) as [cm|x]; [|cbn; discriminate].
    cbn [bind]. rewrite Hsl. cbn [bind]. rewrite Hh. cbn [bind].
    destruct (iloc_prev macd_line) as [pm|x]; [|cbn; discriminate].
    cbn [bind].
    destruct (iloc_prev signal_line) as [ps|x]; [|cbn; discriminate].
    cbn [bind]. intros _.
    unfold MACDStrategy.classify, MACDStrategy.bullish_cross_of,
      MACDStrategy.bearish_cross_of.
    destruct cm as [f| |q]; destruct (F.leb pm ps); destruct (F.leb ps pm);
      (split; [reflexivity | eexists; split; [reflexivity | exact R20]]).
  - unfold b, BollingerBandsStrategy.calculate. rewrite Hb. cbn [bind].
    destruct (iloc_last (map close df)) as [p|x]; [|cbn; discriminate].
    cbn [bind]. rewrite Hu. cbn [bind].
    destruct (iloc_last middle) as [cm|x]; [|cbn; discriminate].
    cbn [bind]. rewrite Hl. cbn [bind]. intros _.
    unfold BollingerBandsStrategy.classify, BollingerBandsStrategy.position_of.
    cbn [F.eqb negb F.sub F.neg F.add F.div F.leb F.ltb andb].
    rewrite Bool.andb_false_r. rewrite Bool.andb_false_r.
    split; [reflexivity | split; [reflexivity|]].
    eexists; split; [reflexivity | exact R20].
Qed.

Lemma unavailable_readings_answer_neutral_20_witness :
  BollingerBandsStrategy.signal
    (BollingerBandsStrategy.calculate
       (fun closes _ _ =>
          Ok (map (fun _ => NaN) closes, map (fun _ => NaN) closes,
              map (fun _ => NaN) closes))
       (BollingerBandsStrategy.__init__ None None) Samples.short_window)
  = NEUTRAL.
Proof.
  refine (proj1 (proj2 (proj2 (unavailable_readings_answer_neutral_20
           (fun closes _ => Ok (map (fun _ => NaN) closes))
           (fun closes _ _ _ =>
              Ok (map (fun _ => NaN) closes, map (fun _ => NaN) closes,
                  map (fun _ => NaN) closes))
           (fun closes _ _ =>
              Ok (map (fun _ => NaN) closes, map (fun _ => NaN) closes,
                  map (fun _ => NaN) closes))
           (EMACrossoverStrategy.__init__ None None)
           (MACDStrategy.__init__ None None None)
           (BollingerBandsStrategy.__init__ None None)
           Samples.short_window
           _ _ _ _ _ _ _
           eq_refl eq_refl eq_refl eq_refl eq_refl eq_refl eq_refl eq_refl))
           eq_refl)).
Defined.
(** ** Binary64 rounding *)

Lemma pow2_pos (k : Z) : 0 < 2 ^ k.
Proof. apply Qpower_0_lt. reflexivity. Qed.

Lemma pow2_succ (k : Z) : 2 ^ (k + 1) == 2 * 2 ^ k.
Proof. rewrite Qpower_plus by discriminate. rewrite Qpower_1_r. ring. Qed.

Lemma pow2_le (a b : Z) : (a <= b)%Z -> 2 ^ a <= 2 ^ b.
Proof. intro H. apply Qpower_le_compat_l; [exact H | discriminate]. Qed.

Lemma pow2_inject (n : Z) : (0 <= n)%Z -> inject_Z (2 ^ n) == 2 ^ n.
Proof. intro H. apply (Zpower_Qpower 2 n H). Qed.

Lemma log2_bounds (n : Z) :
  (0 < n)%Z -> 2 ^ Z.log2 n <= inject_Z n /\ inject_Z n < 2 * 2 ^ Z.log2 n.
Proof.
  intro H. pose proof (Z.log2_spec n H) as [Hl Hu].
  pose proof (Z.log2_nonneg n) as Hn.
  split.
  - rewrite <- pow2_inject by exact Hn. rewrite <- Zle_Qle. exact Hl.
  - rewrite <- pow2_succ. rewrite <- pow2_inject by lia.
    rewrite <- Zlt_Qlt. replace (Z.log2 n + 1)%Z with (Z.succ (Z.log2 n)) by lia.
    exact Hu.
Qed.

Lemma ilog2_spec (q : Q) :
  0 < q ->
  2 ^ Binary64.ilog2 q <= q /\ q < 2 ^ (Binary64.ilog2 q + 1).
Proof.
  intro Hq. destruct q as [n d].
  assert (Hn : (0 < n)%Z).
  { unfold Qlt in Hq. cbn in Hq. lia. }
  unfold Binary64.ilog2. cbn [Qnum Qden].
  set (a := Z.log2 n). set (b := Z.log2 (Z.pos d)).
  destruct (log2_bounds n Hn) as [HA1 HA2]. fold a in HA1, HA2.
  destruct (log2_bounds (Z.pos d) eq_refl) as [HB1 HB2]. fold b in HB1, HB2.
  pose proof (pow2_pos a) as PA. pose proof (pow2_pos b) as PB.
  assert (HD : 0 < inject_Z (Z.pos d)) by reflexivity.
  assert (Hq' : (n # d) * inject_Z (Z.pos d) == inject_Z n).
  { rewrite (Qmake_Qdiv n d). field. discriminate. }
  assert (HP : 2 ^ (a - b) * 2 ^ b == 2 ^ a).
  { rewrite <- Qpower_plus by discriminate. replace (a - b + b)%Z with a by lia.
    reflexivity. }
  set (N := inject_Z n) in *. set (D := inject_Z (Z.pos d)) in *.
  set (A := 2 ^ a) in *. set (B := 2 ^ b) in *.
  destruct (Qle_bool (2 ^ (a - b)) (n # d)) eqn:E.
  - apply Qle_bool_iff in E. split; [exact E|].
    rewrite pow2_succ. set (P := 2 ^ (a - b)) in *.
    apply Qmult_lt_r with D; [exact HD|]. rewrite Hq'.
    pose proof (pow2_pos (a - b)) as PP. fold P in PP.
    nra.
  - assert (Hlt : (n # d) < 2 ^ (a - b)).
    { apply Qnot_le_lt. intro H. apply Qle_bool_iff in H. congruence. }
    replace (a - b - 1 + 1)%Z with (a - b)%Z by lia.
    split; [|exact Hlt].
    assert (HP' : 2 * 2 ^ (a - b - 1) == 2 ^ (a - b)).
    { rewrite <- pow2_succ. replace (a - b - 1 + 1)%Z with (a - b)%Z by lia.
      reflexivity. }
    pose proof (pow2_pos (a - b - 1)) as PP.
    set (P := 2 ^ (a - b)) in *. set (P1 := 2 ^ (a - b - 1)) in *.
    apply Qmult_le_r with D; [exact HD|]. rewrite Hq'.
    nra.
Qed.

Lemma ilog2_mono (x y : Q) :
  0 < x -> x <= y -> (Binary64.ilog2 x <= Binary64.ilog2 y)%Z.
Proof.
  intros Hx Hxy.
  destruct (ilog2_spec x Hx) as [X1 X2].
  destruct (ilog2_spec y) as [Y1 Y2]; [lra|].
  destruct (Z_le_gt_dec (Binary64.ilog2 x) (Binary64.ilog2 y)) as [H | H];
    [exact H|].
  exfalso.
  assert (2 ^ (Binary64.ilog2 y + 1) <= 2 ^ Binary64.ilog2 x)
    by (apply pow2_le; lia).
  lra.
Qed.

Lemma ilog2_comp (x y : Q) :
  0 < x -> x == y -> Binary64.ilog2 x = Binary64.ilog2 y.
Proof.
  intros Hx E.
  assert (Hy : 0 < y) by lra.
  assert (H1 : x <= y) by lra.
  assert (H2 : y <= x) by (rewrite E; apply Qle_refl).
  pose proof (ilog2_mono x y Hx H1). pose proof (ilog2_mono y x Hy H2). lia.
Qed.

Lemma nearest_zero (q : Q) : q == 0 -> Binary64.nearest q = 0.
Proof.
  intro H. unfold Binary64.nearest.
  replace (Qeq_bool q 0) with true; [reflexivity|].
  symmetry. apply Qeq_bool_iff. exact H.
Qed.

Lemma nearest_nonzero (q : Q) :
  ~ q == 0 ->
  Binary64.nearest q
  == inject_Z (Py.round_half_even (q / 2 ^ Binary64.ulp_exponent q))
     * 2 ^ Binary64.ulp_exponent q.
Proof.
  intro H. unfold Binary64.nearest.
  destruct (Qeq_bool q 0) eqn:E.
  - apply Qeq_bool_iff in E. contradiction.
  - apply Qred_correct.
Qed.

(** A power of two that is a multiple of the last place bounds the
    rounding as it bounds the number. *)
Lemma nearest_le_pow2 (q : Q) (m : Z) :
  ~ q == 0 -> (Binary64.ulp_exponent q <= m)%Z ->
  q <= 2 ^ m -> Binary64.nearest q <= 2 ^ m.
Proof.
  intros Hq Hk H. rewrite (nearest_nonzero q Hq).
  set (k := Binary64.ulp_exponent q) in *.
  pose proof (pow2_pos k) as Pk.
  assert (E : 2 ^ m == inject_Z (2 ^ (m - k)) * 2 ^ k).
  { rewrite pow2_inject by lia. rewrite <- Qpower_plus by discriminate.
    replace (m - k + k)%Z with m by lia. reflexivity. }
  rewrite E.
  apply Qmult_le_compat_r; [|lra].
  rewrite <- Zle_Qle. apply round_half_even_le.
  apply Qle_shift_div_r; [exact Pk|]. rewrite <- E. exact H.
Qed.

Lemma nearest_ge_pow2 (q : Q) (m : Z) :
  ~ q == 0 -> (Binary64.ulp_exponent q <= m)%Z ->
  2 ^ m <= q -> 2 ^ m <= Binary64.nearest q.
Proof.
  intros Hq Hk H. rewrite (nearest_nonzero q Hq).
  set (k := Binary64.ulp_exponent q) in *.
  pose proof (pow2_pos k) as Pk.
  assert (E : 2 ^ m == inject_Z (2 ^ (m - k)) * 2 ^ k).
  { rewrite pow2_inject by lia. rewrite <- Qpower_plus by discriminate.
    replace (m - k + k)%Z with m by lia. reflexivity. }
  rewrite E.
  apply Qmult_le_compat_r; [|lra].
  rewrite <- Zle_Qle. apply round_half_even_ge.
  apply Qle_shift_div_l; [exact Pk|]. rewrite <- E. exact H.
Qed.

Lemma nearest_nonneg (q : Q) : 0 <= q -> 0 <= Binary64.nearest q.
Proof.
  intro H. destruct (Qeq_dec q 0) as [E | E].
  - rewrite (nearest_zero q E). lra.
  - rewrite (nearest_nonzero q E).
    pose proof (pow2_pos (Binary64.ulp_exponent q)) as Pk.
    assert (Hr : (0 <= Py.round_half_even (q / 2 ^ Binary64.ulp_exponent q))%Z).
    { apply round_half_even_ge. apply Qle_shift_div_l; [exact Pk|].
      change (inject_Z 0) with 0. lra. }
    rewrite Zle_Qle in Hr. change (inject_Z 0) with 0 in Hr. nra.
Qed.

Lemma ulp_exponent_pos (q : Q) :
  0 < q -> Binary64.ulp_exponent q = Z.max (Binary64.ilog2 q - 52) (-1074).
Proof.
  intro H. unfold Binary64.ulp_exponent.
  rewrite (ilog2_comp (Qabs q) q); [reflexivity | |].
  - rewrite Qabs_pos; lra.
  - apply Qabs_pos. lra.
Qed.

Lemma nearest_pos_mono (x y : Q) :
  0 < x -> x <= y -> Binary64.nearest x <= Binary64.nearest y.
Proof.
  intros Hx Hxy.
  assert (Hy : 0 < y) by lra.
  assert (Nx : ~ x == 0) by lra. assert (Ny : ~ y == 0) by lra.
  pose proof (ilog2_mono x y Hx Hxy) as He.
  destruct (ilog2_spec x Hx) as [X1 X2]. destruct (ilog2_spec y Hy) as [Y1 Y2].
  pose proof (ulp_exponent_pos x Hx) as Kx.
  pose proof (ulp_exponent_pos y Hy) as Ky.
  destruct (Z.eq_dec (Binary64.ulp_exponent x) (Binary64.ulp_exponent y))
    as [E | E].
  - rewrite (nearest_nonzero x Nx), (nearest_nonzero y Ny). rewrite E.
    set (k := Binary64.ulp_exponent y).
    pose proof (pow2_pos k) as Pk.
    apply Qmult_le_compat_r; [|lra].
    rewrite <- Zle_Qle. apply round_half_even_mono.
    apply Qmult_le_compat_r; [exact Hxy|].
    apply Qlt_le_weak. apply Qinv_lt_0_compat. exact Pk.
  - set (ey := Binary64.ilog2 y) in *. set (ex := Binary64.ilog2 x) in *.
    apply Qle_trans with (2 ^ ey).
    + apply nearest_le_pow2; [exact Nx | lia |].
      apply Qle_trans with (2 ^ (ex + 1)); [lra|].
      apply pow2_le. lia.
    + apply nearest_ge_pow2; [exact Ny | lia | exact Y1].
Qed.

Lemma Qabs_opp_eq (q : Q) : Qabs (- q) = Qabs q.
Proof. destruct q as [n d]. unfold Qabs, Qopp. cbn. rewrite Z.abs_opp. reflexivity. Qed.

Lemma nearest_opp (q : Q) : Binary64.nearest (- q) == - Binary64.nearest q.
Proof.
  destruct (Qeq_dec q 0) as [E | E].
  - rewrite (nearest_zero q E), (nearest_zero (- q)); lra.
  - assert (E' : ~ - q == 0) by lra.
    rewrite (nearest_nonzero q E), (nearest_nonzero (- q) E').
    unfold Binary64.ulp_exponent. rewrite Qabs_opp_eq.
    set (k := Z.max (Binary64.ilog2 (Qabs q) - 52) (-1074)).
    rewrite (round_half_even_comp (- q / 2 ^ k) (- (q / 2 ^ k))).
    + rewrite round_half_even_opp, inject_Z_opp. ring.
    + pose proof (pow2_pos k). field. lra.
Qed.

(** Rounding to the nearest float is monotone. *)
Lemma nearest_mono (x y : Q) :
  x <= y -> Binary64.nearest x <= Binary64.nearest y.
Proof.
  intro H.
  destruct (Qlt_le_dec 0 x) as [Hx | Hx].
  - apply nearest_pos_mono; assumption.
  - destruct (Qlt_le_dec y 0) as [Hy | Hy].
    + assert (Hm : Binary64.nearest (- y) <= Binary64.nearest (- x))
        by (apply nearest_pos_mono; lra).
      rewrite !nearest_opp in Hm. lra.
    + assert (H1 : 0 <= Binary64.nearest (- x)) by (apply nearest_nonneg; lra).
      rewrite nearest_opp in H1.
      pose proof (nearest_nonneg y Hy). lra.
Qed.

Lemma nearest_reduced (q : Q) : Qred (Binary64.nearest q) = Binary64.nearest q.
Proof.
  unfold Binary64.nearest. destruct (Qeq_bool q 0); [reflexivity|].
  apply Qred_complete, Qred_correct.
Qed.

(** Equal numbers have the same rounding, digit for digit. *)
Lemma nearest_comp (x y : Q) : x == y -> Binary64.nearest x = Binary64.nearest y.
Proof.
  intro E.
  rewrite <- (nearest_reduced x), <- (nearest_reduced y).
  apply Qred_complete. apply Qle_antisym; apply nearest_mono; lra.
Qed.

(** * What the functions return in binary64 arithmetic *)

(** ** The probability combiner *)

Lemma F_ltb_asym (a b : fval) : F.ltb a b = true -> F.ltb b a = false.
Proof.
  destruct a as [x| |[|]], b as [y| |[|]]; cbn; intro H;
    try discriminate; try reflexivity.
  apply ltb_lt in H. apply ltb_ge. lra.
Qed.

Lemma F_ltb_trans (a b c : fval) :
  F.ltb a b = true -> F.ltb b c = true -> F.ltb a c = true.
Proof.
  destruct a as [x| |[|]], b as [y| |[|]], c as [z| |[|]]; cbn; intros H1 H2;
    try discriminate; try reflexivity.
  apply ltb_lt in H1. apply ltb_lt in H2. apply ltb_lt. lra.
Qed.

(** C1.  For every combiner, every three layer results and whatever the
    interpreter's rounding of numpy scalars is, [combine] computes the
    score as the sum over the layers of
    score(signal) * (confidence / 100) * weight, with BUY = 1, SELL = -1
    and NEUTRAL = 0, each operation in binary64 arithmetic, and returns it
    rounded to three decimals; the signal is BUY when that score is above
    0.15, SELL when it is below -0.15 and NEUTRAL otherwise; the
    confidence is the average of the three confidences with the same
    weights, returned rounded to two decimals when neither adjustment
    applies.  With the default weights, (BUY, 65), (BUY, 58) and
    (NEUTRAL, 45) give BUY with confidence 57.55, the weighted average
    itself, and score 0.463. *)
Theorem combine_weighted_score :
  forall (env : Interpreter.t) (self : Runtime.ProbabilityCombiner.t)
         (ss ms ns : Signal) (sc mc nc : Number.t),
    let r := Runtime.ProbabilityCombiner.combine env self
               (Runtime.ProbabilityCombiner.layer ss sc)
               (Runtime.ProbabilityCombiner.layer ms mc)
               (Runtime.ProbabilityCombiner.layer ns nc) in
    let value (s : Signal) : Number.t :=
      match s with
      | BUY => Number.int 1
      | SELL => Number.int (-1)
      | NEUTRAL => Number.int 0
      end in
    let score :=
      (value ss * (sc / Number.int 100)
         * Runtime.ProbabilityCombiner.strategy_weight self
       + value ms * (mc / Number.int 100)
         * Runtime.ProbabilityCombiner.ml_weight self
       + value ns * (nc / Number.int 100)
         * Runtime.ProbabilityCombiner.news_weight self)%num in
    let average :=
      (sc * Runtime.ProbabilityCombiner.strategy_weight self
       + mc * Runtime.ProbabilityCombiner.ml_weight self
       + nc * Runtime.ProbabilityCombiner.news_weight self)%num in
    Runtime.ProbabilityCombiner.final_score r = Interpreter.round env score 3 /\
    ((Number.lit 0.15 <? score)%num = true ->
       Runtime.ProbabilityCombiner.final_signal r = BUY) /\
    ((score <? Number.lit (-0.15))%num = true ->
       Runtime.ProbabilityCombiner.final_signal r = SELL) /\
    ((Number.lit 0.15 <? score)%num = false ->
     (score <? Number.lit (-0.15))%num = false ->
       Runtime.ProbabilityCombiner.final_signal r = NEUTRAL) /\
    (~ (ss = ms /\ ms = ns /\ ss <> NEUTRAL) ->
     ~ (ss = BUY /\ ms = SELL \/ ss = SELL /\ ms = BUY) ->
       Runtime.ProbabilityCombiner.final_confidence r
       = Interpreter.round env average 2) /\
    match Runtime.ProbabilityCombiner.__init__ None None None with
    | Ok defaults =>
        let r0 := Runtime.ProbabilityCombiner.combine env defaults
                    (Runtime.ProbabilityCombiner.layer BUY (Number.int 65))
                    (Runtime.ProbabilityCombiner.layer BUY (Number.int 58))
                    (Runtime.ProbabilityCombiner.layer NEUTRAL (Number.int 45)) in
        Runtime.ProbabilityCombiner.strategy_weight defaults = Number.lit 0.40 /\
        Runtime.ProbabilityCombiner.ml_weight defaults = Number.lit 0.35 /\
        Runtime.ProbabilityCombiner.news_weight defaults = Number.lit 0.25 /\
        Runtime.ProbabilityCombiner.final_signal r0 = BUY /\
        Runtime.ProbabilityCombiner.final_confidence r0 = Number.lit 57.55 /\
        (Number.int 65 * Number.lit 0.40 + Number.int 58 * Number.lit 0.35
         + Number.int 45 * Number.lit 0.25)%num = Number.lit 57.55 /\
        Runtime.ProbabilityCombiner.final_score r0 = Number.lit 0.463
    | Raise _ => False
    end.
Proof.
  intros env self ss ms ns sc mc nc r value score average.
  assert (Hscore : Runtime.ProbabilityCombiner.score self ss sc ms mc ns nc = score)
    by (destruct ss, ms, ns; reflexivity).
  assert (Hsig : Runtime.ProbabilityCombiner.final_signal r
                 = Runtime.ProbabilityCombiner.signal_of_score score).
  { unfold r, Runtime.ProbabilityCombiner.combine.
    cbn [Runtime.ProbabilityCombiner.final_signal Py.get
         Runtime.ProbabilityCombiner.layer
         Runtime.ProbabilityCombiner.lr_signal
         Runtime.ProbabilityCombiner.lr_confidence].
    rewrite Hscore. reflexivity. }
  split.
  { unfold r, Runtime.ProbabilityCombiner.combine.
    cbn [Runtime.ProbabilityCombiner.final_score Py.get
         Runtime.ProbabilityCombiner.layer
         Runtime.ProbabilityCombiner.lr_signal
         Runtime.ProbabilityCombiner.lr_confidence].
    rewrite Hscore. reflexivity. }
  rewrite Hsig. unfold Runtime.ProbabilityCombiner.signal_of_score.
  split; [intro H; rewrite H; reflexivity|].
  split.
  { intro H.
    assert (E : (Number.lit 0.15 <? score)%num = false).
    { apply F_ltb_asym.
      apply (F_ltb_trans _ (Number.value (Number.lit (-0.15))) _ H).
      vm_compute. reflexivity. }
    rewrite E, H. reflexivity. }
  split; [intros H1 H2; rewrite H1, H2; reflexivity|].
  split.
  - intros Hagree Hopp. unfold r, Runtime.ProbabilityCombiner.combine.
    cbn [Runtime.ProbabilityCombiner.final_confidence Py.get
         Runtime.ProbabilityCombiner.layer
         Runtime.ProbabilityCombiner.lr_signal
         Runtime.ProbabilityCombiner.lr_confidence].
    unfold Runtime.ProbabilityCombiner.adjust.
    replace (ProbabilityCombiner.all_agree ss ms ns) with false.
    + replace (ProbabilityCombiner.disagree ss ms) with false; [reflexivity|].
      destruct ss, ms; try reflexivity; exfalso; apply Hopp; auto.
    + destruct ss, ms, ns; try reflexivity; exfalso; apply Hagree;
        repeat split; congruence.
  - vm_compute. repeat split.
Qed.

(** The rounding of the score is what the threshold sees: two BUY layers
    at confidence 20 and a NEUTRAL one give the float
    0.15000000000000002, above the threshold that the exact sum 0.15 does
    not pass, and the answer is BUY; the weighted average of 50, 50 and
    40.02, whose float is not below 47.505, is returned as 47.51. *)
Example combine_at_the_threshold :
  forall env : Interpreter.t,
    match Runtime.ProbabilityCombiner.__init__ None None None with
    | Ok defaults =>
        Runtime.ProbabilityCombiner.final_signal
          (Runtime.ProbabilityCombiner.combine env defaults
             (Runtime.ProbabilityCombiner.layer BUY (Number.int 20))
             (Runtime.ProbabilityCombiner.layer BUY (Number.int 20))
             (Runtime.ProbabilityCombiner.layer NEUTRAL (Number.int 0))) = BUY /\
        Runtime.ProbabilityCombiner.score defaults BUY (Number.int 20)
          BUY (Number.int 20) NEUTRAL (Number.int 0)
        = Number.lit 0.15000000000000002 /\
        Runtime.ProbabilityCombiner.final_confidence
          (Runtime.ProbabilityCombiner.combine env defaults
             (Runtime.ProbabilityCombiner.layer BUY (Number.int 50))
             (Runtime.ProbabilityCombiner.layer BUY (Number.int 50))
             (Runtime.ProbabilityCombiner.layer NEUTRAL (Number.lit 40.02)))
        = Number.lit 47.51 /\
        Runtime.ProbabilityCombiner.final_confidence
          (Runtime.ProbabilityCombiner.combine env defaults
             (Runtime.ProbabilityCombiner.layer BUY (Number.int 50))
             (Runtime.ProbabilityCombiner.layer BUY (Number.int 50))
             (Runtime.ProbabilityCombiner.layer BUY (Number.lit 40.02)))
        = Number.lit 62.51 /\
        Runtime.ProbabilityCombiner.final_confidence
          (Runtime.ProbabilityCombiner.combine env defaults
             (Runtime.ProbabilityCombiner.layer BUY (Number.int 50))
             (Runtime.ProbabilityCombiner.layer SELL (Number.int 50))
             (Runtime.ProbabilityCombiner.layer NEUTRAL (Number.lit 40.02)))
        = Number.lit 27.51
    | Raise _ => False
    end.
Proof. intro env. vm_compute. repeat split. Qed.

(** C2.  For every input, a missing signal read as NEUTRAL and a missing
    confidence as 0, and whatever the interpreter's rounding of numpy
    scalars is: when the three signals are identical and not NEUTRAL,
    [combine] adds 15 to the weighted confidence and caps the sum at 100
    ([min(100, .)]); when the strategy and ml signals are BUY and SELL in
    either order, whatever the news signal, it subtracts 20 and floors the
    difference at 0 ([max(0, .)]); no input meets both conditions, and an
    input that meets neither keeps the weighted confidence.  The
    operations are those of binary64 arithmetic, and the confidence
    returned is the adjusted one rounded to two decimals. *)
Theorem combine_adjustments :
  forall (env : Interpreter.t) (self : Runtime.ProbabilityCombiner.t)
         (strategy_result ml_result news_result
            : Runtime.ProbabilityCombiner.LayerResult),
    let ss := Py.get (Runtime.ProbabilityCombiner.lr_signal strategy_result) NEUTRAL in
    let ms := Py.get (Runtime.ProbabilityCombiner.lr_signal ml_result) NEUTRAL in
    let ns := Py.get (Runtime.ProbabilityCombiner.lr_signal news_result) NEUTRAL in
    let sc := Py.get (Runtime.ProbabilityCombiner.lr_confidence strategy_result)
                (Number.int 0) in
    let mc := Py.get (Runtime.ProbabilityCombiner.lr_confidence ml_result)
                (Number.int 0) in
    let nc := Py.get (Runtime.ProbabilityCombiner.lr_confidence news_result)
                (Number.int 0) in
    let r := Runtime.ProbabilityCombiner.combine env self strategy_result ml_result
               news_result in
    let average :=
      (sc * Runtime.ProbabilityCombiner.strategy_weight self
       + mc * Runtime.ProbabilityCombiner.ml_weight self
       + nc * Runtime.ProbabilityCombiner.news_weight self)%num in
    let agree := ss = ms /\ ms = ns /\ ss <> NEUTRAL in
    let opposite := (ss = BUY /\ ms = SELL) \/ (ss = SELL /\ ms = BUY) in
    (agree ->
       Runtime.ProbabilityCombiner.final_confidence r
       = Interpreter.round env
           (Number.min (Number.int 100) (average + Number.int 15)%num) 2) /\
    (opposite ->
       Runtime.ProbabilityCombiner.final_confidence r
       = Interpreter.round env
           (Number.max (Number.int 0) (average - Number.int 20)%num) 2) /\
    ~ (agree /\ opposite) /\
    (~ agree -> ~ opposite ->
       Runtime.ProbabilityCombiner.final_confidence r
       = Interpreter.round env average 2).
Proof.
  intros env self strategy_result ml_result news_result ss ms ns sc mc nc r
    average agree opposite.
  assert (Hr : Runtime.ProbabilityCombiner.final_confidence r
               = Interpreter.round env
                   (Runtime.ProbabilityCombiner.adjust ss ms ns average) 2)
    by reflexivity.
  rewrite Hr. unfold Runtime.ProbabilityCombiner.adjust.
  destruct (ProbabilityCombiner.all_agree ss ms ns) eqn:Ea;
    destruct (ProbabilityCombiner.disagree ss ms) eqn:Ed.
  - apply all_agree_iff in Ea. apply disagree_iff in Ed.
    exfalso. destruct Ea as (E1 & E2 & E3).
    destruct Ed as [[H1 H2] | [H1 H2]]; congruence.
  - assert (Hno : ~ opposite)
      by (intro H; apply disagree_iff in H; congruence).
    apply all_agree_iff in Ea.
    repeat split.
    + intro H. contradiction.
    + intros [_ H]. contradiction.
    + intros H. contradiction.
  - assert (Hno : ~ agree)
      by (intro H; apply all_agree_iff in H; congruence).
    apply disagree_iff in Ed.
    repeat split.
    + intro H. contradiction.
    + intros [H _]. contradiction.
    + intros _ H. contradiction.
  - assert (Hna : ~ agree)
      by (intro H; apply all_agree_iff in H; congruence).
    assert (Hno : ~ opposite)
      by (intro H; apply disagree_iff in H; congruence).
    repeat split.
    + intro H. contradiction.
    + intro H. contradiction.
    + intros [H _]. contradiction.
Qed.






(** C10 as stated fails in its last part: a weight that is not zero can be
    stored as zero.  With the weights 1e-300, 1e300 and 1 the quotient of
    the first by the total is below the smallest binary64 number and is
    rounded to 0. *)
Lemma init_stores_a_zero_weight :
  exists c,
    Runtime.ProbabilityCombiner.__init__
      (Some (Number.lit 1e-300)) (Some (Number.lit 1e300)) (Some (Number.int 1))
    = Ok c /\
    Number.truthy (Number.lit 1e-300) = true /\
    Runtime.ProbabilityCombiner.strategy_weight c = Number.float (Num 0).
Proof.
  eexists. split; [vm_compute; reflexivity|]. split; reflexivity.
Qed.

(** ** The strategy aggregator *)

Lemma runtime_strategy_counts_partition
  (results : list Runtime.StrategyManager.StrategyResult) :
  (Py.count (Runtime.StrategyManager.has_signal BUY) results
   + Py.count (Runtime.StrategyManager.has_signal SELL) results
   + Py.count (Runtime.StrategyManager.has_signal NEUTRAL) results
   = List.length results)%nat.
Proof.
  unfold Py.count, Runtime.StrategyManager.has_signal.
  induction results as [|x xs IH]; [reflexivity|].
  cbn [filter List.length].
  destruct (Runtime.StrategyManager.signal x); cbn [Signal_eqb List.length]; lia.
Qed.

Lemma runtime_combine_strategies_nonempty (env : Interpreter.t)
  (results : list Runtime.StrategyManager.StrategyResult) :
  results <> [] ->
  Runtime.StrategyManager.c_signal
    (Runtime.StrategyManager._combine_strategies env results)
  = fst (Runtime.StrategyManager.decide env results) /\
  Runtime.StrategyManager.avg_confidence
    (Runtime.StrategyManager._combine_strategies env results)
  = Interpreter.round env (snd (Runtime.StrategyManager.decide env results)) 2.
Proof.
  intro H. destruct results as [|x xs]; [congruence|].
  unfold Runtime.StrategyManager._combine_strategies.
  destruct (Runtime.StrategyManager.decide env (x :: xs)) as [sig conf].
  split; reflexivity.
Qed.

(** C4.  For six strategy results, whatever the interpreter's [sum] and
    rounding of numpy scalars are, [_combine_strategies] answers BUY when
    the BUY count is strictly the largest of the three counts, SELL when
    the SELL count is, and NEUTRAL otherwise, ties for the largest count
    included.  With [average] the sum of the six confidences divided by 6,
    the confidence is [average + (count / 6) * 20] capped at 100
    ([min(100, .)]) for BUY and SELL, and
    [average - (1 - max_count / 6) * 30] floored at 0 ([max(0, .)]) for
    NEUTRAL, each operation in binary64 arithmetic; it is returned rounded
    to two decimals. *)
Theorem combine_strategies_majority :
  forall (env : Interpreter.t)
         (results : list Runtime.StrategyManager.StrategyResult),
    List.length results = 6%nat ->
    let b := Py.count (Runtime.StrategyManager.has_signal BUY) results in
    let s := Py.count (Runtime.StrategyManager.has_signal SELL) results in
    let n := Py.count (Runtime.StrategyManager.has_signal NEUTRAL) results in
    let count (k : nat) : Number.t := Number.int (Z.of_nat k) in
    let average :=
      (Interpreter.sum env (map Runtime.StrategyManager.confidence results)
       / Number.int 6)%num in
    let r := Runtime.StrategyManager._combine_strategies env results in
    (b + s + n = 6)%nat /\
    ((s < b)%nat /\ (n < b)%nat ->
       Runtime.StrategyManager.c_signal r = BUY /\
       Runtime.StrategyManager.avg_confidence r
       = Interpreter.round env
           (Number.min (Number.int 100)
              (average + count b / Number.int 6 * Number.int 20)%num) 2) /\
    ((b < s)%nat /\ (n < s)%nat ->
       Runtime.StrategyManager.c_signal r = SELL /\
       Runtime.StrategyManager.avg_confidence r
       = Interpreter.round env
           (Number.min (Number.int 100)
              (average + count s / Number.int 6 * Number.int 20)%num) 2) /\
    (~ ((s < b)%nat /\ (n < b)%nat) -> ~ ((b < s)%nat /\ (n < s)%nat) ->
       Runtime.StrategyManager.c_signal r = NEUTRAL /\
       Runtime.StrategyManager.avg_confidence r
       = Interpreter.round env
           (Number.max (Number.int 0)
              (average
               - (Number.int 1 - count (Nat.max (Nat.max b s) n) / Number.int 6)
                 * Number.int 30)%num) 2).
Proof.
  intros env results Hlen b s n count average r.
  assert (Hne : results <> []) by (intro E; subst results; discriminate).
  destruct (runtime_combine_strategies_nonempty env results Hne) as [Hsig Hconf].
  fold r in Hsig, Hconf. rewrite Hsig, Hconf.
  assert (Hpart := runtime_strategy_counts_partition results).
  rewrite Hlen in Hpart. fold b s n in Hpart.
  split; [exact Hpart|].
  unfold Runtime.StrategyManager.decide. rewrite Hlen.
  change (Runtime.StrategyManager.of_nat 6) with (Number.int 6).
  fold b s n average.
  destruct ((s <? b)%nat && (n <? b)%nat) eqn:Eb.
  - apply andb_true_iff in Eb. destruct Eb as [E1 E2].
    apply Nat.ltb_lt in E1, E2. cbn [fst snd].
    repeat split; intros; first [reflexivity | exfalso; lia].
  - assert (Hnb : ~ ((s < b)%nat /\ (n < b)%nat)).
    { intros [H1 H2]. apply Nat.ltb_lt in H1, H2.
      rewrite H1, H2 in Eb. discriminate. }
    destruct ((b <? s)%nat && (n <? s)%nat) eqn:Es.
    + apply andb_true_iff in Es. destruct Es as [E1 E2].
      apply Nat.ltb_lt in E1, E2. cbn [fst snd].
      repeat split; intros; first [reflexivity | exfalso; lia].
    + assert (Hns : ~ ((b < s)%nat /\ (n < s)%nat)).
      { intros [H1 H2]. apply Nat.ltb_lt in H1, H2.
        rewrite H1, H2 in Es. discriminate. }
      cbn [fst snd].
      repeat split; intros; first [reflexivity | exfalso; tauto].
Qed.

Lemma combine_strategies_majority_witness :
  Runtime.StrategyManager.c_signal
    (Runtime.StrategyManager._combine_strategies Interpreter.reference
       RuntimeSamples.six_results) = BUY /\
  Runtime.StrategyManager.avg_confidence
    (Runtime.StrategyManager._combine_strategies Interpreter.reference
       RuntimeSamples.six_results) = Number.float64 (F64.lit 67.33).
Proof.
  destruct (combine_strategies_majority Interpreter.reference
              RuntimeSamples.six_results eq_refl) as (_ & Hb & _).
  destruct Hb as [H1 H2]; [cbn; lia|].
  split; [exact H1|]. rewrite H2. vm_compute. reflexivity.
Defined.

(** Six BUY results at 50, 50, 50, 50, 50 and 50.15: the average plus the
    boost is the float next above 70.025, and 70.03 is returned. *)
Example combine_strategies_rounds_the_float :
  Runtime.StrategyManager.avg_confidence
    (Runtime.StrategyManager._combine_strategies Interpreter.reference
       RuntimeSamples.six_buys) = Number.lit 70.03.
Proof. vm_compute. reflexivity. Qed.

(** ** The classifier ensemble aggregator *)

Lemma runtime_combine_predictions_nonempty (env : Interpreter.t)
  (predictions : list Runtime.MLModelPredictor.Prediction) :
  predictions <> [] ->
  Runtime.MLModelPredictor.c_signal
    (Runtime.MLModelPredictor._combine_predictions env predictions)
  = fst (Runtime.MLModelPredictor.decide env predictions) /\
  Runtime.MLModelPredictor.avg_confidence
    (Runtime.MLModelPredictor._combine_predictions env predictions)
  = Interpreter.round env (snd (Runtime.MLModelPredictor.decide env predictions)) 2.
Proof.
  intro H. destruct predictions as [|x xs]; [congruence|].
  unfold Runtime.MLModelPredictor._combine_predictions.
  destruct (Runtime.MLModelPredictor.decide env (x :: xs)) as [sig conf].
  split; reflexivity.
Qed.

(** C5, as the code has it.  An empty vote list gives NEUTRAL with
    confidence 0.  For a list of [n > 0] votes, whatever the interpreter's
    [sum] and rounding of numpy scalars are, BUY wins when its count is
    strictly larger than the SELL count and SELL when its count is strictly
    larger, with confidence [average + (count / n) * 15] capped at 100
    ([min(100, .)]); when the two counts are equal the answer is NEUTRAL
    with confidence [average - 20] raised to 20 when it is below 20
    ([max(20, .)]).  The operations are those of binary64 arithmetic, and
    the confidence is returned rounded to two decimals. *)
Theorem combine_predictions_votes :
  forall (env : Interpreter.t) (p : Runtime.MLModelPredictor.Prediction)
         (ps : list Runtime.MLModelPredictor.Prediction),
    let predictions := p :: ps in
    let b := Py.count (Runtime.MLModelPredictor.has_signal BUY) predictions in
    let s := Py.count (Runtime.MLModelPredictor.has_signal SELL) predictions in
    let count (k : nat) : Number.t := Number.int (Z.of_nat k) in
    let n := count (List.length predictions) in
    let average :=
      (Interpreter.sum env (map Runtime.MLModelPredictor.confidence predictions)
       / n)%num in
    let r := Runtime.MLModelPredictor._combine_predictions env predictions in
    (Runtime.MLModelPredictor.c_signal
       (Runtime.MLModelPredictor._combine_predictions env []) = NEUTRAL /\
     Runtime.MLModelPredictor.avg_confidence
       (Runtime.MLModelPredictor._combine_predictions env []) = Number.int 0) /\
    (Number.int 0 <? n)%num = true /\
    ((s < b)%nat ->
       Runtime.MLModelPredictor.c_signal r = BUY /\
       Runtime.MLModelPredictor.avg_confidence r
       = Interpreter.round env
           (Number.min (Number.int 100)
              (average + count b / n * Number.int 15)%num) 2) /\
    ((b < s)%nat ->
       Runtime.MLModelPredictor.c_signal r = SELL /\
       Runtime.MLModelPredictor.avg_confidence r
       = Interpreter.round env
           (Number.min (Number.int 100)
              (average + count s / n * Number.int 15)%num) 2) /\
    (b = s ->
       Runtime.MLModelPredictor.c_signal r = NEUTRAL /\
       Runtime.MLModelPredictor.avg_confidence r
       = Interpreter.round env
           (Number.max (Number.int 20) (average - Number.int 20)%num) 2).
Proof.
  intros env p ps predictions b s count n average r.
  split; [split; reflexivity|].
  split.
  { unfold n, count, Number.ltb, Number.int, Number.float, predictions.
    cbn [Number.value F.ltb List.length]. apply ltb_lt.
    change 0 with (inject_Z 0). rewrite <- Zlt_Qlt. lia. }
  assert (Hne : predictions <> []) by discriminate.
  destruct (runtime_combine_predictions_nonempty env predictions Hne)
    as [Hsig Hconf].
  fold r in Hsig, Hconf. rewrite Hsig, Hconf.
  unfold Runtime.MLModelPredictor.decide.
  change (Runtime.MLModelPredictor.of_nat (List.length predictions)) with n.
  fold b s average.
  destruct (s <? b)%nat eqn:Eb.
  - apply Nat.ltb_lt in Eb. cbn [fst snd].
    repeat split; intros; first [reflexivity | exfalso; lia].
  - apply Nat.ltb_ge in Eb.
    destruct (b <? s)%nat eqn:Es.
    + apply Nat.ltb_lt in Es. cbn [fst snd].
      repeat split; intros; first [reflexivity | exfalso; lia].
    + apply Nat.ltb_ge in Es. cbn [fst snd].
      repeat split; intros; first [reflexivity | exfalso; lia].
Qed.

(** C5 as stated fails: with one BUY vote and one SELL vote at confidence
    30 the average is 30 and the code answers NEUTRAL at 20, where a floor
    of 0 gives 10; at confidence 10 the code answers 20 again, above the
    average it started from, where a floor of 0 gives 0. *)
Lemma combine_predictions_floor_is_20 :
  (Runtime.MLModelPredictor.c_signal
     (Runtime.MLModelPredictor._combine_predictions Interpreter.reference
        RuntimeSamples.split_votes) = NEUTRAL /\
   Runtime.MLModelPredictor.avg_confidence
     (Runtime.MLModelPredictor._combine_predictions Interpreter.reference
        RuntimeSamples.split_votes) = Number.int 20 /\
   Interpreter.round Interpreter.reference
     (Number.max (Number.int 0) (Number.lit 30.0 - Number.int 20)%num) 2
   = Number.lit 10.0 /\
   Number.eqb
     (Runtime.MLModelPredictor.avg_confidence
        (Runtime.MLModelPredictor._combine_predictions Interpreter.reference
           RuntimeSamples.split_votes)) (Number.lit 10.0) = false) /\
  (Runtime.MLModelPredictor.avg_confidence
     (Runtime.MLModelPredictor._combine_predictions Interpreter.reference
        RuntimeSamples.weak_split_votes) = Number.int 20 /\
   Interpreter.round Interpreter.reference
     (Number.max (Number.int 0) (Number.lit 10.0 - Number.int 20)%num) 2
   = Number.int 0 /\
   Number.eqb
     (Runtime.MLModelPredictor.avg_confidence
        (Runtime.MLModelPredictor._combine_predictions Interpreter.reference
           RuntimeSamples.weak_split_votes)) (Number.int 0) = false).
Proof.
  vm_compute. repeat split.
Qed.

(** Two BUY votes at 50.0 and 61.37: 70.69 is returned. *)
Example combine_predictions_rounds_the_float :
  Runtime.MLModelPredictor.avg_confidence
    (Runtime.MLModelPredictor._combine_predictions Interpreter.reference
       [RuntimeSamples.vote BUY (Number.lit 50.0);
        RuntimeSamples.vote BUY (Number.lit 61.37)]) = Number.lit 70.69.
Proof. vm_compute. reflexivity. Qed.

(** ** The sentiment aggregator *)

(** C8, as the code has it.  The sources that are present are the fear and
    greed reading, entered with its confidence times 0.3, and the news,
    entered when at least one item has a score that is not zero, with the
    average of those scores and the average confidence of all items times
    0.7; an absent source enters nothing.  When the entered confidences
    have a positive sum [total], the score is the sum of score *
    confidence * weight divided by [total], the signal is BUY when that
    score is above 0.2, SELL when it is below -0.2 and NEUTRAL otherwise,
    and the confidence is [total] divided by the number of sources,
    rounded to two decimals; the operations are those of binary64
    arithmetic, whatever the interpreter's [sum] and rounding of numpy
    scalars are.  Otherwise, and with no source at all, the result is
    NEUTRAL at confidence 0. *)
Theorem aggregated_sentiment_weighting :
  forall (env : Interpreter.t)
         (fg_index : option Runtime.NewsSentimentFetcher.FearGreed)
         (news : list Runtime.NewsSentimentFetcher.NewsItem),
    let count (k : nat) : Number.t := Number.int (Z.of_nat k) in
    let scores :=
      filter (fun s => negb (Number.eqb s (Number.int 0)))
        (map Runtime.NewsSentimentFetcher.n_sentiment_score news) in
    let fg_part :=
      match fg_index with
      | Some fg =>
          [ {| Runtime.NewsSentimentFetcher.score :=
                 Runtime.NewsSentimentFetcher.fg_sentiment_score fg;
               Runtime.NewsSentimentFetcher.confidence :=
                 (Runtime.NewsSentimentFetcher.fg_confidence fg
                  * Number.lit 0.3)%num;
               Runtime.NewsSentimentFetcher.source := "fear_greed" |} ]
      | None => []
      end in
    let news_part :=
      match scores with
      | [] => []
      | _ =>
          [ {| Runtime.NewsSentimentFetcher.score :=
                 (Interpreter.sum env scores / count (List.length scores))%num;
               Runtime.NewsSentimentFetcher.confidence :=
                 (Interpreter.sum env
                    (map Runtime.NewsSentimentFetcher.n_confidence news)
                  / count (List.length news) * Number.lit 0.7)%num;
               Runtime.NewsSentimentFetcher.source := "cryptopanic" |} ]
      end in
    let sentiments := Runtime.NewsSentimentFetcher.collect env fg_index news in
    let total :=
      Interpreter.sum env
        (map Runtime.NewsSentimentFetcher.confidence sentiments) in
    let r :=
      Runtime.NewsSentimentFetcher.get_aggregated_sentiment env fg_index news in
    sentiments = fg_part ++ news_part /\
    (sentiments <> [] -> (Number.int 0 <? total)%num = true ->
       let weighted_score :=
         (Interpreter.sum env
            (map (fun s => Runtime.NewsSentimentFetcher.score s
                           * Runtime.NewsSentimentFetcher.confidence s)
               sentiments)
          / total)%num in
       Runtime.NewsSentimentFetcher.sentiment_score r = weighted_score /\
       Runtime.NewsSentimentFetcher.a_confidence r
       = Interpreter.round env (total / count (List.length sentiments))%num 2 /\
       Runtime.NewsSentimentFetcher.num_sources r = List.length sentiments /\
       ((Number.lit 0.2 <? weighted_score)%num = true ->
          Runtime.NewsSentimentFetcher.signal r = BUY) /\
       ((weighted_score <? Number.lit (-0.2))%num = true ->
          Runtime.NewsSentimentFetcher.signal r = SELL) /\
       ((Number.lit 0.2 <? weighted_score)%num = false ->
        (weighted_score <? Number.lit (-0.2))%num = false ->
          Runtime.NewsSentimentFetcher.signal r = NEUTRAL)) /\
    (sentiments = [] \/ (Number.int 0 <? total)%num = false ->
       r = Runtime.NewsSentimentFetcher.neutral) /\
    Runtime.NewsSentimentFetcher.get_aggregated_sentiment env None []
    = Runtime.NewsSentimentFetcher.neutral /\
    Runtime.NewsSentimentFetcher.signal Runtime.NewsSentimentFetcher.neutral
    = NEUTRAL /\
    Runtime.NewsSentimentFetcher.a_confidence Runtime.NewsSentimentFetcher.neutral
    = Number.int 0.
Proof.
  intros env fg_index news count scores fg_part news_part sentiments total r.
  assert (Hcollect : sentiments = fg_part ++ news_part).
  { unfold sentiments, Runtime.NewsSentimentFetcher.collect. fold fg_part.
    destruct news as [|x xs].
    - cbn. rewrite app_nil_r. reflexivity.
    - fold scores. unfold news_part.
      destruct scores; [rewrite app_nil_r|]; reflexivity. }
  split; [exact Hcollect|].
  split; [|split; [|repeat split]].
  - intros Hne Hpos weighted_score.
    unfold r, Runtime.NewsSentimentFetcher.get_aggregated_sentiment.
    fold sentiments.
    destruct sentiments as [|s0 rest] eqn:Es; [congruence|].
    fold total. rewrite Hpos.
    cbn [Runtime.NewsSentimentFetcher.sentiment_score
         Runtime.NewsSentimentFetcher.a_confidence
         Runtime.NewsSentimentFetcher.num_sources
         Runtime.NewsSentimentFetcher.signal].
    fold weighted_score.
    split; [reflexivity|]. split; [reflexivity|]. split; [reflexivity|].
    unfold Runtime.NewsSentimentFetcher.signal_of_score.
    split; [intro H; rewrite H; reflexivity|].
    split; [|intros H1 H2; rewrite H1, H2; reflexivity].
    intro H.
    assert (E : (Number.lit 0.2 <? weighted_score)%num = false).
    { apply F_ltb_asym.
      apply (F_ltb_trans _ (Number.value (Number.lit (-0.2))) _ H).
      vm_compute. reflexivity. }
    rewrite E, H. reflexivity.
  - intros [Hnil | Hle];
      unfold r, Runtime.NewsSentimentFetcher.get_aggregated_sentiment;
      fold sentiments.
    + rewrite Hnil. reflexivity.
    + destruct sentiments as [|s0 rest] eqn:Es; [reflexivity|].
      fold total. rewrite Hle. reflexivity.
Qed.

(** C8 as stated fails: the confidence is not the average of the
    confidences the sources report.  With the index at 100 (confidence
    100) as the only source the code answers 30, not 100; with a news item
    of confidence 80 besides, it answers 43, not 90. *)
Lemma aggregated_confidence_is_weighted :
  (Runtime.NewsSentimentFetcher.fg_confidence RuntimeSamples.extreme_greed
   = Number.int 100 /\
   Runtime.NewsSentimentFetcher.a_confidence
     (Runtime.NewsSentimentFetcher.get_aggregated_sentiment Interpreter.reference
        (Some RuntimeSamples.extreme_greed) []) = Number.lit 30.0 /\
   Number.eqb
     (Runtime.NewsSentimentFetcher.a_confidence
        (Runtime.NewsSentimentFetcher.get_aggregated_sentiment
           Interpreter.reference (Some RuntimeSamples.extreme_greed) []))
     (Number.int 100) = false) /\
  (Runtime.NewsSentimentFetcher.a_confidence
     (Runtime.NewsSentimentFetcher.get_aggregated_sentiment Interpreter.reference
        (Some RuntimeSamples.extreme_greed) [RuntimeSamples.headline])
   = Number.lit 43.0 /\
   (Interpreter.sum Interpreter.reference [Number.int 100; Number.lit 80.0]
    / Number.int 2)%num = Number.lit 90.0 /\
   Number.eqb
     (Runtime.NewsSentimentFetcher.a_confidence
        (Runtime.NewsSentimentFetcher.get_aggregated_sentiment
           Interpreter.reference (Some RuntimeSamples.extreme_greed)
           [RuntimeSamples.headline]))
     (Number.lit 90.0) = false).
Proof.
  vm_compute. repeat split.
Qed.

(** The index at 60, with no news: the exact score is 0.2, the float the
    code computes is 0.20000000000000004, and the answer is BUY; at 40 it
    is SELL. *)
Example aggregated_sentiment_at_the_threshold :
  Runtime.NewsSentimentFetcher.signal
    (Runtime.NewsSentimentFetcher.get_aggregated_sentiment Interpreter.reference
       (Some (Runtime.NewsSentimentFetcher.fear_greed_of_value 60)) []) = BUY /\
  Runtime.NewsSentimentFetcher.sentiment_score
    (Runtime.NewsSentimentFetcher.get_aggregated_sentiment Interpreter.reference
       (Some (Runtime.NewsSentimentFetcher.fear_greed_of_value 60)) [])
  = Number.lit 0.20000000000000004 /\
  Runtime.NewsSentimentFetcher.signal
    (Runtime.NewsSentimentFetcher.get_aggregated_sentiment Interpreter.reference
       (Some (Runtime.NewsSentimentFetcher.fear_greed_of_value 40)) []) = SELL.
Proof. vm_compute. repeat split. Qed.

(** ** The order of the floats and the operations that keep it *)

Lemma fle_trans (a b c : fval) : fle a b -> fle b c -> fle a c.
Proof.
  unfold fle.
  destruct a as [x| |[|]], b as [y| |[|]], c as [z| |[|]]; cbn; intros H1 H2;
    try discriminate; try reflexivity.
  apply Qle_bool_iff in H1. apply Qle_bool_iff in H2. apply Qle_bool_iff. lra.
Qed.

Lemma fle_num (x y : Q) : fle (Num x) (Num y) <-> x <= y.
Proof. unfold fle. cbn. apply Qle_bool_iff. Qed.

Lemma pow2_1024_pos : 0 < 2 ^ 1024.
Proof. apply pow2_pos. Qed.

Lemma rnd_cases (q : Q) :
  (Binary64.rnd q = Num (Binary64.nearest q) /\
   Qabs (Binary64.nearest q) < 2 ^ 1024) \/
  (Binary64.rnd q = Inf true /\ 2 ^ 1024 <= Binary64.nearest q) \/
  (Binary64.rnd q = Inf false /\ Binary64.nearest q <= - 2 ^ 1024).
Proof.
  unfold Binary64.rnd. cbv zeta.
  set (r := Binary64.nearest q). set (M := 2 ^ 1024).
  assert (HM : 0 < M) by apply pow2_pos.
  destruct (Qle_bool M (Qabs r)) eqn:E.
  - apply Qle_bool_iff in E. right.
    destruct (Qle_bool 0 r) eqn:S.
    + apply Qle_bool_iff in S. left. split; [reflexivity|].
      rewrite Qabs_pos in E; assumption.
    + right. split; [reflexivity|].
      assert (Hr : r < 0).
      { apply Qnot_le_lt. intro H. apply Qle_bool_iff in H. congruence. }
      rewrite Qabs_neg in E; lra.
  - left. split; [reflexivity|].
    apply Qnot_le_lt. intro H. apply Qle_bool_iff in H. congruence.
Qed.

(** Rounding an exact result keeps the order. *)
Lemma rnd_mono (x y : Q) : x <= y -> fle (Binary64.rnd x) (Binary64.rnd y).
Proof.
  intro H. pose proof (nearest_mono x y H) as Hn.
  pose proof pow2_1024_pos as HM.
  destruct (rnd_cases x) as [[Ex Bx] | [[Ex Bx] | [Ex Bx]]];
    destruct (rnd_cases y) as [[Ey By] | [[Ey By] | [Ey By]]];
    rewrite Ex, Ey; unfold fle; cbn; try reflexivity.
  - apply Qle_bool_iff. exact Hn.
  - exfalso. apply Qabs_Qlt_condition in Bx. lra.
  - exfalso. apply Qabs_Qlt_condition in By. lra.
  - exfalso. lra.
Qed.

Lemma rnd_comp (x y : Q) : x == y -> Binary64.rnd x = Binary64.rnd y.
Proof.
  intro H. unfold Binary64.rnd. rewrite (nearest_comp x y H). reflexivity.
Qed.

Lemma fl_mono (a b : fval) : fle a b -> fle (F64.fl a) (F64.fl b).
Proof.
  destruct a as [x| |[|]], b as [y| |[|]]; unfold fle; cbn [F64.fl F.leb];
    intro H; try discriminate; try reflexivity.
  - apply rnd_mono. apply Qle_bool_iff. exact H.
  - destruct (rnd_cases x) as [[E _] | [[E _] | [E _]]]; rewrite E; reflexivity.
  - destruct (rnd_cases y) as [[E _] | [[E _] | [E _]]]; rewrite E; reflexivity.
Qed.

Lemma add_mono_r (p : Q) (b c : fval) :
  fle b c -> fle (F64.add (Num p) b) (F64.add (Num p) c).
Proof.
  intro H. apply fl_mono. revert H.
  destruct b as [y| |[|]], c as [z| |[|]]; unfold fle; cbn; intro H;
    try discriminate; try reflexivity.
  apply Qle_bool_iff in H. apply Qle_bool_iff. lra.
Qed.

Lemma sub_anti_r (p : Q) (b c : fval) :
  fle b c -> fle (F64.sub (Num p) c) (F64.sub (Num p) b).
Proof.
  intro H. apply fl_mono. revert H.
  destruct b as [y| |[|]], c as [z| |[|]]; unfold fle; cbn; intro H;
    try discriminate; try reflexivity.
  apply Qle_bool_iff in H. apply Qle_bool_iff. lra.
Qed.

Lemma mul_mono_l (a b : fval) (s : Q) :
  0 < s -> fle a b -> fle (F64.mul a (Num s)) (F64.mul b (Num s)).
Proof.
  intros Hs H. apply fl_mono. revert H.
  assert (Es : Qeq_bool s 0 = false).
  { destruct (Qeq_bool s 0) eqn:E; [|reflexivity].
    apply Qeq_bool_iff in E. lra. }
  assert (Ps : Py.ltb 0 s = true) by (apply ltb_lt; exact Hs).
  destruct a as [x| |[|]], b as [y| |[|]]; unfold fle; cbn;
    rewrite ?Es, ?Ps; cbn; intro H; try discriminate; try reflexivity.
  apply Qle_bool_iff in H. apply Qle_bool_iff. nra.
Qed.

Lemma div_mono_l (a b : fval) (s : Q) :
  0 < s -> fle a b -> fle (F64.div a (Num s)) (F64.div b (Num s)).
Proof.
  intros Hs H. apply fl_mono. revert H.
  assert (Es : Qeq_bool s 0 = false).
  { destruct (Qeq_bool s 0) eqn:E; [|reflexivity].
    apply Qeq_bool_iff in E. lra. }
  assert (Ps : Qle_bool 0 s = true) by (apply Qle_bool_iff; lra).
  destruct a as [x| |[|]], b as [y| |[|]]; unfold fle; cbn;
    rewrite ?Es, ?Ps; cbn; intro H; try discriminate; try reflexivity.
  apply Qle_bool_iff in H. apply Qle_bool_iff.
  apply Qmult_le_compat_r; [exact H|].
  apply Qlt_le_weak, Qinv_lt_0_compat. exact Hs.
Qed.

Lemma rint_mono (a b : fval) : fle a b -> fle (F64.rint a) (F64.rint b).
Proof.
  destruct a as [x| |[|]], b as [y| |[|]]; unfold fle; cbn; intro H;
    try discriminate; try reflexivity.
  apply Qle_bool_iff in H. apply Qle_bool_iff. rewrite <- Zle_Qle.
  apply round_half_even_mono. exact H.
Qed.

(** The rounding numpy documents keeps the order. *)
Lemma reference_monotone : Interpreter.monotone Interpreter.reference.
Proof.
  intros a b n H. cbn [Interpreter.np_round Interpreter.reference].
  unfold F64.np_round. destruct n as [|n]; [apply rint_mono; exact H|].
  assert (Hs : 0 < inject_Z (10 ^ Z.of_nat (S n))) by apply scale_pos.
  apply div_mono_l; [exact Hs|]. apply rint_mono.
  apply mul_mono_l; [exact Hs | exact H].
Qed.

(** Python's rounding keeps the order too. *)
Lemma py_round_mono (a b : fval) (n : nat) :
  fle a b -> fle (F64.py_round a n) (F64.py_round b n).
Proof.
  destruct a as [x| |[|]], b as [y| |[|]]; unfold fle; cbn [F64.py_round F.leb];
    intro H; try discriminate; try reflexivity.
  - apply rnd_mono. apply round_mono. apply Qle_bool_iff. exact H.
  - destruct (rnd_cases (Py.round x n)) as [[E _] | [[E _] | [E _]]];
      rewrite E; reflexivity.
  - destruct (rnd_cases (Py.round y n)) as [[E _] | [[E _] | [E _]]];
      rewrite E; reflexivity.
Qed.

(** A number between two floats is rounded between them. *)
Lemma rnd_between (lo hi q : Q) :
  Binary64.rnd lo = Num lo -> Binary64.rnd hi = Num hi ->
  lo <= q <= hi ->
  exists r, Binary64.rnd q = Num r /\ lo <= r <= hi.
Proof.
  intros Hlo Hhi [H1 H2].
  pose proof (rnd_mono lo q H1) as L. pose proof (rnd_mono q hi H2) as U.
  rewrite Hlo in L. rewrite Hhi in U.
  destruct (Binary64.rnd q) as [r| |[|]]; unfold fle in *; cbn in *;
    try discriminate.
  exists r. split; [reflexivity|].
  split; apply Qle_bool_iff; assumption.
Qed.

(** ** The target price calculator *)

Lemma runtime_last_close (df : DataFrame) (last : Candle) :
  iloc_last df = Ok last ->
  Runtime.TargetPriceCalculator.last_close df
  = Ok (Number.float64 (Num (close last))).
Proof.
  intro H. unfold Runtime.TargetPriceCalculator.last_close.
  rewrite (iloc_last_map close df last H). reflexivity.
Qed.

(** For a confidence between 0 and 100 the confidence factor is a float
    between 0.5 and 2. *)
Lemma confidence_factor_between (confidence : Number.t) (c : Q) :
  Number.value confidence = Num c -> 0 <= c <= 100 ->
  exists f,
    Number.value (Runtime.TargetPriceCalculator.confidence_factor_of confidence)
    = Num f /\ 0.5 <= f <= 2.
Proof.
  intros Hc [C0 C1].
  unfold Runtime.TargetPriceCalculator.confidence_factor_of.
  cbn [Number.add Number.mul Number.div Number.lift2 Number.value Number.int
       Number.lit Number.float].
  rewrite Hc. unfold F64.div. cbn [F.div].
  replace (Qeq_bool (inject_Z 100) 0) with false by reflexivity.
  cbn [F64.fl].
  destruct (rnd_between 0 1 (c / inject_Z 100)) as (u & Eu & U0 & U1);
    [reflexivity | reflexivity | |].
  { change (inject_Z 100) with 100. split.
    - apply Qle_shift_div_l; lra.
    - apply Qle_shift_div_r; lra. }
  rewrite Eu. unfold F64.mul, F64.lit.
  replace (Binary64.rnd 1.5) with (Num (3 # 2)) by (vm_compute; reflexivity).
  cbn [F.mul F64.fl].
  destruct (rnd_between 0 (3 # 2) (u * (3 # 2))) as (v & Ev & V0 & V1);
    [reflexivity | vm_compute; reflexivity | lra |].
  rewrite Ev. unfold F64.add.
  replace (Binary64.rnd 0.5) with (Num (1 # 2)) by (vm_compute; reflexivity).
  cbn [F.add F64.fl].
  destruct (rnd_between (1 # 2) 2 ((1 # 2) + v)) as (f & Ef & F0 & F1);
    [vm_compute; reflexivity | reflexivity | lra |].
  exists f. split; [exact Ef | lra].
Qed.

(** C6, as the code has it.  On a window whose last close is [price]:
    below the threshold, or on a NEUTRAL signal, [calculate_target] returns
    a null price and a null type with a reason, whatever the indicator
    would give; otherwise the target is [price + movement] with type HIGH
    for BUY and [price - movement] with type LOW for SELL, where
    [movement = atr * (0.5 + (confidence / 100) * 1.5)]; the operations
    are those of binary64 arithmetic and the target and the current price
    are returned rounded to two decimals by the [__round__] of numpy
    scalars.  When the close is a float, the confidence is between 0 and
    100, the average true range is a number that is not negative and that
    rounding keeps the order, the target returned is not below the current
    price returned for BUY, and not above it for SELL. *)
Theorem calculate_target_gate_and_direction :
  forall (env : Interpreter.t)
         (ta_atr : DataFrame -> Z -> result (list fval))
         (self : TargetPriceCalculator.t) (df : DataFrame) (last : Candle)
         (signal : Signal) (confidence min_confidence : Number.t),
    iloc_last df = Ok last ->
    let price := Number.float64 (Num (close last)) in
    let out := Runtime.TargetPriceCalculator.calculate_target env ta_atr self df
                 signal confidence min_confidence in
    ((confidence <? min_confidence)%num = true ->
       out = Some (Runtime.TargetPriceCalculator.gated price
                     (Runtime.TargetPriceCalculator.ConfidenceBelowThreshold
                        min_confidence))) /\
    ((confidence <? min_confidence)%num = false -> signal = NEUTRAL ->
       out = Some (Runtime.TargetPriceCalculator.gated price
                     Runtime.TargetPriceCalculator.SignalIsNeutral)) /\
    ((confidence <? min_confidence)%num = true \/ signal = NEUTRAL ->
       forall (env' : Interpreter.t)
              (other : DataFrame -> Z -> result (list fval)),
         Runtime.TargetPriceCalculator.calculate_target env' other self df signal
           confidence min_confidence = out) /\
    ((confidence <? min_confidence)%num = false -> signal <> NEUTRAL ->
       forall (series : list fval) (a : fval),
         ta_atr df (TargetPriceCalculator.atr_period self) = Ok series ->
         iloc_last series = Ok a ->
         let factor :=
           (Number.lit 0.5 + confidence / Number.int 100 * Number.lit 1.5)%num in
         let movement := (Number.float64 a * factor)%num in
         exists r target,
           out = Some r /\
           Runtime.TargetPriceCalculator.reason r = None /\
           Runtime.TargetPriceCalculator.target_price r = Some target /\
           Runtime.TargetPriceCalculator.current_price r
           = Interpreter.round env price 2 /\
           (signal = BUY ->
              target = Interpreter.round env (price + movement)%num 2 /\
              Runtime.TargetPriceCalculator.target_type r
              = Some TargetPriceCalculator.HIGH) /\
           (signal = SELL ->
              target = Interpreter.round env (price - movement)%num 2 /\
              Runtime.TargetPriceCalculator.target_type r
              = Some TargetPriceCalculator.LOW) /\
           (Interpreter.monotone env ->
            Binary64.rnd (close last) = Num (close last) ->
            forall c x : Q,
              Number.value confidence = Num c -> 0 <= c <= 100 ->
              a = Num x -> 0 <= x ->
              (signal = BUY ->
                 fle (Number.value (Runtime.TargetPriceCalculator.current_price r))
                     (Number.value target)) /\
              (signal = SELL ->
                 fle (Number.value target)
                     (Number.value
                        (Runtime.TargetPriceCalculator.current_price r))))).
Proof.
  intros env ta_atr self df last signal confidence min_confidence Hlast price out.
  pose proof (runtime_last_close df last Hlast) as Hclose. fold price in Hclose.
  assert (Hlow : (confidence <? min_confidence)%num = true ->
            forall e f,
              Runtime.TargetPriceCalculator.calculate_target e f self df signal
                confidence min_confidence
              = Some (Runtime.TargetPriceCalculator.gated price
                        (Runtime.TargetPriceCalculator.ConfidenceBelowThreshold
                           min_confidence))).
  { intros H e f.
    unfold Runtime.TargetPriceCalculator.calculate_target,
      Runtime.TargetPriceCalculator.attempt.
    rewrite H, Hclose. reflexivity. }
  assert (Hneutral : (confidence <? min_confidence)%num = false ->
            signal = NEUTRAL ->
            forall e f,
              Runtime.TargetPriceCalculator.calculate_target e f self df signal
                confidence min_confidence
              = Some (Runtime.TargetPriceCalculator.gated price
                        Runtime.TargetPriceCalculator.SignalIsNeutral)).
  { intros H Hs e f. subst signal.
    unfold Runtime.TargetPriceCalculator.calculate_target,
      Runtime.TargetPriceCalculator.attempt.
    rewrite H, Hclose. reflexivity. }
  split; [intro H; apply (Hlow H)|].
  split; [intros H Hs; apply (Hneutral H Hs)|].
  split.
  { intros H env' other. unfold out.
    destruct ((confidence <? min_confidence)%num) eqn:Hc.
    - rewrite (Hlow eq_refl env' other), (Hlow eq_refl env ta_atr). reflexivity.
    - destruct H as [H | H]; [discriminate|].
      rewrite (Hneutral eq_refl H env' other), (Hneutral eq_refl H env ta_atr).
      reflexivity. }
  intros Hc Hs series a Hatr Ha factor movement.
  assert (Hdir : Interpreter.monotone env ->
            Binary64.rnd (close last) = Num (close last) ->
            forall c x : Q,
              Number.value confidence = Num c -> 0 <= c <= 100 ->
              a = Num x -> 0 <= x ->
              fle (Number.value (Interpreter.round env price 2))
                  (Number.value (Interpreter.round env (price + movement)%num 2))
              /\
              fle (Number.value (Interpreter.round env (price - movement)%num 2))
                  (Number.value (Interpreter.round env price 2))).
  { intros Hmono Hp c x Ec Hc01 Ex Hx. subst a.
    destruct (confidence_factor_between confidence c Ec Hc01)
      as (f & Ef' & F0 & F1).
    assert (Ef : Number.value factor = Num f) by exact Ef'.
    assert (Hm : fle (Num 0) (Number.value movement)).
    { unfold movement. cbn [Number.mul Number.lift2 Number.value Number.float64].
      rewrite Ef. unfold F64.mul. cbn [F.mul F64.fl].
      replace (Num 0) with (Binary64.rnd 0) by reflexivity.
      apply rnd_mono. nra. }
    assert (Hp0 : F64.add (Num (close last)) (Num 0) = Num (close last)).
    { unfold F64.add. cbn [F.add F64.fl].
      rewrite (rnd_comp (close last + 0) (close last)) by ring. exact Hp. }
    assert (Hs0 : F64.sub (Num (close last)) (Num 0) = Num (close last)).
    { unfold F64.sub, F.sub. cbn [F.neg F.add F64.fl].
      rewrite (rnd_comp (close last + - 0) (close last)) by ring. exact Hp. }
    unfold Interpreter.round, price.
    cbn [Number.add Number.sub Number.lift2 Number.kind_of Number.value
         Number.float64 Number.join].
    split; apply Hmono.
    - rewrite <- Hp0 at 1. apply add_mono_r. exact Hm.
    - rewrite <- Hs0 at 2. apply sub_anti_r. exact Hm. }
  unfold out, Runtime.TargetPriceCalculator.calculate_target,
    Runtime.TargetPriceCalculator.attempt.
  rewrite Hc, Hatr. cbn [bind]. rewrite Ha. cbn [bind]. rewrite Hclose.
  cbn [bind].
  fold factor. unfold Runtime.TargetPriceCalculator.movement_of.
  fold factor. fold movement.
  destruct signal; [| |congruence].
  - cbn [Signal_eqb Runtime.TargetPriceCalculator.target_of].
    eexists. eexists. split; [reflexivity|].
    cbn [Runtime.TargetPriceCalculator.reason
         Runtime.TargetPriceCalculator.target_price
         Runtime.TargetPriceCalculator.target_type
         Runtime.TargetPriceCalculator.current_price].
    split; [reflexivity|]. split; [reflexivity|]. split; [reflexivity|].
    split; [intros _; split; reflexivity|].
    split; [intro; discriminate|].
    intros Hmono Hp c x Ec Hc01 Ex Hx.
    destruct (Hdir Hmono Hp c x Ec Hc01 Ex Hx) as [H1 _].
    split; [intros _; exact H1 | intro; discriminate].
  - cbn [Signal_eqb Runtime.TargetPriceCalculator.target_of].
    eexists. eexists. split; [reflexivity|].
    cbn [Runtime.TargetPriceCalculator.reason
         Runtime.TargetPriceCalculator.target_price
         Runtime.TargetPriceCalculator.target_type
         Runtime.TargetPriceCalculator.current_price].
    split; [reflexivity|]. split; [reflexivity|]. split; [reflexivity|].
    split; [intro; discriminate|].
    split; [intros _; split; reflexivity|].
    intros Hmono Hp c x Ec Hc01 Ex Hx.
    destruct (Hdir Hmono Hp c x Ec Hc01 Ex Hx) as [_ H2].
    split; [intro; discriminate | intros _; exact H2].
Qed.

Lemma calculate_target_gate_and_direction_witness :
  exists r target,
    Runtime.TargetPriceCalculator.calculate_target Interpreter.reference
      Samples.steady_atr (TargetPriceCalculator.__init__ None)
      TargetPriceCalculator.flat_window BUY (Number.lit 80.0) (Number.int 60)
    = Some r /\
    Runtime.TargetPriceCalculator.target_type r = Some TargetPriceCalculator.HIGH /\
    Runtime.TargetPriceCalculator.target_price r = Some target /\
    target = Number.float64 (F64.lit 103.4) /\
    fle (Number.value (Runtime.TargetPriceCalculator.current_price r))
        (Number.value target).
Proof.
  destruct (calculate_target_gate_and_direction Interpreter.reference
              Samples.steady_atr (TargetPriceCalculator.__init__ None)
              TargetPriceCalculator.flat_window
              (TargetPriceCalculator.flat_candle 14 100) BUY
              (Number.lit 80.0) (Number.int 60) eq_refl)
    as (_ & _ & _ & H).
  destruct (H eq_refl ltac:(discriminate)
              (map (fun _ => Num 2) TargetPriceCalculator.flat_window) (Num 2)
              eq_refl eq_refl)
    as (r & target & Hr & _ & Hp & _ & Hbuy & _ & Hdir).
  destruct (Hbuy eq_refl) as [Ht Hty].
  exists r, target.
  split; [exact Hr|]. split; [exact Hty|]. split; [exact Hp|].
  split; [rewrite Ht; vm_compute; reflexivity|].
  apply (Hdir reference_monotone eq_refl 80 2); try reflexivity.
  - split; unfold Qle; cbn; lia.
  - unfold Qle; cbn; lia.
Defined.

(** C6 as stated fails on a window of constant price: every true range is
    zero, the movement is zero, and the BUY target is the current price,
    not a price above it; the SELL target is the current price too. *)
Lemma calculate_target_flat_window :
  (exists r target,
     Runtime.TargetPriceCalculator.calculate_target Interpreter.reference
       TargetPriceCalculator.zero_atr (TargetPriceCalculator.__init__ None)
       TargetPriceCalculator.flat_window BUY (Number.lit 80.0) (Number.int 60)
     = Some r /\
     Runtime.TargetPriceCalculator.target_type r
     = Some TargetPriceCalculator.HIGH /\
     Runtime.TargetPriceCalculator.target_price r = Some target /\
     target = Runtime.TargetPriceCalculator.current_price r /\
     (Runtime.TargetPriceCalculator.current_price r <? target)%num = false) /\
  (exists r target,
     Runtime.TargetPriceCalculator.calculate_target Interpreter.reference
       TargetPriceCalculator.zero_atr (TargetPriceCalculator.__init__ None)
       TargetPriceCalculator.flat_window SELL (Number.lit 80.0) (Number.int 60)
     = Some r /\
     Runtime.TargetPriceCalculator.target_type r
     = Some TargetPriceCalculator.LOW /\
     Runtime.TargetPriceCalculator.target_price r = Some target /\
     target = Runtime.TargetPriceCalculator.current_price r /\
     (target <? Runtime.TargetPriceCalculator.current_price r)%num = false).
Proof.
  split; eexists; eexists; (split; [vm_compute; reflexivity|]);
    cbn; repeat split.
Qed.

(** The rounding decides the last digit.  At a close of 2, with an average
    true range of 1.35 and a confidence of 0, the target before rounding
    is the float 2.675, below the decimal 2.675: the rounding of Python
    floats takes it to 2.67, the rounding numpy documents to 2.68. *)
Example calculate_target_rounds_the_float :
  let ta_atr := fun (_ : DataFrame) (_ : Z) => Ok [F64.lit 1.35] in
  let df := [TargetPriceCalculator.flat_candle 1 2] in
  let run (env : Interpreter.t) :=
    option_map Runtime.TargetPriceCalculator.target_price
      (Runtime.TargetPriceCalculator.calculate_target env ta_atr
         (TargetPriceCalculator.__init__ None) df BUY (Number.int 0)
         (Number.int 0)) in
  (Number.float64 (Num 2) + Number.float64 (F64.lit 1.35) * Number.lit 0.5)%num
  = Number.float64 (F64.lit 2.675) /\
  run RuntimeSamples.python_rounding
  = Some (Some (Number.float64 (F64.lit 2.67))) /\
  run Interpreter.reference = Some (Some (Number.float64 (F64.lit 2.68))).
Proof. vm_compute. repeat split. Qed.

(** X13.  Past the gates, with a confidence between 0 and 100, an average
    true range [a] that is a number and not negative, and a rounding of
    numpy scalars that keeps the order, the target returned for BUY lies
    between the rounded [close + a * 0.5] and the rounded [close + a * 2],
    and the target returned for SELL between the rounded [close - a * 2]
    and the rounded [close - a * 0.5], all computed in binary64
    arithmetic: the target is between half the ATR and twice the ATR away
    from the last close. *)
Theorem calculate_target_reach :
  forall (env : Interpreter.t)
         (ta_atr : DataFrame -> Z -> result (list fval))
         (self : TargetPriceCalculator.t) (df : DataFrame) (last : Candle)
         (signal : Signal) (confidence min_confidence : Number.t)
         (series : list fval) (c a : Q),
    iloc_last df = Ok last ->
    (confidence <? min_confidence)%num = false -> signal <> NEUTRAL ->
    ta_atr df (TargetPriceCalculator.atr_period self) = Ok series ->
    iloc_last series = Ok (Num a) ->
    Number.value confidence = Num c -> 0 <= c <= 100 -> 0 <= a ->
    Interpreter.monotone env ->
    let price := Num (close last) in
    let rounded (x : fval) := Interpreter.np_round env x 2 in
    exists r target,
      Runtime.TargetPriceCalculator.calculate_target env ta_atr self df signal
        confidence min_confidence = Some r /\
      Runtime.TargetPriceCalculator.target_price r = Some target /\
      (signal = BUY ->
         fle (rounded (F64.add price (F64.mul (Num a) (F64.lit 0.5))))
             (Number.value target) /\
         fle (Number.value target)
             (rounded (F64.add price (F64.mul (Num a) (Num 2))))) /\
      (signal = SELL ->
         fle (rounded (F64.sub price (F64.mul (Num a) (Num 2))))
             (Number.value target) /\
         fle (Number.value target)
             (rounded (F64.sub price (F64.mul (Num a) (F64.lit 0.5))))).
Proof.
  intros env ta_atr self df last signal confidence min_confidence series c a
    Hlast Hc Hs Hatr Ha Ec Hc01 Hpos Hmono price rounded.
  pose proof (runtime_last_close df last Hlast) as Hclose.
  destruct (confidence_factor_between confidence c Ec Hc01) as (f & Ef & F0 & F1).
  set (movement := Runtime.TargetPriceCalculator.movement_of
                     (Number.float64 (Num a)) confidence).
  assert (Em : Number.value movement = Binary64.rnd (a * f)).
  { unfold movement, Runtime.TargetPriceCalculator.movement_of.
    cbn [Number.mul Number.lift2 Number.value Number.float64].
    rewrite Ef. reflexivity. }
  assert (Hlo : fle (F64.mul (Num a) (F64.lit 0.5)) (Number.value movement)).
  { rewrite Em. unfold F64.lit.
    replace (Binary64.rnd 0.5) with (Num (1 # 2)) by (vm_compute; reflexivity).
    unfold F64.mul. cbn [F.mul F64.fl]. apply rnd_mono. nra. }
  assert (Hhi : fle (Number.value movement) (F64.mul (Num a) (Num 2))).
  { rewrite Em. unfold F64.mul. cbn [F.mul F64.fl]. apply rnd_mono. nra. }
  unfold Runtime.TargetPriceCalculator.calculate_target,
    Runtime.TargetPriceCalculator.attempt.
  rewrite Hc, Hatr. cbn [bind]. rewrite Ha. cbn [bind]. rewrite Hclose.
  cbn [bind]. fold movement.
  destruct signal; [| |congruence].
  - cbn [Signal_eqb Runtime.TargetPriceCalculator.target_of].
    eexists. eexists. split; [reflexivity|].
    cbn [Runtime.TargetPriceCalculator.target_price]. split; [reflexivity|].
    split; [intros _ | intro; discriminate].
    unfold Interpreter.round, rounded, price.
    cbn [Number.add Number.lift2 Number.kind_of Number.value Number.float64
         Number.join].
    split; apply Hmono; apply add_mono_r; assumption.
  - cbn [Signal_eqb Runtime.TargetPriceCalculator.target_of].
    eexists. eexists. split; [reflexivity|].
    cbn [Runtime.TargetPriceCalculator.target_price]. split; [reflexivity|].
    split; [intro; discriminate | intros _].
    unfold Interpreter.round, rounded, price.
    cbn [Number.sub Number.lift2 Number.kind_of Number.value Number.float64
         Number.join].
    split; apply Hmono; apply sub_anti_r; assumption.
Qed.

Lemma calculate_target_reach_witness :
  exists r target,
    Runtime.TargetPriceCalculator.calculate_target Interpreter.reference
      Samples.steady_atr (TargetPriceCalculator.__init__ None)
      TargetPriceCalculator.flat_window SELL (Number.lit 80.0) (Number.int 60)
    = Some r /\
    Runtime.TargetPriceCalculator.target_price r = Some target /\
    fle (F64.lit 96.0) (Number.value target) /\
    fle (Number.value target) (F64.lit 99.0).
Proof.
  destruct (calculate_target_reach Interpreter.reference Samples.steady_atr
              (TargetPriceCalculator.__init__ None)
              TargetPriceCalculator.flat_window
              (TargetPriceCalculator.flat_candle 14 100) SELL
              (Number.lit 80.0) (Number.int 60)
              (map (fun _ => Num 2) TargetPriceCalculator.flat_window) 80 2
              eq_refl eq_refl)
    as (r & target & Hr & Ht & _ & Hsell).
  - discriminate.
  - reflexivity.
  - reflexivity.
  - reflexivity.
  - split; unfold Qle; cbn; lia.
  - unfold Qle; cbn; lia.
  - exact reference_monotone.
  - exists r, target. split; [exact Hr|]. split; [exact Ht|].
    exact (Hsell eq_refl).
Defined.

(** ** The serialization cleaner and the integers too large for a float *)

Lemma traverse_fits {A B : Type} (f : A -> result B) (g : A -> B)
  (fit : A -> bool) (l : list A) :
  Forall (fun x => (fit x = true -> f x = Ok (g x)) /\
                   (fit x = false -> f x = Raise OverflowError)) l ->
  (forallb fit l = true ->
     Runtime.PredictionEngine.traverse f l = Ok (map g l)) /\
  (forallb fit l = false ->
     Runtime.PredictionEngine.traverse f l = Raise OverflowError).
Proof.
  induction 1 as [|x l [T N] _ [IT IN]]; [split; [reflexivity | discriminate]|].
  cbn [forallb Runtime.PredictionEngine.traverse map].
  destruct (fit x).
  - rewrite (T eq_refl). cbn [bind andb].
    destruct (forallb fit l).
    + split; [intros _ | discriminate].
      fold (Runtime.PredictionEngine.traverse f l).
      rewrite (IT eq_refl). reflexivity.
    + split; [discriminate | intros _].
      fold (Runtime.PredictionEngine.traverse f l).
      rewrite (IN eq_refl). reflexivity.
  - rewrite (N eq_refl). split; [discriminate | reflexivity].
Qed.

(** The cleaner returns what the function without exceptions computes when
    every integer converts to a float, and raises otherwise. *)
Lemma clean_runs (obj : PredictionEngine.pyval) :
  (Runtime.PredictionEngine.ints_fit obj = true ->
     Runtime.PredictionEngine._clean_for_serialization obj
     = Ok (PredictionEngine._clean_for_serialization obj)) /\
  (Runtime.PredictionEngine.ints_fit obj = false ->
     Runtime.PredictionEngine._clean_for_serialization obj
     = Raise OverflowError).
Proof.
  revert obj. fix IH 1. intro obj.
  assert (Items : forall items : list (string * PredictionEngine.pyval),
            Forall (fun x => ((let '(_, v) := x in
                               Runtime.PredictionEngine.ints_fit v) = true ->
                              (let '(k, v) := x in
                               v <- Runtime.PredictionEngine._clean_for_serialization v ;;
                               Ok (k, v))
                              = Ok (let '(k, v) := x in
                                    (k, PredictionEngine._clean_for_serialization v))) /\
                             ((let '(_, v) := x in
                               Runtime.PredictionEngine.ints_fit v) = false ->
                              (let '(k, v) := x in
                               v <- Runtime.PredictionEngine._clean_for_serialization v ;;
                               Ok (k, v))
                              = Raise OverflowError)) items ->
            (forallb (fun '(_, v) => Runtime.PredictionEngine.ints_fit v) items = true ->
             (items' <- Runtime.PredictionEngine.traverse
                          (fun '(k, v) =>
                             v <- Runtime.PredictionEngine._clean_for_serialization v ;;
                             Ok (k, v)) items ;;
              Ok (PredictionEngine.PDict items'))
             = Ok (PredictionEngine.PDict
                     (map (fun '(k, v) =>
                             (k, PredictionEngine._clean_for_serialization v))
                        items))) /\
            (forallb (fun '(_, v) => Runtime.PredictionEngine.ints_fit v) items = false ->
             (items' <- Runtime.PredictionEngine.traverse
                          (fun '(k, v) =>
                             v <- Runtime.PredictionEngine._clean_for_serialization v ;;
                             Ok (k, v)) items ;;
              Ok (PredictionEngine.PDict items'))
             = Raise OverflowError)).
  { intros items HF.
    destruct (traverse_fits _ _ _ items HF) as [T N].
    split; intro H; [rewrite (T H) | rewrite (N H)]; reflexivity. }
  assert (Pair : forall (k : string) (v : PredictionEngine.pyval),
            (Runtime.PredictionEngine.ints_fit v = true ->
             Runtime.PredictionEngine._clean_for_serialization v
             = Ok (PredictionEngine._clean_for_serialization v)) /\
            (Runtime.PredictionEngine.ints_fit v = false ->
             Runtime.PredictionEngine._clean_for_serialization v
             = Raise OverflowError) ->
            ((let '(_, v) := (k, v) in
              Runtime.PredictionEngine.ints_fit v) = true ->
             (let '(k, v) := (k, v) in
              v <- Runtime.PredictionEngine._clean_for_serialization v ;;
              Ok (k, v))
             = Ok (let '(k, v) := (k, v) in
                   (k, PredictionEngine._clean_for_serialization v))) /\
            ((let '(_, v) := (k, v) in
              Runtime.PredictionEngine.ints_fit v) = false ->
             (let '(k, v) := (k, v) in
              v <- Runtime.PredictionEngine._clean_for_serialization v ;;
              Ok (k, v))
             = Raise OverflowError)).
  { intros k v [T N]. cbn beta iota.
    split; intro H; [rewrite (T H) | rewrite (N H)]; reflexivity. }
  assert (List : forall l : list PredictionEngine.pyval,
            Forall (fun v =>
                      (Runtime.PredictionEngine.ints_fit v = true ->
                       Runtime.PredictionEngine._clean_for_serialization v
                       = Ok (PredictionEngine._clean_for_serialization v)) /\
                      (Runtime.PredictionEngine.ints_fit v = false ->
                       Runtime.PredictionEngine._clean_for_serialization v
                       = Raise OverflowError)) l ->
            (forallb Runtime.PredictionEngine.ints_fit l = true ->
             (l' <- Runtime.PredictionEngine.traverse
                      Runtime.PredictionEngine._clean_for_serialization l ;;
              Ok (PredictionEngine.PList l'))
             = Ok (PredictionEngine.PList
                     (map PredictionEngine._clean_for_serialization l))) /\
            (forallb Runtime.PredictionEngine.ints_fit l = false ->
             (l' <- Runtime.PredictionEngine.traverse
                      Runtime.PredictionEngine._clean_for_serialization l ;;
              Ok (PredictionEngine.PList l'))
             = Raise OverflowError)).
  { intros l HF.
    destruct (traverse_fits _ _ _ l HF) as [T N].
    split; intro H; [rewrite (T H) | rewrite (N H)]; reflexivity. }
  destruct obj as [ | b | z | f | s | items | l | l | l | items | records
                  | f | z | b | iso ];
    try (split; [reflexivity | discriminate]).
  - cbn. destruct (Runtime.PredictionEngine.fits_float z);
      split; try reflexivity; discriminate.
  - apply Items.
    induction items as [|[k v] items IHl]; constructor;
      [apply Pair, IH | exact IHl].
  - apply List. induction l as [|v l IHl]; constructor; [apply IH | exact IHl].
  - apply List. induction l as [|v l IHl]; constructor; [apply IH | exact IHl].
  - apply List. induction l as [|v l IHl]; constructor; [apply IH | exact IHl].
  - apply Items.
    induction items as [|[k v] items IHl]; constructor;
      [apply Pair, IH | exact IHl].
  - cbn [Runtime.PredictionEngine.ints_fit
         Runtime.PredictionEngine._clean_for_serialization
         PredictionEngine._clean_for_serialization].
    destruct (traverse_fits
                (fun row =>
                   items <- Runtime.PredictionEngine.traverse
                              (fun '(k, v) =>
                                 v <- Runtime.PredictionEngine._clean_for_serialization v ;;
                                 Ok (k, v)) row ;;
                   Ok (PredictionEngine.PDict items))
                (fun row =>
                   PredictionEngine.PDict
                     (map (fun '(k, v) =>
                             (k, PredictionEngine._clean_for_serialization v))
                        row))
                (fun row =>
                   forallb (fun '(_, v) => Runtime.PredictionEngine.ints_fit v)
                     row)
                records) as [T N].
    { induction records as [|row records IHr]; constructor; [|exact IHr].
      apply Items.
      induction row as [|[k v] row IHl]; constructor;
        [apply Pair, IH | exact IHl]. }
    split; intro H; [rewrite (T H) | rewrite (N H)]; reflexivity.
Qed.

(** X18.  For a structure made of the values a prediction holds ([None],
    booleans, integers, floats, strings, dictionaries and series with string
    keys, lists, tuples, numpy arrays and scalars, data frames and
    datetimes): when every Python integer in it converts to a float,
    [_clean_for_serialization] returns a structure made of [None],
    booleans, integers, floats, strings, dictionaries and lists only, and a
    dictionary keeps its keys in their order; when one does not, line 186
    raises [OverflowError]. *)
Theorem clean_is_json_native :
  forall obj : PredictionEngine.pyval,
    (Runtime.PredictionEngine.ints_fit obj = true ->
     exists out,
       Runtime.PredictionEngine._clean_for_serialization obj = Ok out /\
       PredictionEngine.json_native out = true /\
       (forall items, obj = PredictionEngine.PDict items ->
          exists items',
            out = PredictionEngine.PDict items' /\
            map fst items' = map fst items)) /\
    (Runtime.PredictionEngine.ints_fit obj = false ->
     Runtime.PredictionEngine._clean_for_serialization obj
     = Raise OverflowError).
Proof.
  intro obj. destruct (clean_runs obj) as [T N].
  split; [intro H | exact N].
  exists (PredictionEngine._clean_for_serialization obj).
  split; [exact (T H)|]. split; [apply clean_is_json_native_aux|].
  intros items ->. clear T N H. cbn. eexists. split; [reflexivity|].
  induction items as [|[k v] items IHl]; [reflexivity|].
  cbn. rewrite IHl. reflexivity.
Qed.

Lemma clean_is_json_native_witness :
  (exists out,
     Runtime.PredictionEngine._clean_for_serialization Samples.nan_prediction
     = Ok out /\
     PredictionEngine.json_native out = true) /\
  Runtime.PredictionEngine._clean_for_serialization
    RuntimeSamples.huge_prediction = Raise OverflowError.
Proof.
  split.
  - destruct (proj1 (clean_is_json_native Samples.nan_prediction) eq_refl)
      as (out & E & J & _).
    exists out. split; assumption.
  - apply (proj2 (clean_is_json_native RuntimeSamples.huge_prediction)).
    reflexivity.
Defined.

(** ** Support and resistance in binary64 arithmetic *)

Lemma runtime_nearest_below_fold (price : fval) (levels : list fval) :
  forall (acc : option fval) (s : fval),
    fold_left
      (fun nearest level =>
         if F.ltb level price then
           match nearest with
           | None => Some level
           | Some n => if F.ltb n level then Some level else nearest
           end
         else nearest)
      levels acc = Some s ->
    acc = Some s \/ (In s levels /\ F.ltb s price = true).
Proof.
  induction levels as [|level rest IH]; intros acc s H; [left; exact H|].
  cbn [fold_left] in H. destruct (IH _ _ H) as [E | [Hin Hlt]].
  - destruct (F.ltb level price) eqn:L; [|left; exact E].
    destruct acc as [n|].
    + destruct (F.ltb n level); [|left; exact E].
      injection E as E. subst s. right. split; [left; reflexivity | exact L].
    + injection E as E. subst s. right. split; [left; reflexivity | exact L].
  - right. split; [right; exact Hin | exact Hlt].
Qed.

Lemma runtime_nearest_above_fold (price : fval) (levels : list fval) :
  forall (acc : option fval) (s : fval),
    fold_left
      (fun nearest level =>
         if F.ltb price level then
           match nearest with
           | None => Some level
           | Some n => if F.ltb level n then Some level else nearest
           end
         else nearest)
      levels acc = Some s ->
    acc = Some s \/ (In s levels /\ F.ltb price s = true).
Proof.
  induction levels as [|level rest IH]; intros acc s H; [left; exact H|].
  cbn [fold_left] in H. destruct (IH _ _ H) as [E | [Hin Hlt]].
  - destruct (F.ltb price level) eqn:L; [|left; exact E].
    destruct acc as [n|].
    + destruct (F.ltb level n); [|left; exact E].
      injection E as E. subst s. right. split; [left; reflexivity | exact L].
    + injection E as E. subst s. right. split; [left; reflexivity | exact L].
  - right. split; [right; exact Hin | exact Hlt].
Qed.

(** The float difference of two ordered floats is not negative. *)
Lemma sub_nonneg (a b : fval) :
  F.ltb a b = true -> fle (Num 0) (F64.sub b a).
Proof.
  destruct a as [x| |[|]], b as [y| |[|]]; cbn; intro H;
    try discriminate; try reflexivity.
  apply ltb_lt in H.
  change (fle (Binary64.rnd 0) (Binary64.rnd (y + - x))).
  apply rnd_mono. lra.
Qed.

(** A gap that is not negative is a percentage of a positive price that is
    not negative. *)
Lemma percent_nonneg (gap : fval) (price : Q) :
  0 < price -> fle (Num 0) gap ->
  fle (Num 0) (F64.mul (F64.div gap (Num price)) (Num 100)).
Proof.
  intros Hp H.
  assert (E : F64.div (Num 0) (Num price) = Num 0).
  { unfold F64.div. cbn [F.div].
    assert (Ep : Qeq_bool price 0 = false).
    { destruct (Qeq_bool price 0) eqn:E; [|reflexivity].
      apply Qeq_bool_iff in E. lra. }
    rewrite Ep. cbn [F64.fl].
    change (Num 0) with (Binary64.rnd 0). apply rnd_comp. field. lra. }
  pose proof (div_mono_l _ _ price Hp H) as D. rewrite E in D.
  pose proof (mul_mono_l _ _ 100 ltac:(lra) D) as M.
  exact M.
Qed.

(** Less than 1% from the level, the confidence is a float between 60 and
    90, which the cap at 100 leaves as it is. *)
Lemma near_confidence_between (d : fval) :
  fle (Num 0) d -> F.ltb d (Num 1) = true ->
  exists x,
    Runtime.SupportResistanceStrategy.scaled 60 (F64.sub (F64.lit 1.0) d) 30
    = Number.float64 (Num x) /\ 60 <= x <= 90.
Proof.
  intros H0 H1.
  destruct d as [v| |[|]]; try discriminate.
  apply fle_num in H0. cbn [F.ltb] in H1. apply ltb_lt in H1.
  unfold Runtime.SupportResistanceStrategy.scaled.
  replace (F64.lit 1.0) with (Num 1) by reflexivity.
  unfold F64.sub. cbn [F.sub F.add F.neg F64.fl].
  destruct (rnd_between 0 1 (1 + - v)) as (u & Eu & U0 & U1);
    [reflexivity | reflexivity | lra |].
  rewrite Eu.
  unfold Number.mul, Number.add, Number.lift2.
  cbn [Number.value Number.kind_of Number.float64 Number.int Number.float
       Number.join].
  unfold F64.mul. cbn [F.mul F64.fl].
  destruct (rnd_between 0 30 (u * inject_Z 30)) as (w & Ew & W0 & W1);
    [reflexivity | reflexivity | change (inject_Z 30) with 30; lra |].
  rewrite Ew.
  unfold F64.add. cbn [F.add F64.fl].
  destruct (rnd_between 60 90 (inject_Z 60 + w)) as (x & Ex & X0 & X1);
    [reflexivity | reflexivity | change (inject_Z 60) with 60; lra |].
  rewrite Ex.
  exists x. split; [|split; assumption].
  unfold Number.min, Number.ltb.
  cbn [Number.value Number.int Number.float F.ltb].
  replace (Py.ltb x (inject_Z 100)) with true; [reflexivity|].
  symmetry. apply ltb_lt. change (inject_Z 100) with 100. lra.
Qed.

(** With the nearest support below a positive price and the nearest
    resistance above it, the breakout and breakdown branches are dead. *)
Lemma runtime_classify_cases (price : Q) (ns nr : option fval) :
  (forall s, ns = Some s -> F.ltb s (Num price) = true) ->
  (forall x, nr = Some x -> F.ltb (Num price) x = true) ->
  let p := Num price in
  let sd :=
    Runtime.SupportResistanceStrategy.distance p (fun l => F64.sub p l) ns in
  let rd :=
    Runtime.SupportResistanceStrategy.distance p (fun l => F64.sub l p) nr in
  let out := Runtime.SupportResistanceStrategy.classify p ns nr sd rd in
  (exists s d,
      ns = Some s /\
      d = F64.mul (F64.div (F64.sub p s) p) (Num 100) /\
      F.ltb d (Num 1) = true /\
      out = (BUY, Runtime.SupportResistanceStrategy.scaled 60
                    (F64.sub (F64.lit 1.0) d) 30)) \/
  (exists x d,
      nr = Some x /\
      d = F64.mul (F64.div (F64.sub x p) p) (Num 100) /\
      F.ltb d (Num 1) = true /\
      out = (SELL, Runtime.SupportResistanceStrategy.scaled 60
                     (F64.sub (F64.lit 1.0) d) 30)) \/
  out = (NEUTRAL, Number.int 30).
Proof.
  intros Hs Hr p sd rd out.
  assert (Near : forall (g : fval -> fval) (l : option fval) (d : fval),
             Runtime.SupportResistanceStrategy.near
               (Runtime.SupportResistanceStrategy.distance p g l) = Some d ->
             exists s, l = Some s /\
                       d = F64.mul (F64.div (g s) p) (Num 100) /\
                       F.ltb d (Num 1) = true).
  { intros g l d H.
    unfold Runtime.SupportResistanceStrategy.near,
      Runtime.SupportResistanceStrategy.distance in H.
    destruct l as [s|]; [|discriminate].
    destruct (SupportResistanceStrategy.ftruthy (Some s)); [|discriminate].
    destruct (F.ltb (F64.mul (F64.div (g s) p) (Num 100)) (Num 1)) eqn:L;
      [|discriminate].
    injection H as H. subst d. exists s. repeat split. exact L. }
  unfold out, Runtime.SupportResistanceStrategy.classify.
  destruct (Runtime.SupportResistanceStrategy.near sd) as [d|] eqn:Esd.
  { left. destruct (Near _ _ _ Esd) as (s & E & Hd & L).
    exists s, d. repeat split; assumption. }
  destruct (Runtime.SupportResistanceStrategy.near rd) as [d|] eqn:Erd.
  { right. left. destruct (Near _ _ _ Erd) as (x & E & Hd & L).
    exists x, d. repeat split; assumption. }
  right. right.
  assert (B1 : Runtime.SupportResistanceStrategy.beyond nr
                 (fun x => F.ltb x p) = None).
  { unfold Runtime.SupportResistanceStrategy.beyond.
    destruct nr as [x|]; [|reflexivity].
    cbv beta. unfold p.
    rewrite (F_ltb_asym _ _ (Hr x eq_refl)), andb_false_r. reflexivity. }
  assert (B2 : Runtime.SupportResistanceStrategy.beyond ns
                 (fun s => F.ltb p s) = None).
  { unfold Runtime.SupportResistanceStrategy.beyond.
    destruct ns as [s|]; [|reflexivity].
    cbv beta. unfold p.
    rewrite (F_ltb_asym _ _ (Hs s eq_refl)), andb_false_r. reflexivity. }
  rewrite B1, B2. reflexivity.
Qed.

(** X24.  In binary64 arithmetic, and whatever [numpy.mean] and the
    rounding of numpy scalars compute: on a window whose last close is
    positive the strategy raises nothing.  It answers BUY only when a
    support cluster lies below the price and the float distance
    [((price - s) / price) * 100] is below 1, SELL only when a resistance
    cluster lies above the price at a float distance
    [((s - price) / price) * 100] below 1, and NEUTRAL otherwise: the
    breakout and breakdown branches of lines 150-160 are never taken,
    because the nearest resistance is above the price and the nearest
    support below it.  The confidence is 30 for NEUTRAL; for BUY and SELL
    it is the rounding to two decimals of the float
    [60 + (1.0 - distance) * 30], which lies between 60 and 90, so that
    with a rounding that keeps the order the confidence returned lies
    between the roundings of 60 and of 90. *)
Theorem support_resistance_signals :
  forall (env : Interpreter.t) (self : Runtime.SupportResistanceStrategy.t)
         (df : DataFrame) (last : Candle),
    iloc_last df = Ok last ->
    0 < close last ->
    let price := Num (close last) in
    let window :=
      SupportResistanceStrategy.tail
        (Runtime.SupportResistanceStrategy.lookback self) df in
    let supports :=
      Runtime.SupportResistanceStrategy._cluster_levels env self
        (fst (SupportResistanceStrategy._find_pivots window)) in
    let resistances :=
      Runtime.SupportResistanceStrategy._cluster_levels env self
        (snd (SupportResistanceStrategy._find_pivots window)) in
    let r := Runtime.SupportResistanceStrategy.calculate env self df in
    let near_confidence (d : fval) : Number.t :=
      (Number.int 60 + (Number.lit 1.0 - Number.float64 d) * Number.int 30)%num in
    Runtime.SupportResistanceStrategy.error r = None /\
    (Runtime.SupportResistanceStrategy.signal r = NEUTRAL ->
       Runtime.SupportResistanceStrategy.confidence r = Number.int 30) /\
    (Runtime.SupportResistanceStrategy.signal r = BUY ->
       exists s d,
         In s supports /\ F.ltb s price = true /\
         d = F64.mul (F64.div (F64.sub price s) price) (Num 100) /\
         F.ltb d (Num 1) = true /\
         Runtime.SupportResistanceStrategy.confidence r
         = Interpreter.round env (near_confidence d) 2) /\
    (Runtime.SupportResistanceStrategy.signal r = SELL ->
       exists s d,
         In s resistances /\ F.ltb price s = true /\
         d = F64.mul (F64.div (F64.sub s price) price) (Num 100) /\
         F.ltb d (Num 1) = true /\
         Runtime.SupportResistanceStrategy.confidence r
         = Interpreter.round env (near_confidence d) 2) /\
    (Runtime.SupportResistanceStrategy.signal r <> NEUTRAL ->
       exists x,
         60 <= x <= 90 /\
         Runtime.SupportResistanceStrategy.confidence r
         = Number.float64 (Interpreter.np_round env (Num x) 2) /\
         (Interpreter.monotone env ->
          fle (Interpreter.np_round env (Num 60) 2)
              (Number.value (Runtime.SupportResistanceStrategy.confidence r)) /\
          fle (Number.value (Runtime.SupportResistanceStrategy.confidence r))
              (Interpreter.np_round env (Num 90) 2))).
Proof.
  intros env self df last Hlast Hpos price window supports resistances r
         near_confidence.
  assert (Hclose : iloc_last (map close df) = Ok (close last))
    by (apply (iloc_last_map close df last Hlast)).
  set (ns := Runtime.SupportResistanceStrategy.nearest_below price supports).
  set (nr := Runtime.SupportResistanceStrategy.nearest_above price resistances).
  assert (Hs : forall s, ns = Some s -> In s supports /\ F.ltb s price = true).
  { intros s H.
    destruct (runtime_nearest_below_fold price supports None s H) as [E | H'];
      [discriminate | exact H']. }
  assert (Hr : forall x, nr = Some x -> In x resistances /\ F.ltb price x = true).
  { intros x H.
    destruct (runtime_nearest_above_fold price resistances None x H) as [E | H'];
      [discriminate | exact H']. }
  pose proof (runtime_classify_cases (close last) ns nr
                (fun s H => proj2 (Hs s H)) (fun x H => proj2 (Hr x H))) as Hc.
  cbv zeta in Hc. fold price in Hc.
  set (sd := Runtime.SupportResistanceStrategy.distance price
               (fun l => F64.sub price l) ns) in Hc.
  set (rd := Runtime.SupportResistanceStrategy.distance price
               (fun l => F64.sub l price) nr) in Hc.
  set (out := Runtime.SupportResistanceStrategy.classify price ns nr sd rd) in Hc.
  assert (Hsig : Runtime.SupportResistanceStrategy.signal r = fst out /\
                 Runtime.SupportResistanceStrategy.confidence r
                 = Interpreter.round env (snd out) 2 /\
                 Runtime.SupportResistanceStrategy.error r = None).
  { unfold r, Runtime.SupportResistanceStrategy.calculate.
    destruct (SupportResistanceStrategy._find_pivots
                (SupportResistanceStrategy.tail
                   (Runtime.SupportResistanceStrategy.lookback self) df))
      as [sl rl] eqn:Ep.
    rewrite Hclose. cbn [bind].
    unfold out, sd, rd, ns, nr, supports, resistances, window, price.
    rewrite Ep. cbn [fst snd].
    match goal with
    | |- context [Runtime.SupportResistanceStrategy.classify ?a ?b ?c ?d ?e] =>
        destruct (Runtime.SupportResistanceStrategy.classify a b c d e)
          as [sg cf]
    end.
    cbn [Runtime.SupportResistanceStrategy.signal
         Runtime.SupportResistanceStrategy.confidence
         Runtime.SupportResistanceStrategy.error fst snd].
    repeat split. }
  destruct Hsig as (Hsig & Hconf & Herr).
  assert (Hbounds : forall d,
             fle (Num 0) d -> F.ltb d (Num 1) = true ->
             snd out = Runtime.SupportResistanceStrategy.scaled 60
                         (F64.sub (F64.lit 1.0) d) 30 ->
             Runtime.SupportResistanceStrategy.confidence r
             = Interpreter.round env (near_confidence d) 2 /\
             exists x,
               60 <= x <= 90 /\
               Runtime.SupportResistanceStrategy.confidence r
               = Number.float64 (Interpreter.np_round env (Num x) 2) /\
               (Interpreter.monotone env ->
                fle (Interpreter.np_round env (Num 60) 2)
                    (Number.value (Runtime.SupportResistanceStrategy.confidence r)) /\
                fle (Number.value (Runtime.SupportResistanceStrategy.confidence r))
                    (Interpreter.np_round env (Num 90) 2))).
  { intros d D0 D1 Eo.
    destruct (near_confidence_between d D0 D1) as (x & Ex & X0 & X1).
    assert (En : near_confidence d = Number.float64 (Num x)).
    { rewrite <- Ex. unfold Runtime.SupportResistanceStrategy.scaled,
        Number.min, Number.ltb.
      set (y := Number.add (Number.int 60)
                  (Number.mul (Number.float64 (F64.sub (F64.lit 1.0) d))
                     (Number.int 30))).
      change (near_confidence d) with y.
      unfold Runtime.SupportResistanceStrategy.scaled, Number.min,
        Number.ltb in Ex. fold y in Ex.
      destruct (F.ltb (Number.value y) (Number.value (Number.int 100)));
        [reflexivity|]. discriminate. }
    rewrite Hconf, Eo, Ex, En.
    split; [reflexivity|].
    exists x. split; [split; assumption|]. split; [reflexivity|].
    intro Hm. cbn [Interpreter.round Number.float64 Number.kind_of Number.value].
    split; apply Hm; apply fle_num; assumption. }
  split; [exact Herr|].
  destruct Hc as [(s & d & E1 & Hd & L & Hout)
                 | [(x & d & E1 & Hd & L & Hout) | Hout]].
  - destruct (Hs s E1) as [Hin Hlt].
    assert (D0 : fle (Num 0) d).
    { rewrite Hd. apply percent_nonneg; [exact Hpos|].
      apply sub_nonneg. exact Hlt. }
    destruct (Hbounds d D0 L ltac:(rewrite Hout; reflexivity)) as [Hc1 Hc2].
    rewrite Hsig, Hout. cbn [fst].
    split; [discriminate|].
    split; [intros _; exists s, d; repeat split; assumption|].
    split; [discriminate|].
    intros _. exact Hc2.
  - destruct (Hr x E1) as [Hin Hlt].
    assert (D0 : fle (Num 0) d).
    { rewrite Hd. apply percent_nonneg; [exact Hpos|].
      apply sub_nonneg. exact Hlt. }
    destruct (Hbounds d D0 L ltac:(rewrite Hout; reflexivity)) as [Hc1 Hc2].
    rewrite Hsig, Hout. cbn [fst].
    split; [discriminate|].
    split; [discriminate|].
    split; [intros _; exists x, d; repeat split; assumption|].
    intros _. exact Hc2.
  - rewrite Hsig, Hconf, Hout. cbn [fst snd].
    split; [intros _; reflexivity|].
    split; [discriminate|].
    split; [discriminate|].
    intro H. exfalso. apply H. reflexivity.
Qed.

Lemma support_resistance_signals_witness :
  let self := Runtime.SupportResistanceStrategy.__init__ None None in
  let r :=
    Runtime.SupportResistanceStrategy.calculate Interpreter.reference self
      RuntimeSamples.dip_window in
  Runtime.SupportResistanceStrategy.signal r = BUY /\
  Runtime.SupportResistanceStrategy.error r = None /\
  exists s d,
    In s (Runtime.SupportResistanceStrategy._cluster_levels
            Interpreter.reference self
            (fst (SupportResistanceStrategy._find_pivots
                    (SupportResistanceStrategy.tail 50
                       RuntimeSamples.dip_window)))) /\
    F.ltb s (Num 100.5) = true /\
    d = F64.mul (F64.div (F64.sub (Num 100.5) s) (Num 100.5)) (Num 100) /\
    F.ltb d (Num 1) = true /\
    Runtime.SupportResistanceStrategy.confidence r
    = Interpreter.round Interpreter.reference
        (Number.int 60 + (Number.lit 1.0 - Number.float64 d) * Number.int 30)%num
        2.
Proof.
  intros self r.
  pose proof (support_resistance_signals Interpreter.reference self
                RuntimeSamples.dip_window
                (RuntimeSamples.dip_candle 5 100.25 100.5)
                eq_refl eq_refl) as H.
  cbv zeta in H. destruct H as (Herr & _ & Hbuy & _).
  assert (E : Runtime.SupportResistanceStrategy.signal r = BUY)
    by (vm_compute; reflexivity).
  split; [exact E|]. split; [exact Herr|].
  exact (Hbuy E).
Defined.

(** The levels 100, 102 and 104.04 make two clusters in binary64
    arithmetic, where [(104.04 - 102) / 102] is above 0.02: the strategy
    answers BUY at a close of 104.5. *)
Example support_resistance_clusters_in_floats :
  let self := Runtime.SupportResistanceStrategy.__init__ None None in
  Runtime.SupportResistanceStrategy.within self
    (Binary64.nearest 102) (Binary64.nearest 104.04) = false /\
  Runtime.SupportResistanceStrategy.cluster_loop Interpreter.reference self
    [Binary64.nearest 102; Binary64.nearest 104.04] [] [Binary64.nearest 100]
  = [Num 101; F64.lit 104.04] /\
  Runtime.SupportResistanceStrategy.classify (Num 104.5) (Some (F64.lit 104.04))
    None
    (Runtime.SupportResistanceStrategy.distance (Num 104.5)
       (fun l => F64.sub (Num 104.5) l) (Some (F64.lit 104.04)))
    None
  = (BUY, Number.float64 (F64.lit 76.79425837320592)) /\
  Interpreter.round Interpreter.reference
    (Number.float64 (F64.lit 76.79425837320592)) 2
  = Number.float64 (F64.lit 76.79).
Proof. vm_compute. repeat split. Qed.
